(** * Index translation of TileDB-Segy: a shallow embedding

    The development follows [tiledb/segy/utils.py] (slice normalisation,
    [ensure_slice], the trace indexers and the label indexer) and
    [tilesegy/indexables.py] (the earlier label indexer and the [Lines]
    accessor).

    Modelling conventions:
    - Python integers are mathematical integers ([Z]).
    - The elements of a NumPy integer array are integers within the range of
      the array's dtype, and NumPy's arithmetic on them is fixed-width: the
      difference of two elements, and the sum of a NumPy scalar and a Python
      integer (which keeps the scalar's dtype, as in NumPy 2), wrap around at
      the ends of the range.
    - The index arrays NumPy itself builds ([np.arange], [np.unravel_index],
      [np.flatnonzero], [argsort] and indexing with them) have the dtype
      [intp].  Their elements are positions in arrays that exist in memory,
      far from the ends of the 64-bit range; arithmetic on them is modelled
      without wrap-around.
    - [None] is [option]'s [None]; a [slice] keeps its three optional fields.
    - A raised exception is a value of [exn]; fallible code lives in the
      [result] monad. *)

From Stdlib Require Import String.
From Stdlib Require Import ZArith List Lia Bool Sorted Permutation.
Import ListNotations.

Set Warnings "-register-all".

Open Scope string_scope.
Open Scope list_scope.
Open Scope Z_scope.

(** ** Exceptions and the error monad *)

(** The exception classes the modelled code raises, each with the fixed part
    of its message (formatted values are left out). *)
Inductive exn : Type :=
| ValueError (msg : string)
| MultiSliceError (msg : string)   (* subclass of ValueError *)
| TypeError (msg : string)
| IndexError (msg : string)
| AssertionError
| StopIteration
| ZeroDivisionError.

Inductive result (A : Type) : Type :=
| Ok (a : A)
| Raise (e : exn).

Arguments Ok {A} a.
Arguments Raise {A} e.

Definition bind {A B : Type} (m : result A) (k : A -> result B) : result B :=
  match m with
  | Ok a => k a
  | Raise e => Raise e
  end.

Notation "'let*' x ':=' m 'in' k" := (bind m (fun x => k))
  (at level 10, x name, m at level 100, k at level 200).
Notation "'let*' ' p ':=' m 'in' k" :=
  (bind m (fun x => match x with p => k end))
  (at level 10, p pattern, m at level 100, k at level 200).

(** [map] over a fallible function, left to right: the first exception wins,
    as in [tuple(map(f, xs))]. *)
Fixpoint mapM {A B : Type} (f : A -> result B) (xs : list A) : result (list B) :=
  match xs with
  | [] => Ok []
  | x :: xs' =>
      let* y := f x in
      let* ys := mapM f xs' in
      Ok (y :: ys)
  end.


(** ** Python values *)

Record slice : Type := mk_slice {
  start : option Z;
  stop : option Z;
  step : option Z
}.

(** [slice(a, b)] and [slice(a, b, c)] with integer arguments. *)
Definition slice2 (a b : Z) : slice := mk_slice (Some a) (Some b) None.
Definition slice3 (a b c : Z) : slice := mk_slice (Some a) (Some b) (Some c).

(** The scalar type of a NumPy array.  [intp] is the dtype of NumPy's own
    index arrays; on the 64-bit platforms it is the scalar type of [int64], and
    the model keeps the two apart only to tell positions from user data. *)
Inductive np_dtype : Type :=
| int64 | int32 | uint64 | intp | float64 | float32 | bool_ | object_.

(** [issubclass(d.type, np.integer)]. *)
Definition is_np_integer (d : np_dtype) : bool :=
  match d with
  | int64 | int32 | uint64 | intp => true
  | _ => false
  end.

(** The least and the greatest value of an integer dtype. *)
Definition dtype_min (d : np_dtype) : Z :=
  match d with
  | int64 | intp => - 2 ^ 63
  | int32 => - 2 ^ 31
  | _ => 0
  end.

Definition dtype_max (d : np_dtype) : Z :=
  match d with
  | int64 | intp => 2 ^ 63 - 1
  | int32 => 2 ^ 31 - 1
  | uint64 => 2 ^ 64 - 1
  | _ => 0
  end.

Definition dtype_signed (d : np_dtype) : bool :=
  match d with
  | int64 | int32 | intp => true
  | _ => false
  end.

(** The dtypes whose arithmetic is modelled with its wrap-around: the integer
    dtypes of user data. *)
Definition wraps (d : np_dtype) : bool :=
  match d with
  | int64 | int32 | uint64 => true
  | _ => false
  end.

Definition in_dtype (d : np_dtype) (x : Z) : bool :=
  (dtype_min d <=? x) && (x <=? dtype_max d).

(** The value a fixed-width dtype stores for the integer [z]: [z] modulo the
    size of the dtype, within its range. *)
Definition wrap (d : np_dtype) (z : Z) : Z :=
  if wraps d then
    dtype_min d + (z - dtype_min d) mod (dtype_max d - dtype_min d + 1)
  else z.

(** [x + k] for a NumPy scalar [x] of dtype [d] and a Python integer [k]: the
    result keeps the dtype of [x].  (A value outside the range of [d] is no
    scalar of that dtype; plain addition is all the model says about it.) *)
Definition np_add (d : np_dtype) (x k : Z) : Z :=
  if wraps d && in_dtype d x then wrap d (x + k) else x + k.

(** A NumPy array: its dtype, its number of dimensions and its elements in
    C order.  For a non-integer dtype [items] stands for the raw elements; the
    modelled code never looks at them. *)
Record ndarray : Type := mk_ndarray {
  dtype : np_dtype;
  ndim : nat;
  items : list Z
}.

(** A one-dimensional array. *)
Definition array1 (d : np_dtype) (l : list Z) : ndarray := mk_ndarray d 1 l.

(** [len(a)] of a one-dimensional array. *)
Definition len (a : ndarray) : Z := Z.of_nat (length (items a)).

(** The objects that reach the dispatching functions. *)
Inductive pyobj : Type :=
| PyInt (i : Z)                 (* int or np.integer *)
| PySlice (s : slice)
| PyTuple (t : list pyobj)
| PyArray (a : ndarray)
| PyEllipsis
| PyStr (s : string).

(** ** NumPy and builtin primitives *)

(** [np.arange(start, stop, step)] for integers. *)
Definition arange_len (start stop step : Z) : Z :=
  if 0 <? step then Z.max 0 ((stop - start + step - 1) / step)
  else Z.max 0 ((start - stop - step - 1) / (- step)).

Fixpoint arange_from (start step : Z) (n : nat) : list Z :=
  match n with
  | O => []
  | S n' => start :: arange_from (start + step) step n'
  end.

Definition arange (start stop step : Z) : result (list Z) :=
  if step =? 0 then Raise ZeroDivisionError
  else Ok (arange_from start step (Z.to_nat (arange_len start stop step))).

(** [slice.indices(length)], after CPython's [slice_indices]. *)
Definition clamp_index (i : option Z) (length lower upper : Z)
    (default : Z) : Z :=
  match i with
  | None => default
  | Some i =>
      if i <? 0 then
        let i' := i + length in
        if i' <? lower then lower else i'
      else
        if upper <? i then upper else i
  end.

Definition slice_indices (s : slice) (length : Z) : result (Z * Z * Z) :=
  let stp := match step s with None => 1 | Some k => k end in
  if length <? 0 then Raise (ValueError "length should not be negative")
  else if stp =? 0 then Raise (ValueError "slice step cannot be zero")
  else
    let lower := if stp <? 0 then -1 else 0 in
    let upper := if stp <? 0 then length - 1 else length in
    let st := clamp_index (start s) length lower upper
                (if stp <? 0 then upper else lower) in
    let sp := clamp_index (stop s) length lower upper
                (if stp <? 0 then lower else upper) in
    Ok (st, sp, stp).

(** [a[i]] for an in-range, non-negative position. *)
Definition nthZ (l : list Z) (i : Z) : Z := nth (Z.to_nat i) l 0.

(** Basic slicing of a one-dimensional array: [a[s]]. *)
Definition getitem_slice (a : list Z) (s : slice) : result (list Z) :=
  let* '(st, sp, stp) := slice_indices s (Z.of_nat (length a)) in
  let* pos := arange st sp stp in
  Ok (map (nthZ a) pos).

(** [np.unique(a)]: the sorted distinct elements. *)
Fixpoint insert_unique (x : Z) (l : list Z) : list Z :=
  match l with
  | [] => [x]
  | y :: l' =>
      if x <? y then x :: l
      else if x =? y then l
      else y :: insert_unique x l'
  end.

Definition np_unique (a : list Z) : list Z :=
  fold_right insert_unique [] a.

(** The consecutive differences [a[i+1] - a[i]], as integers. *)
Fixpoint diffs (a : list Z) : list Z :=
  match a with
  | x :: ((y :: _) as a') => (y - x) :: diffs a'
  | _ => []
  end.

(** [a[1:] - a[:-1]] for an array of dtype [d]: each difference is stored in
    the dtype of the array. *)
Definition np_diffs (d : np_dtype) (a : list Z) : list Z :=
  map (wrap d) (diffs a).

(** [a.item()]. *)
Definition item (a : ndarray) : result Z :=
  match items a with
  | [x] => Ok x
  | _ => Raise (ValueError "can only convert an array of size 1 to a Python scalar")
  end.

(** [np.unravel_index(i, shape)] for one in-range index, C order: the last
    axis varies fastest. *)
Fixpoint unravel_aux (rshape : list Z) (i : Z) (acc : list Z) : list Z :=
  match rshape with
  | [] => acc
  | d :: r => unravel_aux r (i / d) (i mod d :: acc)
  end.

Definition unravel_one (shape : list Z) (i : Z) : list Z :=
  unravel_aux (rev shape) i [].

(** [np.asarray(shape).prod()]. *)
Definition prod (shape : list Z) : Z := fold_right Z.mul 1 shape.

Definition in_bounds (size i : Z) : bool := (0 <=? i) && (i <? size).

(** [np.unravel_index(indices, shape)] for an array of indices: one
    coordinate array per axis. *)
Definition unravel_index (indices shape : list Z) : result (list (list Z)) :=
  if forallb (in_bounds (prod shape)) indices then
    Ok (map (fun k => map (fun i => nth k (unravel_one shape i) 0) indices)
            (seq 0 (length shape)))
  else Raise (ValueError "index is out of bounds for array")
.

(** [zip] over unpacked columns: the rows of a tuple of equally long
    columns. *)
Definition zip_star (columns : list (list Z)) : list (list Z) :=
  match columns with
  | [] => []
  | c :: cs =>
      let n := fold_right Nat.min (length c) (map (@length Z) cs) in
      map (fun j => map (fun col => nth j col 0) columns) (seq 0 n)
  end.

(** [itertools.product] over unpacked factors: lexicographic, the last
    factor varies fastest. *)
Fixpoint product (ls : list (list Z)) : list (list Z) :=
  match ls with
  | [] => [[]]
  | l :: rest => flat_map (fun x => map (cons x) (product rest)) l
  end.

(** [enumerate(l)], counting from [i]. *)
Fixpoint enumerate_from {A : Type} (i : Z) (l : list A) : list (Z * A) :=
  match l with
  | [] => []
  | x :: l' => (i, x) :: enumerate_from (i + 1) l'
  end.

Definition enumerate {A : Type} (l : list A) : list (Z * A) :=
  enumerate_from 0 l.

(** Equality of tuples of integers and membership in a [frozenset] of them. *)
Fixpoint tuple_eqb (p q : list Z) : bool :=
  match p, q with
  | [], [] => true
  | x :: p', y :: q' => (x =? y) && tuple_eqb p' q'
  | _, _ => false
  end.

Definition frozenset_mem (p : list Z) (points : list (list Z)) : bool :=
  existsb (tuple_eqb p) points.

(** [a.min()] and [a.max()]; NumPy refuses an empty array. *)
Definition np_min (a : list Z) : result Z :=
  match a with
  | [] => Raise (ValueError
      "zero-size array to reduction operation minimum which has no identity")
  | x :: a' => Ok (fold_right Z.min x a')
  end.

Definition np_max (a : list Z) : result Z :=
  match a with
  | [] => Raise (ValueError
      "zero-size array to reduction operation maximum which has no identity")
  | x :: a' => Ok (fold_right Z.max x a')
  end.

(** [a.argsort()]: the positions of [a] in ascending order of their values. *)
Fixpoint insert_by (key : Z -> Z) (j : Z) (l : list Z) : list Z :=
  match l with
  | [] => [j]
  | k :: l' =>
      if key j <=? key k then j :: l else k :: insert_by key j l'
  end.

Definition argsort (a : list Z) : list Z :=
  fold_right (insert_by (nthZ a)) [] (arange_from 0 1 (length a)).

(** [a.searchsorted(vs, sorter=sorter)], side left: for each value the
    number of elements of the sorted view that are smaller. *)
Fixpoint bisect_left (sorted : list Z) (v : Z) : Z :=
  match sorted with
  | [] => 0
  | x :: r => if x <? v then 1 + bisect_left r v else 0
  end.

Definition searchsorted (a vs sorter : list Z) : list Z :=
  map (bisect_left (map (nthZ a) sorter)) vs.

(** [a[idx]] for an integer index array [idx]. *)
Definition take1 (a : list Z) (i : Z) : result Z :=
  let n := Z.of_nat (length a) in
  if (i <? - n) || (n <=? i) then
    Raise (IndexError "index is out of bounds for axis 0")
  else Ok (nthZ a (if i <? 0 then i + n else i)).

Definition take (a idx : list Z) : result (list Z) := mapM (take1 a) idx.

(** [a[mask]] for a boolean mask of the same length. *)
Fixpoint compress (mask : list bool) (a : list Z) : list Z :=
  match mask, a with
  | b :: mask', x :: a' =>
      if b then x :: compress mask' a' else compress mask' a'
  | _, _ => []
  end.

(** Elementwise comparison of two arrays of the same length. *)
Fixpoint eq_elementwise (a b : list Z) : list bool :=
  match a, b with
  | x :: a', y :: b' => (x =? y) :: eq_elementwise a' b'
  | _, _ => []
  end.

(** [np.flatnonzero(label == a)]. *)
Definition flatnonzero_eq (label : Z) (a : list Z) : list Z :=
  map fst (filter (fun p => label =? snd p) (enumerate a)).

(** [a != b] for one-dimensional arrays, with NumPy's broadcasting: the
    lengths must agree unless one of them is 1. *)
Definition np_ne (a b : list Z) : result (list bool) :=
  if (length a =? length b)%nat then
    Ok (map negb (eq_elementwise a b))
  else match a, b with
  | [x], _ => Ok (map (fun y => negb (x =? y)) b)
  | _, [y] => Ok (map (fun x => negb (x =? y)) a)
  | _, _ => Raise (ValueError "operands could not be broadcast together")
  end.

Definition any (m : list bool) : bool := existsb (fun b => b) m.

(** The integers a slice with explicit bounds denotes, as [np.arange] would
    enumerate them; an omitted step counts as 1. *)
Definition slice_range (s : slice) : result (list Z) :=
  match start s, stop s with
  | Some a, Some b => arange a b (match step s with None => 1 | Some k => k end)
  | _, _ => Raise (TypeError "open slice")
  end.

(** ** tiledb/segy/utils.py *)

Module utils.

(** *** [TiledbArrayWrapper] *)
Module TiledbArrayWrapper.

Definition _normalize_slice (s : slice) : slice :=
  if match step s with None => true | Some k => 0 <? k end
     || match start s, stop s with None, None => true | _, _ => false end
  then s
  else
    let start' := match stop s with Some b => Some (b + 1) | None => None end in
    let stop' := match start s with Some a => Some (a + 1) | None => None end in
    mk_slice start' stop' (step s).

(** The [singledispatchmethod]: slices and tuples have handlers, every other
    object takes the default. *)
Fixpoint _normalize_index (i : pyobj) : pyobj :=
  match i with
  | PySlice s => PySlice (_normalize_slice s)
  | PyTuple t => PyTuple (map _normalize_index t)
  | _ => i
  end.

Definition _normalize_tuple (t : list pyobj) : list pyobj :=
  map _normalize_index t.

Definition __getitem__ {R : Type} (__wrapped__ : pyobj -> R) (i : pyobj) : R :=
  __wrapped__ (_normalize_index i).

End TiledbArrayWrapper.

(** *** [ensure_slice] *)

Definition _ensure_slice_slice (s : slice) : result slice := Ok s.

Definition _ensure_slice_int (i : Z) : result slice := Ok (slice2 i (i + 1)).

Definition _ensure_slice_array (a : ndarray) : result slice :=
  if negb (is_np_integer (dtype a)) then
    Raise (ValueError "Non-integer array cannot be converted to slice")
  else if (1 <? ndim a)%nat then
    Raise (ValueError "array cannot be converted to slice")
  else if (ndim a =? 1)%nat && (len a =? 0) then
    Raise (ValueError "Empty array cannot be converted to slice")
  else if (ndim a =? 0)%nat || (len a =? 1) then
    let* i := item a in _ensure_slice_int i
  else
    let ds := np_diffs (dtype a) (items a) in
    if negb (forallb (fun d => 0 <? d) ds || forallb (fun d => d <? 0) ds) then
      Raise (ValueError
        "Non-monotonically increasing or decreasing array cannot be converted to slice")
    else
      let unique_diffs := np_unique ds in
      if (1 <? length unique_diffs)%nat then
        Raise (MultiSliceError "Array is not convertible to a single range")
      else
        let start := nthZ (items a) 0 in
        let step := nthZ unique_diffs 0 in
        let stop :=
          np_add (dtype a) (last (items a) 0) (if 0 <? step then 1 else -1) in
        Ok (slice3 start stop step).

(** The [singledispatch] entry point. *)
Definition ensure_slice (obj : pyobj) : result slice :=
  match obj with
  | PySlice s => _ensure_slice_slice s
  | PyInt i => _ensure_slice_int i
  | PyArray a => _ensure_slice_array a
  | _ => Raise (TypeError "Cannot convert to slice")
  end.

(** The second component of an indexer's answer: [Ellipsis] (take the whole
    bounding box) or a list of positions. *)
Inductive post_reshape : Type :=
| SelectAll
| Positions (l : list Z).

(** *** [TraceIndexer] *)
Module TraceIndexer.

Record t : Type := mk { _shape : list Z }.

Definition __len__ (self : t) : Z := prod (_shape self).

Definition __getitem__ (self : t) (trace_index : pyobj)
    : list pyobj * post_reshape :=
  ([trace_index], SelectAll).

End TraceIndexer.

(** *** [StructuredTraceIndexer] *)
Module StructuredTraceIndexer.

Import TraceIndexer.

Definition _get_one (self : t) (trace_index : Z)
    : result (list pyobj * post_reshape) :=
  let* coords := unravel_index [trace_index] (_shape self) in
  Ok (map (fun c => PyInt (nthZ c 0)) coords, SelectAll).

Definition _get_many (self : t) (trace_index : slice)
    : result (list slice * list Z) :=
  let* raveled_indices :=
    getitem_slice (arange_from 0 1 (Z.to_nat (__len__ self))) trace_index in
  let* unraveled_indices := unravel_index raveled_indices (_shape self) in
  let unique_unraveled_indices := map np_unique unraveled_indices in
  let* bounding_box :=
    mapM (fun u => ensure_slice (PyArray (array1 intp u)))
         unique_unraveled_indices in
  let points := zip_star unraveled_indices in
  let post_reshape_indices :=
    map fst
      (filter (fun ip => frozenset_mem (snd ip) points)
              (enumerate (product unique_unraveled_indices))) in
  Ok (bounding_box, post_reshape_indices).

Definition __getitem__ (self : t) (i : pyobj)
    : result (list pyobj * post_reshape) :=
  match i with
  | PyInt trace_index => _get_one self trace_index
  | PySlice trace_index =>
      let* '(bounding_box, post_reshape_indices) := _get_many self trace_index in
      Ok (map PySlice bounding_box, Positions post_reshape_indices)
  | _ => Raise (TypeError "Cannot index by")
  end.

End StructuredTraceIndexer.

(** *** [LabelIndexer] *)
Module LabelIndexer.

(** [_min_label] and [_max_label] are Python integers: the constructor
    converts them with [int]. *)
Record t : Type := mk {
  _labels : list Z;
  _min_label : Z;
  _max_label : Z;
  _sorter : list Z
}.

(** [len(labels)] fails on a 0-dimensional array and is the number of
    elements of a one-dimensional one, which is what every caller passes;
    [ndarray] keeps no shape, so the first-axis length of an array of more
    dimensions is not modelled and is taken to be the number of elements too.
    [labels.max() + 1] is computed on the NumPy scalar, before [int]. *)
Definition __init__ (labels : ndarray) : result t :=
  if negb (is_np_integer (dtype labels)) then
    Raise (ValueError "labels should be integers")
  else if (ndim labels =? 0)%nat then
    Raise (TypeError "len() of unsized object")
  else if negb (length (np_unique (items labels)) =? length (items labels))%nat then
    Raise (ValueError "labels should not contain duplicates")
  else
    let* mn := np_min (items labels) in
    let* mx := np_max (items labels) in
    Ok (mk (items labels) mn (np_add (dtype labels) mx 1)
           (argsort (items labels))).

Definition _get_one (self : t) (label : Z) : result Z :=
  let indices := flatnonzero_eq label (_labels self) in
  if negb (length indices <=? 1)%nat then Raise AssertionError
  else if (length indices =? 0)%nat then
    Raise (ValueError "is not in labels")
  else Ok (nthZ indices 0).

Definition _label_slice_to_indices (self : t) (label_slice : slice)
    : result (list Z) :=
  let min_label := _min_label self in
  let increasing :=
    match step label_slice with None => true | Some k => 0 <? k end in
  let start' :=
    if increasing then
      match start label_slice with
      | None => Some min_label
      | Some a => if a <? min_label then Some min_label else Some a
      end
    else start label_slice in
  let stop' :=
    if increasing then stop label_slice
    else
      match stop label_slice with
      | None => Some (min_label - 1)
      | Some b => if b <? min_label - 1 then Some (min_label - 1) else Some b
      end in
  let* '(st, sp, stp) :=
    slice_indices (mk_slice start' stop' (step label_slice)) (_max_label self) in
  let* label_range := arange st sp stp in
  let* indices :=
    take (_sorter self)
         (searchsorted (_labels self) label_range (_sorter self)) in
  let* found := take (_labels self) indices in
  Ok (compress (eq_elementwise found label_range) indices).

Definition _get_many (self : t) (label_slice : slice) : result slice :=
  let* indices := _label_slice_to_indices self label_slice in
  ensure_slice (PyArray (array1 intp indices)).

Definition __getitem__ (self : t) (i : pyobj) : result pyobj :=
  match i with
  | PyInt label => let* p := _get_one self label in Ok (PyInt p)
  | PySlice label_slice =>
      let* s := _get_many self label_slice in Ok (PySlice s)
  | _ => Raise (TypeError "Cannot index by")
  end.

End LabelIndexer.

End utils.

(** ** tilesegy/indexables.py *)

Module indexables.

(** [Index = Union[int, slice]]. *)
Inductive Index : Type :=
| Int (i : Z)
| Slice (s : slice).

Definition isinstance_slice (i : Index) : bool :=
  match i with Slice _ => true | Int _ => false end.

(** *** [LabelIndexer] *)
Module LabelIndexer.

(** [_min_label] and [_max_label] stay NumPy scalars of the dtype of the
    label array, which [_dtype] records. *)
Record t : Type := mk {
  _labels : list Z;
  _min_label : Z;
  _max_label : Z;
  _sorter : list Z;
  _dtype : np_dtype
}.

(** [len(labels)] as in the constructor of utils.py. *)
Definition __init__ (labels : ndarray) : result t :=
  if negb (is_np_integer (dtype labels)) then
    Raise (ValueError "labels should be integers")
  else if (ndim labels =? 0)%nat then
    Raise (TypeError "len() of unsized object")
  else if negb (length (np_unique (items labels)) =? length (items labels))%nat then
    Raise (ValueError "labels should not contain duplicates")
  else
    let* mn := np_min (items labels) in
    let* mx := np_max (items labels) in
    Ok (mk (items labels) mn (np_add (dtype labels) mx 1)
           (argsort (items labels)) (dtype labels)).

(** The default handler of [__getitem__]: a single label. *)
Definition _get_label (self : t) (label : Z) : result Z :=
  let indices := flatnonzero_eq label (_labels self) in
  if negb (length indices <=? 1)%nat then Raise AssertionError
  else if (length indices =? 0)%nat then
    Raise (ValueError "is not in labels")
  else Ok (nthZ indices 0).

(** The first half of [_get_slice]: the storage ordinals of the labels the
    slice selects. *)
Definition _resolve (self : t) (label_slice : slice) : result (list Z) :=
  let min_label := _min_label self in
  let increasing :=
    match step label_slice with None => true | Some k => 0 <? k end in
  let start' :=
    if increasing then
      match start label_slice with
      | None => Some min_label
      | Some a => if a <? min_label then Some min_label else Some a
      end
    else start label_slice in
  let stop' :=
    if increasing then stop label_slice
    else
      match stop label_slice with
      | None => Some (np_add (_dtype self) min_label (-1))
      | Some b =>
          if b <? np_add (_dtype self) min_label (-1)
          then Some (np_add (_dtype self) min_label (-1)) else Some b
      end in
  let* '(st, sp, stp) :=
    slice_indices (mk_slice start' stop' (step label_slice)) (_max_label self) in
  let* label_range := arange st sp stp in
  let* indices :=
    take (_sorter self)
         (searchsorted (_labels self) label_range (_sorter self)) in
  let* found := take (_labels self) indices in
  Ok (compress (eq_elementwise found label_range) indices).

(** The second half of [_get_slice]: the ordinals as one slice. *)
Definition _as_slice (indices : list Z) : result slice :=
  if (length indices =? 0)%nat then
    Raise (ValueError "has no overlap with labels")
  else
    let start := nthZ indices 0 in
    let step := if (1 <? length indices)%nat then nthZ indices 1 - start else 1 in
    let stop := last indices 0 + (if 0 <? step then 1 else -1) in
    let* r := arange start stop step in
    let* ne := np_ne r indices in
    if any ne then Raise (ValueError "Label indices is not a slice")
    else Ok (slice3 start stop step).

Definition _get_slice (self : t) (label_slice : slice) : result slice :=
  let* indices := _resolve self label_slice in
  _as_slice indices.

Definition __getitem__ (self : t) (label : Index) : result Index :=
  match label with
  | Slice label_slice => let* s := _get_slice self label_slice in Ok (Slice s)
  | Int l => let* p := _get_label self l in Ok (Int p)
  end.

End LabelIndexer.

(** *** [Headers] *)
Module Headers.

(** The header array of the backend: indexed by an integer it gives the
    header of one trace, a dict from field name to value; indexed by a slice
    it gives an ordered dict from field name to the array of that field's
    values.  A dict is its items in insertion order. *)
Record t : Type := mk {
  tdb_get_one : Z -> result (list (string * Z));
  tdb_get_many : slice -> result (list (string * list Z))
}.

Definition _get_one (self : t) (i : Z) : result (list (string * Z)) :=
  tdb_get_one self i.

(** [dict(zip(keys, row))] for the distinct keys of a dict. *)
Definition dict_zip (keys : list string) (row : list Z) : list (string * Z) :=
  combine keys row.

Definition _get_many (self : t) (i : slice)
    : result (list (list (string * Z))) :=
  let* headers := tdb_get_many self i in
  let keys := map fst headers in
  let columns := map snd headers in
  Ok (map (dict_zip keys) (zip_star columns)).

End Headers.

(** *** [Lines] *)
Module Lines.

Section Backend.

(** The storage backend is outside the repository: the type of the arrays it
    returns, their [swapaxes], and a [tiledb.Array] as the names of its
    dimensions together with its read operation. *)
Variable data_array : Type.
Variable swapaxes : data_array -> Z -> Z -> data_array.

Record tiledb_Array : Type := mk_tiledb_Array {
  schema_domain : list string;
  tdb_getitem : list Index -> result data_array
}.

Record t : Type := mk {
  _dim_name : string;
  _label_indexer : LabelIndexer.t;
  _offset_indexer : LabelIndexer.t;
  _default_offset : Z;
  _data : tiledb_Array;
  _headers : tiledb_Array
}.

Definition __init__ (dim_name : string) (labels offsets : ndarray)
    (data headers : tiledb_Array) : result t :=
  let* label_indexer := LabelIndexer.__init__ labels in
  let* offset_indexer := LabelIndexer.__init__ offsets in
  let* default_offset := take1 (items offsets) 0 in
  Ok (mk dim_name label_indexer offset_indexer default_offset data headers).

Definition _offsets_axis (self : t) : Z := 1.

(** [next(i for i, dim in enumerate(domain) if dim.name == dim_name)]. *)
Definition _labels_axis (self : t) : result Z :=
  match filter (fun p => String.eqb (snd p) (_dim_name self))
               (enumerate (schema_domain (_data self))) with
  | [] => Raise StopIteration
  | p :: _ => Ok (fst p)
  end.

(** [l[i] = v] on a Python list. *)
Definition setitem (l : list Index) (i : Z) (v : Index) : result (list Index) :=
  let n := Z.of_nat (length l) in
  if (i <? - n) || (n <=? i) then
    Raise (IndexError "list assignment index out of range")
  else
    let j := Z.to_nat (if i <? 0 then i + n else i) in
    Ok (firstn j l ++ v :: skipn (S j) l).

(** The index argument of [__getitem__]:
    [Union[Index, Tuple[Index, Index]]]. *)
Inductive LinesIndex : Type :=
| Single (i : Index)
| Pair (t : Index * Index).

Definition isinstance_tuple (i : LinesIndex) : bool :=
  match i with Pair _ => true | Single _ => false end.

Definition int_of_bool (b : bool) : Z := if b then 1 else 0.

Definition __getitem__ (self : t) (i : LinesIndex) : result data_array :=
  let '(labels, offsets) :=
    match i with
    | Pair (labels, offsets) => (labels, offsets)
    | Single i => (i, Int (_default_offset self))
    end in
  let* label_indices := LabelIndexer.__getitem__ (_label_indexer self) labels in
  let multi_labels := isinstance_slice label_indices in
  let* offset_indices := LabelIndexer.__getitem__ (_offset_indexer self) offsets in
  let multi_offsets := isinstance_slice offset_indices in
  let* labels_axis := _labels_axis self in
  let offsets_axis := _offsets_axis self in
  let composite_index := repeat (Slice (mk_slice None None None)) 4 in
  let* composite_index := setitem composite_index labels_axis label_indices in
  let* composite_index := setitem composite_index offsets_axis offset_indices in
  let* data := tdb_getitem (_data self) composite_index in
  let major_axis :=
    if multi_labels && multi_offsets then labels_axis
    else if multi_labels then
      labels_axis - int_of_bool (offsets_axis <? labels_axis)
    else if multi_offsets then
      offsets_axis - int_of_bool (labels_axis <? offsets_axis)
    else 0 in
  let data := if 0 <? major_axis then swapaxes data 0 major_axis else data in
  let data :=
    if String.eqb (_dim_name self) "samples" && multi_labels
    then swapaxes data (-1) (-2) else data in
  Ok data.

End Backend.

Arguments mk_tiledb_Array {data_array} schema_domain tdb_getitem.
Arguments schema_domain {data_array} t.
Arguments tdb_getitem {data_array} t.
Arguments mk {data_array}.
Arguments _dim_name {data_array} t.
Arguments _label_indexer {data_array} t.
Arguments _offset_indexer {data_array} t.
Arguments _default_offset {data_array} t.
Arguments _data {data_array} t.
Arguments _headers {data_array} t.
Arguments __init__ {data_array} dim_name labels offsets data headers.
Arguments __getitem__ {data_array} swapaxes self i.

End Lines.

End indexables.

(** ** Vocabulary of the statements *)

(** The errors of [ensure_slice] on arrays (utils.py). *)
Definition non_monotonic_error : exn :=
  ValueError
    "Non-monotonically increasing or decreasing array cannot be converted to slice".

Definition multi_slice_error : exn :=
  MultiSliceError "Array is not convertible to a single range".

Definition empty_array_error : exn :=
  ValueError "Empty array cannot be converted to slice".

(** The errors of [_get_slice] (indexables.py) and NumPy's refusal to compare
    arrays that do not broadcast. *)
Definition no_overlap_error : exn := ValueError "has no overlap with labels".
Definition not_a_slice_error : exn := ValueError "Label indices is not a slice".
Definition broadcast_error : exn :=
  ValueError "operands could not be broadcast together".

(** An array is an arithmetic progression of step [d] when consecutive
    elements differ by [d]. *)
Definition arithmetic_progression (d : Z) (A : list Z) : Prop :=
  forall i : nat, (S i < length A)%nat -> nth (S i) A 0 - nth i A 0 = d.

(** A one-dimensional array is representable as one slice when it has a
    single element or is a progression with nonzero step. *)
Definition single_progression (r : list Z) : Prop :=
  length r = 1%nat
  \/ ((2 <= length r)%nat /\ exists d : Z, d <> 0 /\ arithmetic_progression d r).


(** Lexicographic order on coordinate tuples, the first axis the most
    significant: the order in which [itertools.product] lists its tuples. *)
Fixpoint lex_lt (p q : list Z) : Prop :=
  match p, q with
  | x :: p', y :: q' => x < y \/ (x = y /\ lex_lt p' q')
  | _, _ => False
  end.

(** The flat position, in C order, of a coordinate tuple of an array of the
    given shape: the inverse of unravelling. *)
Fixpoint ravel (shape coords : list Z) : Z :=
  match shape, coords with
  | d :: shape', c :: coords' => c * prod shape' + ravel shape' coords'
  | _, _ => 0
  end.

(** An array is strictly monotonic when it strictly increases throughout or
    strictly decreases throughout. *)
Definition strictly_increasing (A : list Z) : Prop :=
  forall i : nat, (S i < length A)%nat -> nth i A 0 < nth (S i) A 0.

Definition strictly_decreasing (A : list Z) : Prop :=
  forall i : nat, (S i < length A)%nat -> nth (S i) A 0 < nth i A 0.

Definition strictly_monotonic (A : list Z) : Prop :=
  strictly_increasing A \/ strictly_decreasing A.

(** An integer is representable in a dtype when it lies within its range. *)
Definition representable (d : np_dtype) (z : Z) : Prop :=
  dtype_min d <= z <= dtype_max d.

(** The first half of both range resolvers ([_label_slice_to_indices] of
    utils.py and [_get_slice] of indexables.py): the open bound on the side
    the slice starts from is clamped, an ascending slice to the minimum label
    and a descending one to [below_min], the value the resolver has for
    [min_label - 1]; the candidate labels are then enumerated with
    [slice.indices] against the exclusive maximum label. *)
Definition clamp_label_slice (min_label below_min : Z) (label_slice : slice)
    : slice :=
  let increasing :=
    match step label_slice with None => true | Some k => 0 <? k end in
  let start' :=
    if increasing then
      match start label_slice with
      | None => Some min_label
      | Some a => if a <? min_label then Some min_label else Some a
      end
    else start label_slice in
  let stop' :=
    if increasing then stop label_slice
    else
      match stop label_slice with
      | None => Some below_min
      | Some b => if b <? below_min then Some below_min else Some b
      end in
  mk_slice start' stop' (step label_slice).

Definition label_candidates (min_label below_min max_label : Z)
    (label_slice : slice) : result (list Z) :=
  let* '(st, sp, stp) :=
    slice_indices (clamp_label_slice min_label below_min label_slice)
                  max_label in
  arange st sp stp.

(** The candidate labels when [min_label - 1] is the plain integer. *)
Definition label_range (min_label max_label : Z) (label_slice : slice)
    : result (list Z) :=
  label_candidates min_label (min_label - 1) max_label label_slice.

(** The number of elements of a list that are below a bound. *)
Definition below (a : Z) (L : list Z) : Z :=
  Z.of_nat (length (filter (fun x => x <? a) L)).

(** The selector [Lines.__getitem__] hands to the backend: the four storage
    axes, fully open except for the offsets axis (1) and the labels axis. *)
Definition lines_composite (labels_axis : Z)
    (label_indices offset_indices : indexables.Index)
    : list indexables.Index :=
  map (fun a => if a =? 1 then offset_indices
                else if a =? labels_axis then label_indices
                else indexables.Slice (mk_slice None None None))
      [0; 1; 2; 3].

(** The storage axes a selector keeps: the backend drops every axis indexed
    by an integer and returns the others in storage order. *)
Definition kept_axes (composite : list indexables.Index) : list Z :=
  map fst (filter (fun p => indexables.isinstance_slice (snd p))
                  (enumerate composite)).

(** The position of a kept storage axis among the axes of the result. *)
Definition result_position (composite : list indexables.Index) (axis : Z) : Z :=
  Z.of_nat (length (filter (fun a => a <? axis) (kept_axes composite))).

(** Membership in a list of integers, as a test. *)
Definition mem_Z (x : Z) (l : list Z) : bool := existsb (Z.eqb x) l.

(** * Properties *)


Import utils.

(** ** Slice normalisation *)

Lemma _normalize_slice_negative (a b k : Z) :
  k < 0 ->
  TiledbArrayWrapper._normalize_slice (slice3 a b k) = slice3 (b + 1) (a + 1) k.
Proof.
  intros Hk. unfold TiledbArrayWrapper._normalize_slice, slice3. cbn.
  destruct (0 <? k) eqn:E; [apply Z.ltb_lt in E; lia | reflexivity].
Qed.

Lemma _normalize_slice_open (k : option Z) :
  TiledbArrayWrapper._normalize_slice (mk_slice None None k)
  = mk_slice None None k.
Proof.
  unfold TiledbArrayWrapper._normalize_slice. cbn.
  destruct k as [k|]; [destruct (0 <? k)|]; reflexivity.
Qed.

(** C4: a slice with negative step and explicit bounds [slice(start, stop,
    step)] is rewritten to [slice(stop+1, start+1, step)], the step kept with
    its sign; a slice whose start and stop are both open passes through
    unchanged, whatever its step; a tuple is normalised element by element;
    integers, and every other object that is neither a slice nor a tuple, pass
    through unchanged. *)
Theorem C4_normalize_index :
  (forall a b k : Z, k < 0 ->
     TiledbArrayWrapper._normalize_index (PySlice (slice3 a b k))
     = PySlice (slice3 (b + 1) (a + 1) k))
  /\ (forall k : option Z,
        TiledbArrayWrapper._normalize_index (PySlice (mk_slice None None k))
        = PySlice (mk_slice None None k))
  /\ (forall t : list pyobj,
        TiledbArrayWrapper._normalize_index (PyTuple t)
        = PyTuple (map TiledbArrayWrapper._normalize_index t))
  /\ (forall i : Z, TiledbArrayWrapper._normalize_index (PyInt i) = PyInt i)
  /\ (forall o : pyobj,
        (forall s, o <> PySlice s) -> (forall t, o <> PyTuple t) ->
        TiledbArrayWrapper._normalize_index o = o).
Proof.
  repeat split.
  - intros a b k Hk. cbn [TiledbArrayWrapper._normalize_index].
    now rewrite _normalize_slice_negative.
  - intros k. cbn [TiledbArrayWrapper._normalize_index].
    now rewrite _normalize_slice_open.
  - intros o Hs Ht. destruct o; try reflexivity.
    + now elim (Hs s).
    + now elim (Ht t).
Qed.

Lemma C4_normalize_index_witness :
  TiledbArrayWrapper._normalize_index (PySlice (slice3 7 2 (-2)))
  = PySlice (slice3 3 8 (-2)).
Proof.
  apply (proj1 C4_normalize_index 7 2 (-2)). lia.
Defined.

(** ** Arithmetic progressions and [np.arange] *)

Lemma arange_from_length (a d : Z) (n : nat) :
  length (arange_from a d n) = n.
Proof.
  revert a. induction n as [|n IH]; intros a; cbn; [reflexivity|].
  now rewrite IH.
Qed.

Lemma nth_arange_from (a d : Z) (n i : nat) :
  (i < n)%nat -> nth i (arange_from a d n) 0 = a + Z.of_nat i * d.
Proof.
  revert a i. induction n as [|n IH]; intros a i Hi; [lia|].
  destruct i as [|i]; cbn [arange_from nth].
  - lia.
  - rewrite IH by lia. lia.
Qed.

Lemma last_arange_from (a d : Z) (n : nat) :
  last (arange_from a d (S n)) 0 = a + Z.of_nat n * d.
Proof.
  revert a. induction n as [|n IH]; intros a.
  - cbn. lia.
  - change (arange_from a d (S (S n)))
      with (a :: arange_from (a + d) d (S n)).
    change (last (a :: arange_from (a + d) d (S n)) 0)
      with (last (arange_from (a + d) d (S n)) 0).
    rewrite IH. lia.
Qed.

Lemma diffs_arange_from (a d : Z) (n : nat) :
  diffs (arange_from a d (S n)) = repeat d n.
Proof.
  revert a. induction n as [|n IH]; intros a; [reflexivity|].
  change (arange_from a d (S (S n)))
    with (a :: a + d :: arange_from (a + d + d) d n).
  cbn [diffs repeat]. f_equal; [lia|].
  apply (IH (a + d)).
Qed.

Lemma arithmetic_progression_arange (d : Z) (A : list Z) :
  arithmetic_progression d A ->
  A = arange_from (nth 0 A 0) d (length A).
Proof.
  induction A as [|x A IH]; intros H; [reflexivity|].
  cbn [length arange_from nth]. f_equal.
  destruct A as [|y A]; [reflexivity|].
  assert (Hy : y = x + d) by (specialize (H 0%nat); cbn in H; lia).
  rewrite IH at 1.
  - cbn [nth]. now rewrite Hy.
  - intros i Hi. apply (H (S i)). cbn in *. lia.
Qed.

Lemma arange_from_arithmetic_progression (a d : Z) (n : nat) :
  arithmetic_progression d (arange_from a d n).
Proof.
  intros i Hi. rewrite arange_from_length in Hi.
  rewrite !nth_arange_from by lia. lia.
Qed.

Lemma arange_len_progression (a d : Z) (n : nat) :
  d <> 0 ->
  arange_len a (a + Z.of_nat n * d + Z.sgn d) d = Z.of_nat (S n).
Proof.
  intros Hd. unfold arange_len.
  destruct (0 <? d) eqn:E.
  - apply Z.ltb_lt in E. rewrite Z.sgn_pos by lia.
    replace (a + Z.of_nat n * d + 1 - a + d - 1) with (Z.of_nat (S n) * d) by lia.
    rewrite Z.div_mul by lia. lia.
  - apply Z.ltb_ge in E. rewrite Z.sgn_neg by lia.
    replace (a - (a + Z.of_nat n * d + -1) - d - 1)
      with (Z.of_nat (S n) * (- d)) by lia.
    rewrite Z.div_mul by lia. lia.
Qed.

Lemma arange_progression (a d : Z) (n : nat) :
  d <> 0 ->
  arange a (a + Z.of_nat n * d + Z.sgn d) d = Ok (arange_from a d (S n)).
Proof.
  intros Hd. unfold arange.
  destruct (d =? 0) eqn:E; [apply Z.eqb_eq in E; contradiction|].
  now rewrite arange_len_progression, Nat2Z.id.
Qed.

Lemma arange_unit (x : Z) : arange x (x + 1) 1 = Ok [x].
Proof.
  unfold arange, arange_len. cbn.
  replace (x + 1 - x + 1 - 1) with 1 by lia. reflexivity.
Qed.

(** ** [np.unique] *)

Lemma np_unique_repeat (d : Z) (n : nat) :
  np_unique (repeat d (S n)) = [d].
Proof.
  induction n as [|n IH]; [reflexivity|].
  change (np_unique (repeat d (S (S n))))
    with (insert_unique d (np_unique (repeat d (S n)))).
  rewrite IH. cbn. now rewrite Z.ltb_irrefl, Z.eqb_refl.
Qed.

Lemma forallb_repeat (f : Z -> bool) (d : Z) (n : nat) :
  f d = true -> forallb f (repeat d n) = true.
Proof.
  intros H. induction n as [|n IH]; cbn; [reflexivity|].
  now rewrite H, IH.
Qed.

(** ** Fixed-width arithmetic *)

Lemma dtype_min_le_max (d : np_dtype) : dtype_min d <= dtype_max d.
Proof.
  destruct d; cbv; discriminate.
Qed.

(** Storing a representable integer changes nothing. *)
Lemma wrap_representable (d : np_dtype) (z : Z) :
  representable d z -> wrap d z = z.
Proof.
  unfold representable, wrap. intros H.
  destruct (wraps d); [|reflexivity].
  rewrite Z.mod_small by lia. lia.
Qed.

(** One past the greatest value is stored as the least value. *)
Lemma wrap_past_max (d : np_dtype) :
  wraps d = true -> wrap d (dtype_max d + 1) = dtype_min d.
Proof.
  unfold wrap. intros ->.
  replace (dtype_max d + 1 - dtype_min d)
    with (dtype_max d - dtype_min d + 1) by lia.
  rewrite Z_mod_same_full. lia.
Qed.

Lemma in_dtype_representable (d : np_dtype) (x : Z) :
  in_dtype d x = true <-> representable d x.
Proof.
  unfold in_dtype, representable.
  rewrite andb_true_iff, !Z.leb_le. reflexivity.
Qed.

Lemma np_add_representable (d : np_dtype) (x k : Z) :
  representable d (x + k) -> np_add d x k = x + k.
Proof.
  intros H. unfold np_add.
  destruct (wraps d && in_dtype d x); [now apply wrap_representable|reflexivity].
Qed.


Lemma np_add_minus_one (d : np_dtype) (x : Z) :
  dtype_min d < x -> np_add d x (-1) = x - 1.
Proof.
  intros H. unfold np_add.
  destruct (wraps d && in_dtype d x) eqn:E; [|reflexivity].
  apply andb_true_iff in E as [_ E]. apply in_dtype_representable in E.
  apply wrap_representable. unfold representable in *. lia.
Qed.


Lemma np_add_at_max (d : np_dtype) :
  wraps d = true -> np_add d (dtype_max d) 1 = dtype_min d.
Proof.
  intros Hw. unfold np_add. rewrite Hw.
  assert (H : in_dtype d (dtype_max d) = true).
  { apply in_dtype_representable. pose proof (dtype_min_le_max d).
    unfold representable. lia. }
  rewrite H. cbn [andb]. now apply wrap_past_max.
Qed.

(** The differences of an index array, and those of any array whose
    differences are representable, are the plain ones. *)
Lemma np_diffs_intp (a : list Z) : np_diffs intp a = diffs a.
Proof.
  unfold np_diffs. rewrite <- (map_id (diffs a)) at 2.
  apply map_ext. reflexivity.
Qed.

Lemma np_diffs_representable (d : np_dtype) (a : list Z) :
  Forall (representable d) (diffs a) -> np_diffs d a = diffs a.
Proof.
  intros H. unfold np_diffs. rewrite <- (map_id (diffs a)) at 2.
  apply map_ext_in. intros x Hx. apply wrap_representable.
  rewrite Forall_forall in H. now apply H.
Qed.

(** ** [ensure_slice] *)

(** [_ensure_slice_array] past its guards, on a one-dimensional integer array
    of at least two elements. *)
Lemma _ensure_slice_array_unfold (dt : np_dtype) (a : list Z) :
  is_np_integer dt = true -> (2 <= length a)%nat ->
  _ensure_slice_array (array1 dt a)
  = let ds := np_diffs dt a in
    if negb (forallb (fun d => 0 <? d) ds || forallb (fun d => d <? 0) ds)
    then Raise non_monotonic_error
    else if (1 <? length (np_unique ds))%nat then Raise multi_slice_error
    else
      let step := nthZ (np_unique ds) 0 in
      Ok (slice3 (nthZ a 0)
                 (np_add dt (last a 0) (if 0 <? step then 1 else -1)) step).
Proof.
  intros Hdt Hlen. unfold _ensure_slice_array, len, array1.
  cbn [dtype ndim items]. rewrite Hdt. cbn [negb].
  change (1 <? 1)%nat with false. change (1 =? 1)%nat with true.
  change (1 =? 0)%nat with false. cbn [andb orb].
  destruct (Z.of_nat (length a) =? 0) eqn:E0; [apply Z.eqb_eq in E0; lia|].
  destruct (Z.of_nat (length a) =? 1) eqn:E1; [apply Z.eqb_eq in E1; lia|].
  reflexivity.
Qed.

(** On a progression whose step and whose bound past the last element are
    stored unchanged, the conversion returns the slice of the progression. *)
Lemma _ensure_slice_array_progression (dt : np_dtype) (a d : Z) (n : nat) :
  is_np_integer dt = true -> d <> 0 ->
  wrap dt d = d ->
  np_add dt (a + Z.of_nat (S n) * d) (Z.sgn d)
  = a + Z.of_nat (S n) * d + Z.sgn d ->
  _ensure_slice_array (array1 dt (arange_from a d (S (S n))))
  = Ok (slice3 a (a + Z.of_nat (S n) * d + Z.sgn d) d).
Proof.
  intros Hdt Hd Hwrap Hstop.
  rewrite _ensure_slice_array_unfold
    by (assumption || (rewrite arange_from_length; lia)).
  cbn zeta. unfold np_diffs.
  rewrite diffs_arange_from, map_repeat, Hwrap, np_unique_repeat.
  assert (Hmono : forallb (fun x => 0 <? x) (repeat d (S n))
                  || forallb (fun x => x <? 0) (repeat d (S n)) = true).
  { destruct (Z.lt_total 0 d) as [H|[H|H]]; [|lia|].
    - rewrite forallb_repeat; [reflexivity|now apply Z.ltb_lt].
    - rewrite (forallb_repeat (fun x => x <? 0)); [apply orb_true_r|].
      now apply Z.ltb_lt. }
  rewrite Hmono. cbn [negb length Nat.ltb Nat.leb].
  rewrite last_arange_from.
  unfold nthZ. cbn [Z.to_nat nth arange_from].
  replace (if 0 <? d then 1 else -1) with (Z.sgn d).
  - now rewrite Hstop.
  - destruct (0 <? d) eqn:E.
    + apply Z.ltb_lt in E. now rewrite Z.sgn_pos.
    + apply Z.ltb_ge in E. rewrite Z.sgn_neg; [reflexivity|lia].
Qed.

Lemma ensure_slice_progression (dt : np_dtype) (A : list Z) (d : Z) :
  is_np_integer dt = true ->
  (2 <= length A)%nat ->
  d <> 0 ->
  arithmetic_progression d A ->
  wrap dt d = d ->
  np_add dt (last A 0) (Z.sgn d) = last A 0 + Z.sgn d ->
  ensure_slice (PyArray (array1 dt A))
  = Ok (slice3 (nthZ A 0) (last A 0 + Z.sgn d) d)
  /\ slice_range (slice3 (nthZ A 0) (last A 0 + Z.sgn d) d) = Ok A.
Proof.
  intros Hdt Hlen Hd Hap Hwrap Hstop.
  pose proof (arithmetic_progression_arange d A Hap) as HA.
  destruct (length A) as [|[|n]] eqn:EL; [lia|lia|].
  set (a := nth 0 A 0) in *.
  assert (Hfirst : nthZ A 0 = a) by reflexivity.
  assert (Hlast : last A 0 = a + Z.of_nat (S n) * d).
  { rewrite HA. apply last_arange_from. }
  rewrite Hfirst, Hlast in *. split.
  - rewrite HA. cbn [ensure_slice].
    now apply _ensure_slice_array_progression.
  - unfold slice_range, slice3. cbn [start stop step].
    rewrite arange_progression by assumption. now rewrite <- HA.
Qed.

(** C2 (as stated, refuted): the unsigned array [9, 6, 3, 0] is a progression
    of step -3, but its differences are taken in [uint64], where they are
    [2**64 - 3]: the array passes for an increasing one and [ensure_slice]
    returns [slice(9, 1, 2**64 - 3)], which denotes no index at all, and not
    [slice(9, -1, -3)]. *)
Lemma C2_counterexample :
  is_np_integer uint64 = true
  /\ (2 <= length [9; 6; 3; 0])%nat
  /\ arithmetic_progression (-3) [9; 6; 3; 0]
  /\ ensure_slice (PyArray (array1 uint64 [9; 6; 3; 0]))
     = Ok (slice3 9 1 (2 ^ 64 - 3))
  /\ ensure_slice (PyArray (array1 uint64 [9; 6; 3; 0]))
     <> Ok (slice3 9 (0 + Z.sgn (-3)) (-3))
  /\ slice_range (slice3 9 1 (2 ^ 64 - 3)) = Ok [].
Proof.
  split; [reflexivity|]. split; [cbn; lia|]. split.
  - intros [|[|[|i]]] Hi; cbn in *; lia.
  - split; [vm_compute; reflexivity|].
    split; [vm_compute; discriminate|vm_compute; reflexivity].
Qed.

(** C2 (amended): for an integer array [A] of length at least 2 whose
    consecutive elements differ by a constant nonzero [d], where [d] and the
    bound [A[-1] + sign(d)] are representable in the dtype of [A],
    [ensure_slice(A)] returns [slice(A[0], A[-1] + sign(d), d)], and
    enumerating the integers of that slice as [np.arange] does gives back the
    elements of [A] in order. *)
Theorem C2_ensure_slice_arithmetic_progression
    (dt : np_dtype) (A : list Z) (d : Z) :
  is_np_integer dt = true ->
  (2 <= length A)%nat ->
  d <> 0 ->
  arithmetic_progression d A ->
  representable dt d ->
  representable dt (last A 0 + Z.sgn d) ->
  ensure_slice (PyArray (array1 dt A))
  = Ok (slice3 (nthZ A 0) (last A 0 + Z.sgn d) d)
  /\ slice_range (slice3 (nthZ A 0) (last A 0 + Z.sgn d) d) = Ok A.
Proof.
  intros Hdt Hlen Hd Hap Hstep Hstop.
  apply ensure_slice_progression; try assumption.
  - now apply wrap_representable.
  - now apply np_add_representable.
Qed.

Lemma C2_ensure_slice_arithmetic_progression_witness :
  (ensure_slice (PyArray (array1 int64 [9; 6; 3; 0]))
   = Ok (slice3 9 (-1) (-3))
   /\ slice_range (slice3 9 (-1) (-3)) = Ok [9; 6; 3; 0])
  /\ (ensure_slice (PyArray (array1 uint64 [0; 3; 6; 9]))
      = Ok (slice3 0 10 3)
      /\ slice_range (slice3 0 10 3) = Ok [0; 3; 6; 9]).
Proof.
  split.
  - apply (C2_ensure_slice_arithmetic_progression int64 [9; 6; 3; 0] (-3)).
    + reflexivity.
    + cbn. lia.
    + lia.
    + intros [|[|[|i]]] Hi; cbn in *; lia.
    + cbv. split; discriminate.
    + cbv. split; discriminate.
  - apply (C2_ensure_slice_arithmetic_progression uint64 [0; 3; 6; 9] 3).
    + reflexivity.
    + cbn. lia.
    + lia.
    + intros [|[|[|i]]] Hi; cbn in *; lia.
    + cbv. split; discriminate.
    + cbv. split; discriminate.
Defined.




(** ** Label ranges: the two scenarios *)

(** C3: over the labels [10,20,30,40,50] the range lookup for
    [slice(15,45)] returns [slice(1,4,1)]; over [10,20,40,50], with its gap at
    30, the lookup for [slice(10,51)] resolves the ordinals [0,1,2,3] and
    returns the contiguous [slice(0,4,1)]: candidate labels that are not in the
    label space are dropped and do not make the lookup fail.  Both label
    indexers agree. *)
Theorem C3_label_range_scenarios :
  (let* li := LabelIndexer.__init__ (array1 int64 [10; 20; 30; 40; 50]) in
   LabelIndexer.__getitem__ li (PySlice (slice2 15 45)))
  = Ok (PySlice (slice3 1 4 1))
  /\ (let* li := LabelIndexer.__init__ (array1 int64 [10; 20; 40; 50]) in
      LabelIndexer._label_slice_to_indices li (slice2 10 51))
     = Ok [0; 1; 2; 3]
  /\ (let* li := LabelIndexer.__init__ (array1 int64 [10; 20; 40; 50]) in
      LabelIndexer.__getitem__ li (PySlice (slice2 10 51)))
     = Ok (PySlice (slice3 0 4 1))
  /\ (let* li := indexables.LabelIndexer.__init__
                   (array1 int64 [10; 20; 30; 40; 50]) in
      indexables.LabelIndexer.__getitem__ li (indexables.Slice (slice2 15 45)))
     = Ok (indexables.Slice (slice3 1 4 1))
  /\ (let* li := indexables.LabelIndexer.__init__
                   (array1 int64 [10; 20; 40; 50]) in
      indexables.LabelIndexer._resolve li (slice2 10 51))
     = Ok [0; 1; 2; 3]
  /\ (let* li := indexables.LabelIndexer.__init__
                   (array1 int64 [10; 20; 40; 50]) in
      indexables.LabelIndexer.__getitem__ li (indexables.Slice (slice2 10 51)))
     = Ok (indexables.Slice (slice3 0 4 1)).
Proof.
  repeat split; vm_compute; reflexivity.
Qed.

(** ** The structured trace indexer on an empty selection *)

Lemma unravel_index_nil (shape : list Z) :
  unravel_index [] shape = Ok (map (fun _ => []) (seq 0 (length shape))).
Proof.
  reflexivity.
Qed.

(** C10: for a shape with at least one axis and a slice that selects no flat
    trace index, [StructuredTraceIndexer.__getitem__] raises the error of
    converting an empty per-axis coordinate array to a slice; it does not
    return an empty bounding box with an empty recipe. *)
Theorem C10_empty_selection_raises (shape : list Z) (s : slice) :
  shape <> [] ->
  getitem_slice
    (arange_from 0 1 (Z.to_nat (TraceIndexer.__len__ (TraceIndexer.mk shape)))) s
  = Ok [] ->
  StructuredTraceIndexer.__getitem__ (TraceIndexer.mk shape) (PySlice s)
  = Raise (ValueError "Empty array cannot be converted to slice").
Proof.
  intros Hshape Hsel.
  unfold StructuredTraceIndexer.__getitem__, StructuredTraceIndexer._get_many.
  rewrite Hsel. cbn [bind TraceIndexer._shape].
  rewrite unravel_index_nil. cbn [bind].
  destruct shape as [|d shape]; [contradiction|].
  reflexivity.
Qed.

Lemma C10_empty_selection_raises_witness :
  StructuredTraceIndexer.__getitem__ (TraceIndexer.mk [4; 3; 2])
    (PySlice (slice2 5 5))
  = Raise (ValueError "Empty array cannot be converted to slice").
Proof.
  apply (C10_empty_selection_raises [4; 3; 2] (slice2 5 5)).
  - discriminate.
  - reflexivity.
Defined.

(** ** The default offset of [Lines] *)

Lemma take1_first (a : list Z) (x : Z) :
  take1 a 0 = Ok x -> exists rest, a = x :: rest.
Proof.
  unfold take1. destruct a as [|y rest]; cbn; [discriminate|].
  intros H. destruct (Z.pos (Pos.of_succ_nat (length rest)) <=? 0) eqn:E;
    [apply Z.leb_le in E; lia|].
  cbn in H. injection H as <-. now exists rest.
Qed.

(** C9: for a [Lines] accessor built from an offset label array and for every
    index [i] that is not a tuple, [__getitem__(i)] returns the same result as
    [__getitem__((i, o0))], where [o0] is the first element of that offset
    array. *)
Theorem C9_lines_default_offset
    (data_array : Type) (swapaxes : data_array -> Z -> Z -> data_array)
    (dim_name : string) (labels offsets : ndarray)
    (data headers : indexables.Lines.tiledb_Array data_array)
    (self : indexables.Lines.t data_array) :
  indexables.Lines.__init__ dim_name labels offsets data headers = Ok self ->
  exists (o0 : Z) (rest : list Z),
    items offsets = o0 :: rest
    /\ forall i : indexables.Index,
         indexables.Lines.__getitem__ swapaxes self (indexables.Lines.Single i)
         = indexables.Lines.__getitem__ swapaxes self
             (indexables.Lines.Pair (i, indexables.Int o0)).
Proof.
  unfold indexables.Lines.__init__. intros H.
  destruct (indexables.LabelIndexer.__init__ labels) as [li|e]; [|discriminate].
  destruct (indexables.LabelIndexer.__init__ offsets) as [oi|e]; [|discriminate].
  cbn [bind] in H.
  destruct (take1 (items offsets) 0) as [o0|e] eqn:Hfirst; [|discriminate].
  cbn [bind] in H. injection H as <-.
  destruct (take1_first _ _ Hfirst) as [rest Hrest].
  exists o0, rest. split; [assumption|].
  intros i. reflexivity.
Qed.

Lemma C9_lines_default_offset_witness :
  exists (self : indexables.Lines.t (list Z)) (o0 : Z) (rest : list Z),
    indexables.Lines.__init__ "ilines"
      (array1 int64 [10; 20; 30]) (array1 int64 [7; 8])
      (indexables.Lines.mk_tiledb_Array ["ilines"; "offsets"; "xlines"; "samples"]
         (fun _ => Ok [1; 2]))
      (indexables.Lines.mk_tiledb_Array [] (fun _ => Ok []))
    = Ok self
    /\ items (array1 int64 [7; 8]) = o0 :: rest
    /\ forall i : indexables.Index,
         indexables.Lines.__getitem__ (fun d _ _ => d) self
           (indexables.Lines.Single i)
         = indexables.Lines.__getitem__ (fun d _ _ => d) self
             (indexables.Lines.Pair (i, indexables.Int o0)).
Proof.
  eexists.
  edestruct (C9_lines_default_offset (list Z) (fun d _ _ => d) "ilines"
               (array1 int64 [10; 20; 30]) (array1 int64 [7; 8])
               (indexables.Lines.mk_tiledb_Array
                  ["ilines"; "offsets"; "xlines"; "samples"]
                  (fun _ => Ok [1; 2]))
               (indexables.Lines.mk_tiledb_Array [] (fun _ => Ok [])))
    as (o0 & rest & Hitems & Hget).
  - vm_compute. reflexivity.
  - exists o0, rest. split; [reflexivity|]. split; [exact Hitems|exact Hget].
Defined.

(** ** [np.unique], duplicates and extrema *)

Lemma In_insert_unique (x y : Z) (l : list Z) :
  In y (insert_unique x l) <-> y = x \/ In y l.
Proof.
  induction l as [|z l IH]; cbn.
  - intuition.
  - destruct (x <? z) eqn:E1; [cbn; intuition|].
    destruct (x =? z) eqn:E2.
    + apply Z.eqb_eq in E2. subst z. cbn. intuition.
    + cbn. rewrite IH. intuition.
Qed.

Lemma np_unique_cons (x : Z) (a : list Z) :
  np_unique (x :: a) = insert_unique x (np_unique a).
Proof.
  reflexivity.
Qed.

Lemma In_np_unique (y : Z) (a : list Z) : In y (np_unique a) <-> In y a.
Proof.
  induction a as [|x a IH]; [reflexivity|].
  rewrite np_unique_cons, In_insert_unique, IH. cbn. intuition.
Qed.

Lemma insert_unique_sorted (x : Z) (l : list Z) :
  StronglySorted Z.lt l -> StronglySorted Z.lt (insert_unique x l).
Proof.
  induction l as [|z l IH]; intros Hs; cbn.
  - repeat constructor.
  - inversion Hs as [|? ? Hl Hz]; subst.
    destruct (x <? z) eqn:E1.
    + apply Z.ltb_lt in E1. constructor; [assumption|].
      constructor; [assumption|].
      eapply Forall_impl; [|exact Hz]. cbn. intros; lia.
    + destruct (x =? z) eqn:E2; [assumption|].
      apply Z.ltb_ge in E1. apply Z.eqb_neq in E2.
      constructor; [now apply IH|].
      apply Forall_forall. intros y Hy.
      apply In_insert_unique in Hy as [->|Hy]; [lia|].
      rewrite Forall_forall in Hz. now apply Hz.
Qed.

Lemma np_unique_sorted (a : list Z) : StronglySorted Z.lt (np_unique a).
Proof.
  induction a as [|x a IH]; [constructor|].
  rewrite np_unique_cons. now apply insert_unique_sorted.
Qed.

Lemma insert_unique_present (x : Z) (l : list Z) :
  StronglySorted Z.lt l -> In x l -> insert_unique x l = l.
Proof.
  induction l as [|z l IH]; intros Hs Hin; [contradiction|].
  inversion Hs as [|? ? Hl Hz]; subst. cbn.
  rewrite Forall_forall in Hz.
  destruct Hin as [->|Hin].
  - now rewrite Z.ltb_irrefl, Z.eqb_refl.
  - specialize (Hz x Hin).
    destruct (x <? z) eqn:E1; [apply Z.ltb_lt in E1; lia|].
    destruct (x =? z) eqn:E2; [reflexivity|].
    f_equal. now apply IH.
Qed.

Lemma insert_unique_absent (x : Z) (l : list Z) :
  ~ In x l -> length (insert_unique x l) = S (length l).
Proof.
  induction l as [|z l IH]; intros Hnin; [reflexivity|]. cbn.
  destruct (x <? z); [reflexivity|].
  destruct (x =? z) eqn:E2.
  - apply Z.eqb_eq in E2. subst. elim Hnin. now left.
  - cbn. f_equal. apply IH. intros H. apply Hnin. now right.
Qed.

Lemma np_unique_length_le (a : list Z) :
  (length (np_unique a) <= length a)%nat.
Proof.
  induction a as [|x a IH]; [cbn; lia|].
  rewrite np_unique_cons. cbn [length].
  destruct (in_dec Z.eq_dec x (np_unique a)) as [Hin|Hnin].
  - rewrite insert_unique_present; [lia|apply np_unique_sorted|assumption].
  - rewrite insert_unique_absent by assumption. lia.
Qed.

(** The test of [LabelIndexer.__init__]: the distinct elements are as many as
    the elements exactly when no element repeats. *)
Lemma np_unique_length_NoDup (a : list Z) :
  length (np_unique a) = length a <-> NoDup a.
Proof.
  induction a as [|x a IH].
  - split; [constructor|reflexivity].
  - rewrite np_unique_cons. cbn [length].
    pose proof (np_unique_length_le a) as Hle.
    destruct (in_dec Z.eq_dec x (np_unique a)) as [Hin|Hnin].
    + rewrite insert_unique_present;
        [|apply np_unique_sorted|assumption].
      split; [lia|].
      intros Hnd. inversion Hnd as [|? ? Hx Ha]; subst.
      elim Hx. now apply In_np_unique.
    + rewrite insert_unique_absent by assumption.
      rewrite In_np_unique in Hnin.
      split.
      * intros H. constructor; [assumption|]. apply IH. lia.
      * intros Hnd. inversion Hnd as [|? ? Hx Ha]; subst.
        f_equal. now apply IH.
Qed.

Lemma fold_min_spec (x : Z) (a : list Z) :
  In (fold_right Z.min x a) (x :: a)
  /\ Forall (fun y => fold_right Z.min x a <= y) (x :: a).
Proof.
  induction a as [|z a [IHin IHle]]; cbn [fold_right].
  - split; [now left|]. constructor; [lia|constructor].
  - split.
    + destruct (Z.min_spec z (fold_right Z.min x a)) as [[_ ->]|[_ ->]].
      * right. now left.
      * destruct IHin as [<-|Hin]; [now left|right; now right].
    + inversion IHle as [|? ? Hx Ha]; subst.
      constructor; [lia|]. constructor; [lia|].
      eapply Forall_impl; [|exact Ha]. cbn. intros; lia.
Qed.

Lemma fold_max_spec (x : Z) (a : list Z) :
  In (fold_right Z.max x a) (x :: a)
  /\ Forall (fun y => y <= fold_right Z.max x a) (x :: a).
Proof.
  induction a as [|z a [IHin IHle]]; cbn [fold_right].
  - split; [now left|]. constructor; [lia|constructor].
  - split.
    + destruct (Z.max_spec z (fold_right Z.max x a)) as [[_ ->]|[_ ->]].
      * destruct IHin as [<-|Hin]; [now left|right; now right].
      * right. now left.
    + inversion IHle as [|? ? Hx Ha]; subst.
      constructor; [lia|]. constructor; [lia|].
      eapply Forall_impl; [|exact Ha]. cbn. intros; lia.
Qed.

(** ** [argsort] *)






(** ** Construction and scalar lookup of the label indexers *)

Lemma flatnonzero_from_absent (v k : Z) (a : list Z) :
  ~ In v a ->
  map fst (filter (fun p => v =? snd p) (enumerate_from k a)) = [].
Proof.
  revert k. induction a as [|x a IH]; intros k Hnin; [reflexivity|].
  cbn. destruct (v =? x) eqn:E.
  - apply Z.eqb_eq in E. subst. elim Hnin. now left.
  - apply IH. intros H. apply Hnin. now right.
Qed.

Lemma flatnonzero_from_present (v k : Z) (a : list Z) (p : nat) :
  NoDup a -> nth_error a p = Some v ->
  map fst (filter (fun q => v =? snd q) (enumerate_from k a))
  = [k + Z.of_nat p].
Proof.
  revert k p. induction a as [|x a IH]; intros k p Hnd Hp.
  - destruct p; discriminate.
  - inversion Hnd as [|? ? Hx Ha]; subst. destruct p as [|p]; cbn in Hp.
    + injection Hp as ->. cbn. rewrite Z.eqb_refl. cbn.
      rewrite flatnonzero_from_absent by assumption. f_equal. lia.
    + cbn. destruct (v =? x) eqn:E.
      * apply Z.eqb_eq in E. subst. elim Hx.
        eapply nth_error_In. exact Hp.
      * rewrite (IH (k + 1) p Ha Hp). f_equal. lia.
Qed.

Lemma flatnonzero_eq_absent (v : Z) (a : list Z) :
  ~ In v a -> flatnonzero_eq v a = [].
Proof.
  apply flatnonzero_from_absent.
Qed.

Lemma flatnonzero_eq_present (v : Z) (a : list Z) (p : nat) :
  NoDup a -> nth_error a p = Some v -> flatnonzero_eq v a = [Z.of_nat p].
Proof.
  intros Hnd Hp. unfold flatnonzero_eq, enumerate.
  now rewrite (flatnonzero_from_present v 0 a p Hnd Hp).
Qed.

Lemma NoDup_nth_error_unique (a : list Z) (v : Z) (p q : nat) :
  NoDup a -> nth_error a p = Some v -> nth_error a q = Some v -> q = p.
Proof.
  intros Hnd Hp Hq.
  assert (Hlt : (q < length a)%nat).
  { apply nth_error_Some. rewrite Hq. discriminate. }
  apply (proj1 (NoDup_nth_error a) Hnd q p Hlt). now rewrite Hp, Hq.
Qed.

(** What a successful construction establishes (utils.py). *)
Lemma utils_init_inv (labels : ndarray) (li : LabelIndexer.t) :
  LabelIndexer.__init__ labels = Ok li ->
  is_np_integer (dtype labels) = true
  /\ NoDup (items labels)
  /\ LabelIndexer._labels li = items labels
  /\ np_min (items labels) = Ok (LabelIndexer._min_label li)
  /\ (exists mx : Z,
        np_max (items labels) = Ok mx
        /\ LabelIndexer._max_label li = np_add (dtype labels) mx 1)
  /\ LabelIndexer._sorter li = argsort (items labels).
Proof.
  unfold LabelIndexer.__init__. intros H.
  destruct (is_np_integer (dtype labels)); [|discriminate]. cbn [negb] in H.
  destruct (ndim labels =? 0)%nat; [discriminate|].
  destruct (length (np_unique (items labels)) =? length (items labels))%nat
    eqn:E; [|discriminate].
  apply Nat.eqb_eq, np_unique_length_NoDup in E. cbn [negb] in H.
  destruct (np_min (items labels)) as [mn|]; [|discriminate].
  destruct (np_max (items labels)) as [mx|]; [|discriminate].
  cbn [bind] in H. injection H as <-. cbn.
  split; [reflexivity|]. split; [assumption|]. split; [reflexivity|].
  split; [reflexivity|]. split; [|reflexivity]. now exists mx.
Qed.

(** What a successful construction establishes (indexables.py). *)
Lemma indexables_init_inv (labels : ndarray) (li : indexables.LabelIndexer.t) :
  indexables.LabelIndexer.__init__ labels = Ok li ->
  is_np_integer (dtype labels) = true
  /\ NoDup (items labels)
  /\ indexables.LabelIndexer._labels li = items labels
  /\ np_min (items labels) = Ok (indexables.LabelIndexer._min_label li)
  /\ (exists mx : Z,
        np_max (items labels) = Ok mx
        /\ indexables.LabelIndexer._max_label li = np_add (dtype labels) mx 1)
  /\ indexables.LabelIndexer._sorter li = argsort (items labels)
  /\ indexables.LabelIndexer._dtype li = dtype labels.
Proof.
  unfold indexables.LabelIndexer.__init__. intros H.
  destruct (is_np_integer (dtype labels)); [|discriminate]. cbn [negb] in H.
  destruct (ndim labels =? 0)%nat; [discriminate|].
  destruct (length (np_unique (items labels)) =? length (items labels))%nat
    eqn:E; [|discriminate].
  apply Nat.eqb_eq, np_unique_length_NoDup in E. cbn [negb] in H.
  destruct (np_min (items labels)) as [mn|]; [|discriminate].
  destruct (np_max (items labels)) as [mx|]; [|discriminate].
  cbn [bind] in H. injection H as <-. cbn.
  split; [reflexivity|]. split; [assumption|]. split; [reflexivity|].
  split; [reflexivity|]. split; [now exists mx|]. split; reflexivity.
Qed.

(** The scalar lookup over labels without repetition. *)
Lemma utils_get_one_spec (li : LabelIndexer.t) (v : Z) :
  NoDup (LabelIndexer._labels li) ->
  (forall p : nat, nth_error (LabelIndexer._labels li) p = Some v ->
     LabelIndexer._get_one li v = Ok (Z.of_nat p))
  /\ (~ In v (LabelIndexer._labels li) ->
      LabelIndexer._get_one li v = Raise (ValueError "is not in labels")).
Proof.
  intros Hnd. unfold LabelIndexer._get_one. split.
  - intros p Hp. now rewrite (flatnonzero_eq_present v _ p Hnd Hp).
  - intros Hnin. now rewrite flatnonzero_eq_absent.
Qed.

Lemma indexables_get_label_spec (li : indexables.LabelIndexer.t) (v : Z) :
  NoDup (indexables.LabelIndexer._labels li) ->
  (forall p : nat, nth_error (indexables.LabelIndexer._labels li) p = Some v ->
     indexables.LabelIndexer._get_label li v = Ok (Z.of_nat p))
  /\ (~ In v (indexables.LabelIndexer._labels li) ->
      indexables.LabelIndexer._get_label li v
      = Raise (ValueError "is not in labels")).
Proof.
  intros Hnd. unfold indexables.LabelIndexer._get_label. split.
  - intros p Hp. now rewrite (flatnonzero_eq_present v _ p Hnd Hp).
  - intros Hnin. now rewrite flatnonzero_eq_absent.
Qed.

(** C5: for a label indexer built over a label array [L] (which construction
    guarantees to be integer and free of repetitions) and every integer [v]:
    when [v] occurs in [L] the scalar lookup returns the one 0-based position
    [p] with [L[p] == v]; when [v] does not occur it fails with the
    label-not-found error.  This holds for both label indexers. *)
Theorem C5_label_lookup (labels : ndarray) (v : Z) :
  (forall li : LabelIndexer.t,
     LabelIndexer.__init__ labels = Ok li ->
     (In v (items labels) ->
        exists p : nat,
          nth_error (items labels) p = Some v
          /\ (forall q : nat, nth_error (items labels) q = Some v -> q = p)
          /\ LabelIndexer.__getitem__ li (PyInt v) = Ok (PyInt (Z.of_nat p)))
     /\ (~ In v (items labels) ->
         LabelIndexer.__getitem__ li (PyInt v)
         = Raise (ValueError "is not in labels")))
  /\ (forall li : indexables.LabelIndexer.t,
        indexables.LabelIndexer.__init__ labels = Ok li ->
        (In v (items labels) ->
           exists p : nat,
             nth_error (items labels) p = Some v
             /\ (forall q : nat, nth_error (items labels) q = Some v -> q = p)
             /\ indexables.LabelIndexer.__getitem__ li (indexables.Int v)
                = Ok (indexables.Int (Z.of_nat p)))
        /\ (~ In v (items labels) ->
            indexables.LabelIndexer.__getitem__ li (indexables.Int v)
            = Raise (ValueError "is not in labels"))).
Proof.
  split; intros li Hinit.
  - destruct (utils_init_inv _ _ Hinit) as (_ & Hnd & Hl & _).
    assert (Hnd' : NoDup (LabelIndexer._labels li)) by now rewrite Hl.
    destruct (utils_get_one_spec li v Hnd') as [Hfound Hmissing].
    rewrite Hl in Hfound, Hmissing. split.
    + intros Hin. apply In_nth_error in Hin as [p Hp]. exists p.
      split; [assumption|]. split.
      * intros q Hq.
        exact (NoDup_nth_error_unique (items labels) v p q Hnd Hp Hq).
      * cbn [LabelIndexer.__getitem__]. now rewrite (Hfound p Hp).
    + intros Hnin. cbn [LabelIndexer.__getitem__]. now rewrite Hmissing.
  - destruct (indexables_init_inv _ _ Hinit) as (_ & Hnd & Hl & _).
    assert (Hnd' : NoDup (indexables.LabelIndexer._labels li)) by now rewrite Hl.
    destruct (indexables_get_label_spec li v Hnd') as [Hfound Hmissing].
    rewrite Hl in Hfound, Hmissing. split.
    + intros Hin. apply In_nth_error in Hin as [p Hp]. exists p.
      split; [assumption|]. split.
      * intros q Hq.
        exact (NoDup_nth_error_unique (items labels) v p q Hnd Hp Hq).
      * cbn [indexables.LabelIndexer.__getitem__]. now rewrite (Hfound p Hp).
    + intros Hnin. cbn [indexables.LabelIndexer.__getitem__].
      now rewrite Hmissing.
Qed.

Lemma C5_label_lookup_witness :
  (exists li p,
     LabelIndexer.__init__ (array1 int64 [30; 10; 20]) = Ok li
     /\ nth_error [30; 10; 20] p = Some 20
     /\ LabelIndexer.__getitem__ li (PyInt 20) = Ok (PyInt (Z.of_nat p)))
  /\ (exists li,
        indexables.LabelIndexer.__init__ (array1 int64 [30; 10; 20]) = Ok li
        /\ indexables.LabelIndexer.__getitem__ li (indexables.Int 25)
           = Raise (ValueError "is not in labels")).
Proof.
  split.
  - eexists.
    edestruct (proj1 (C5_label_lookup (array1 int64 [30; 10; 20]) 20))
      as [Hfound _].
    + vm_compute. reflexivity.
    + destruct Hfound as (p & Hp & _ & Hget).
      * cbn. tauto.
      * exists p. split; [reflexivity|]. split; [exact Hp|exact Hget].
  - eexists. split; [vm_compute; reflexivity|].
    apply (proj2 (C5_label_lookup (array1 int64 [30; 10; 20]) 25)).
    + vm_compute. reflexivity.
    + cbn. intros [H|[H|[H|[]]]]; discriminate.
Defined.




(** ** [ensure_slice] on an arbitrary one-dimensional integer array *)

Lemma diffs_length (a : list Z) : length (diffs a) = pred (length a).
Proof.
  induction a as [|x [|y a] IH]; try reflexivity.
  change (diffs (x :: y :: a)) with ((y - x) :: diffs (y :: a)).
  cbn [length pred] in *. now rewrite IH.
Qed.

Lemma nth_diffs (a : list Z) (i : nat) :
  (S i < length a)%nat ->
  nth i (diffs a) 0 = nth (S i) a 0 - nth i a 0.
Proof.
  revert i. induction a as [|x [|y a] IH]; intros i Hi; cbn in Hi; try lia.
  change (diffs (x :: y :: a)) with ((y - x) :: diffs (y :: a)).
  destruct i as [|i]; [reflexivity|].
  cbn [nth]. rewrite IH by (cbn; lia). reflexivity.
Qed.

(** When [np.unique] keeps at most one value, every element is that value. *)
Lemma np_unique_single (ds : list Z) (x : Z) :
  (length (np_unique ds) <= 1)%nat -> In x ds -> x = nthZ (np_unique ds) 0.
Proof.
  intros Hlen Hin. apply In_np_unique in Hin.
  destruct (np_unique ds) as [|u [|u' l]]; cbn in *; [contradiction| |lia].
  destruct Hin as [<-|[]]. reflexivity.
Qed.

(** The three outcomes of [_ensure_slice_array] past its guards, on an index
    array. *)
Lemma _ensure_slice_array_long (a : list Z) :
  (2 <= length a)%nat ->
  _ensure_slice_array (array1 intp a)
  = let ds := diffs a in
    if negb (forallb (fun d => 0 <? d) ds || forallb (fun d => d <? 0) ds)
    then Raise non_monotonic_error
    else if (1 <? length (np_unique ds))%nat then Raise multi_slice_error
    else
      let step := nthZ (np_unique ds) 0 in
      Ok (slice3 (nthZ a 0) (last a 0 + (if 0 <? step then 1 else -1)) step).
Proof.
  intros Hlen.
  rewrite _ensure_slice_array_unfold by (reflexivity || assumption).
  now rewrite np_diffs_intp.
Qed.

(** A returned slice certifies a progression: on an index array
    [_ensure_slice_array] answers only when consecutive elements differ by
    one nonzero constant. *)
Lemma _ensure_slice_array_ok_progression (a : list Z) (s : slice) :
  (2 <= length a)%nat ->
  _ensure_slice_array (array1 intp a) = Ok s ->
  exists d : Z, d <> 0 /\ arithmetic_progression d a.
Proof.
  intros Hlen. rewrite _ensure_slice_array_long by assumption. cbn zeta.
  destruct (forallb (fun d => 0 <? d) (diffs a)
            || forallb (fun d => d <? 0) (diffs a)) eqn:Hmono;
    [|discriminate].
  cbn [negb].
  destruct (1 <? length (np_unique (diffs a)))%nat eqn:Hu; [discriminate|].
  apply Nat.ltb_ge in Hu. intros _.
  set (step := nthZ (np_unique (diffs a)) 0).
  assert (Hall : forall x, In x (diffs a) -> x = step).
  { intros x Hx. now apply np_unique_single. }
  assert (Hnth : forall i, (S i < length a)%nat -> In (nth i (diffs a) 0) (diffs a)).
  { intros i Hi. apply nth_In. rewrite diffs_length. lia. }
  exists step. split.
  - assert (H0 : In (nth 0 (diffs a) 0) (diffs a)) by (apply Hnth; lia).
    pose proof (Hall _ H0) as Hs.
    apply orb_true_iff in Hmono as [Hp|Hn].
    + rewrite forallb_forall in Hp. specialize (Hp _ H0).
      apply Z.ltb_lt in Hp. lia.
    + rewrite forallb_forall in Hn. specialize (Hn _ H0).
      apply Z.ltb_lt in Hn. lia.
  - intros i Hi. rewrite <- nth_diffs by assumption.
    apply Hall, Hnth, Hi.
Qed.

(** [ensure_slice] over any one-dimensional index array: the answer, when
    there is one, denotes exactly the array; the empty array and only it gets
    the empty-array error; an array that is no single progression, and only
    such an array, gets the non-monotonic or the multi-slice error. *)
Lemma ensure_slice_array_classification (r : list Z) :
  let res := ensure_slice (PyArray (array1 intp r)) in
  (forall s, res = Ok s -> slice_range s = Ok r)
  /\ (single_progression r <-> exists s, res = Ok s)
  /\ (r = [] <-> res = Raise empty_array_error)
  /\ (r <> [] /\ ~ single_progression r
      <-> res = Raise non_monotonic_error \/ res = Raise multi_slice_error).
Proof.
  intros res. subst res. cbn [ensure_slice].
  destruct r as [|x [|y r]].
  - (* empty *)
    assert (Hres : _ensure_slice_array (array1 intp []) = Raise empty_array_error).
    { reflexivity. }
    rewrite Hres. unfold single_progression. cbn [length].
    split; [discriminate|]. split; [|split].
    + split; [intros [H'|[H' _]]; [discriminate|lia]|].
      intros [s Hs]. discriminate.
    + split; reflexivity.
    + split; [intros [H' _]; now elim H'|].
      intros [H'|H']; discriminate.
  - (* one element *)
    assert (Hres : _ensure_slice_array (array1 intp [x]) = Ok (slice2 x (x + 1))).
    { reflexivity. }
    rewrite Hres. unfold single_progression. cbn [length].
    split; [|split; [|split]].
    + intros s [= <-]. unfold slice_range, slice2, arange, arange_len. cbn.
      replace (x + 1 - x + 1 - 1) with 1 by lia. reflexivity.
    + split; [intros _; now eexists|]. intros _. now left.
    + split; discriminate.
    + split; [intros [_ H']; elim H'; now left|].
      intros [H'|H']; discriminate.
  - (* two elements or more *)
    set (a := x :: y :: r).
    assert (Hlen : (2 <= length a)%nat) by (cbn; lia).
    assert (Hprog : forall d, d <> 0 -> arithmetic_progression d a ->
              _ensure_slice_array (array1 intp a)
              = Ok (slice3 (nthZ a 0) (last a 0 + Z.sgn d) d)
              /\ slice_range (slice3 (nthZ a 0) (last a 0 + Z.sgn d) d) = Ok a).
    { intros d Hd Hap.
      exact (ensure_slice_progression intp a d eq_refl Hlen Hd Hap
               eq_refl eq_refl). }
    assert (Hsingle : single_progression a
                      <-> exists s, _ensure_slice_array (array1 intp a) = Ok s).
    { split.
      - intros [H|[_ (d & Hd & Hap)]]; [cbn in H; lia|].
        eexists. exact (proj1 (Hprog d Hd Hap)).
      - intros [s Hs]. right. split; [assumption|].
        eapply _ensure_slice_array_ok_progression; eassumption. }
    split; [|split; [exact Hsingle|split]].
    + intros s Hs.
      destruct (_ensure_slice_array_ok_progression a s Hlen Hs)
        as (d & Hd & Hap).
      destruct (Hprog d Hd Hap) as [Hok Hrange].
      rewrite Hok in Hs. injection Hs as <-. exact Hrange.
    + split; [discriminate|].
      rewrite _ensure_slice_array_long by assumption. cbn zeta.
      destruct (negb _); [discriminate|].
      destruct (_ <? _)%nat; discriminate.
    + rewrite Hsingle.
      rewrite _ensure_slice_array_long by assumption. cbn zeta.
      destruct (negb _).
      * split; [intros _; now left|]. intros _. split; [discriminate|].
        intros [s Hs]. discriminate.
      * destruct (_ <? _)%nat.
        -- split; [intros _; now right|]. intros _. split; [discriminate|].
           intros [s Hs]. discriminate.
        -- split.
           ++ intros [_ H]. elim H. now eexists.
           ++ intros [H|H]; discriminate.
Qed.

(** ** The range lookup of the label indexers *)

(** utils.py: [_get_many] hands the resolved ordinals to [ensure_slice], so
    its outcome is classified by the ordinals alone. *)
Lemma utils_get_many_classification
    (li : LabelIndexer.t) (label_slice : slice) (r : list Z) :
  LabelIndexer._label_slice_to_indices li label_slice = Ok r ->
  let res := LabelIndexer._get_many li label_slice in
  (forall s, res = Ok s -> slice_range s = Ok r)
  /\ (single_progression r <-> exists s, res = Ok s)
  /\ (r = [] <-> res = Raise empty_array_error)
  /\ (r <> [] /\ ~ single_progression r
      <-> res = Raise non_monotonic_error \/ res = Raise multi_slice_error).
Proof.
  intros Hr. unfold LabelIndexer._get_many. rewrite Hr. cbn [bind].
  now apply ensure_slice_array_classification.
Qed.

Lemma eq_elementwise_all (a b : list Z) :
  length a = length b ->
  any (map negb (eq_elementwise a b)) = false -> a = b.
Proof.
  revert b. induction a as [|x a IH]; intros [|y b] Hlen Hany;
    try discriminate; [reflexivity|].
  cbn in Hany. apply orb_false_iff in Hany as [Hxy Hrest].
  apply negb_false_iff, Z.eqb_eq in Hxy. subst y.
  f_equal. apply IH; [now injection Hlen|exact Hrest].
Qed.

Lemma eq_elementwise_refl (a : list Z) :
  any (map negb (eq_elementwise a a)) = false.
Proof.
  induction a as [|x a IH]; [reflexivity|].
  cbn. now rewrite Z.eqb_refl.
Qed.

Lemma broadcast_all_equal (x : Z) (b : list Z) :
  any (map (fun y => negb (x =? y)) b) = false -> forall y, In y b -> y = x.
Proof.
  induction b as [|z b IH]; intros Hany y Hin; [contradiction|].
  cbn in Hany. apply orb_false_iff in Hany as [Hz Hrest].
  apply negb_false_iff, Z.eqb_eq in Hz.
  destruct Hin as [<-|Hin]; [now symmetry|now apply IH].
Qed.

Lemma arange_raise (a b c : Z) (e : exn) :
  arange a b c = Raise e -> e = ZeroDivisionError.
Proof.
  unfold arange. destruct (c =? 0); [|discriminate]. now intros [= <-].
Qed.

Lemma np_ne_raise (a b : list Z) (e : exn) :
  np_ne a b = Raise e -> e = broadcast_error.
Proof.
  unfold np_ne. destruct (length a =? length b)%nat; [discriminate|].
  destruct a as [|x [|x' a]]; destruct b as [|y [|y' b]];
    try discriminate; now intros [= <-].
Qed.

(** indexables.py: a slice returned by the second half of [_get_slice]
    denotes exactly the ordinals, which then are a single progression. *)
Lemma indexables_as_slice_sound (r : list Z) (s : slice) :
  indexables.LabelIndexer._as_slice r = Ok s ->
  slice_range s = Ok r /\ single_progression r.
Proof.
  unfold indexables.LabelIndexer._as_slice.
  destruct (length r =? 0)%nat eqn:E0; [discriminate|].
  apply Nat.eqb_neq in E0.
  set (st := nthZ r 0).
  set (stp := if (1 <? length r)%nat then nthZ r 1 - st else 1).
  set (sp := last r 0 + (if 0 <? stp then 1 else -1)).
  destruct (arange st sp stp) as [rr|] eqn:Har; [|discriminate].
  cbn [bind].
  destruct (np_ne rr r) as [ne|] eqn:Hne; [|discriminate].
  cbn [bind].
  destruct (any ne) eqn:Hany; [discriminate|].
  intros [= <-].
  assert (Hstp : stp <> 0).
  { unfold arange in Har. destruct (stp =? 0) eqn:E; [discriminate|].
    now apply Z.eqb_neq. }
  assert (Hrr : rr = arange_from st stp (length rr)).
  { unfold arange in Har. destruct (stp =? 0); [discriminate|].
    injection Har as <-. now rewrite arange_from_length. }
  assert (Heq : rr = r).
  { unfold np_ne in Hne.
    destruct (length rr =? length r)%nat eqn:El.
    - apply Nat.eqb_eq in El. injection Hne as <-.
      now apply eq_elementwise_all.
    - apply Nat.eqb_neq in El. exfalso.
      destruct r as [|y [|y' r]]; [now elim E0| |].
      + (* a single ordinal: the candidate range has one element too *)
        subst sp stp st. cbn [length Nat.ltb Nat.leb last] in Har.
        change (nthZ [y] 0) with y in Har. change (0 <? 1) with true in Har.
        rewrite arange_unit in Har. injection Har as <-. now elim El.
      + destruct rr as [|x [|x' rr]]; [discriminate| |discriminate].
        injection Hne as <-.
        pose proof (broadcast_all_equal x (y :: y' :: r) Hany) as Hall.
        assert (Hy : y = x) by (apply Hall; now left).
        assert (Hy' : y' = x) by (apply Hall; right; now left).
        apply Hstp. subst stp st.
        change (nthZ (y :: y' :: r) 1) with y'.
        change (nthZ (y :: y' :: r) 0) with y.
        cbn. lia. }
  subst rr. split.
  - unfold slice_range, slice3. cbn [start stop step]. exact Har.
  - unfold single_progression.
    destruct (length r) as [|[|n]] eqn:El; [now elim E0|now left|right].
    split; [lia|]. exists stp. split; [assumption|].
    rewrite Hrr. apply arange_from_arithmetic_progression.
Qed.

(** indexables.py: a single progression of ordinals is returned as its
    slice, and only the empty resolution gets the no-overlap error. *)
Lemma indexables_as_slice_complete (r : list Z) :
  (single_progression r ->
     exists s, indexables.LabelIndexer._as_slice r = Ok s)
  /\ (r = [] <-> indexables.LabelIndexer._as_slice r = Raise no_overlap_error).
Proof.
  split.
  - intros [H1|[H2 (d & Hd & Hap)]].
    + destruct r as [|x [|y r]]; try discriminate.
      exists (slice3 x (x + 1) 1).
      unfold indexables.LabelIndexer._as_slice.
      cbn [length Nat.eqb Nat.ltb Nat.leb last].
      change (nthZ [x] 0) with x. change (0 <? 1) with true.
      rewrite arange_unit. cbn. now rewrite Z.eqb_refl.
    + pose proof (arithmetic_progression_arange d r Hap) as Hr.
      destruct (length r) as [|[|n]] eqn:El; [lia|lia|].
      set (a := nth 0 r 0) in *.
      exists (slice3 a (a + Z.of_nat (S n) * d + Z.sgn d) d).
      unfold indexables.LabelIndexer._as_slice. rewrite El.
      cbn [Nat.eqb Nat.ltb Nat.leb].
      assert (H0 : nthZ r 0 = a) by reflexivity.
      assert (H1 : nthZ r 1 = a + d).
      { unfold nthZ. rewrite Hr. cbn. reflexivity. }
      assert (Hl : last r 0 = a + Z.of_nat (S n) * d).
      { rewrite Hr. apply last_arange_from. }
      rewrite H0, H1, Hl.
      replace (a + d - a) with d by lia.
      replace (if 0 <? d then 1 else -1) with (Z.sgn d).
      2:{ destruct (0 <? d) eqn:E.
          - apply Z.ltb_lt in E. now rewrite Z.sgn_pos.
          - apply Z.ltb_ge in E. rewrite Z.sgn_neg; [reflexivity|lia]. }
      rewrite arange_progression by assumption. cbn [bind].
      rewrite <- Hr. unfold np_ne. rewrite Nat.eqb_refl. cbn [bind].
      now rewrite eq_elementwise_refl.
  - split.
    + intros ->. reflexivity.
    + unfold indexables.LabelIndexer._as_slice, no_overlap_error.
      destruct r as [|x r]; [reflexivity|].
      cbn [length Nat.eqb].
      destruct (arange _ _ _) as [rr|e] eqn:Har; cbn [bind].
      2:{ apply arange_raise in Har. subst e. intros H; discriminate H. }
      destruct (np_ne _ _) as [ne|e] eqn:Hne; cbn [bind].
      2:{ apply np_ne_raise in Hne. subst e. intros H; discriminate H. }
      destruct (any ne); intros H; discriminate H.
Qed.

(** C6: the range lookup of [indexables.LabelIndexer] on the sorted labels
    [0,2,3,6] and the label slice [::3].  The candidate labels 0, 3, 6 resolve
    to the ordinals [0,2,3], which are no single progression.  The candidate
    range built from their ends, [np.arange(0, 4, 2)], has two elements, the
    ordinals are three, the comparison cannot be broadcast, and the lookup
    stops with NumPy's error instead of the not-a-slice error.  The label
    indexer of utils.py reports the same ordinals with its multi-slice error;
    and [_get_slice] itself reaches its not-a-slice error when the two lengths
    happen to agree, as over the labels [0,1,3,6,7,8,9]. *)
Theorem C6_get_slice_unreported_irregular_range :
  (exists li : indexables.LabelIndexer.t,
     indexables.LabelIndexer.__init__ (array1 int64 [0; 2; 3; 6]) = Ok li
     /\ indexables.LabelIndexer._resolve li (mk_slice None None (Some 3))
        = Ok [0; 2; 3]
     /\ ~ single_progression [0; 2; 3]
     /\ indexables.LabelIndexer._get_slice li (mk_slice None None (Some 3))
        = Raise broadcast_error
     /\ indexables.LabelIndexer._get_slice li (mk_slice None None (Some 3))
        <> Raise not_a_slice_error)
  /\ (exists li : LabelIndexer.t,
        LabelIndexer.__init__ (array1 int64 [0; 2; 3; 6]) = Ok li
        /\ LabelIndexer._label_slice_to_indices li (mk_slice None None (Some 3))
           = Ok [0; 2; 3]
        /\ LabelIndexer._get_many li (mk_slice None None (Some 3))
           = Raise multi_slice_error)
  /\ (exists li : indexables.LabelIndexer.t,
        indexables.LabelIndexer.__init__
          (array1 int64 [0; 1; 3; 6; 7; 8; 9]) = Ok li
        /\ indexables.LabelIndexer._resolve li (mk_slice None None (Some 3))
           = Ok [0; 2; 3; 6]
        /\ indexables.LabelIndexer._get_slice li (mk_slice None None (Some 3))
           = Raise not_a_slice_error).
Proof.
  split; [|split].
  - eexists. split; [vm_compute; reflexivity|].
    split; [vm_compute; reflexivity|].
    split; [|split; [vm_compute; reflexivity|vm_compute; discriminate]].
    intros [H|[_ (d & _ & Hap)]]; [discriminate|].
    pose proof (Hap 0%nat) as H0. pose proof (Hap 1%nat) as H1.
    cbn in H0, H1. lia.
  - eexists. repeat split; vm_compute; reflexivity.
  - eexists. repeat split; vm_compute; reflexivity.
Qed.

(** C1: the structured trace indexer on the shape (2,4,2) and the flat slice
    [6:12].  The slice selects the six flat indices 6..11; their coordinates
    along the middle axis are 0, 1 and 3, which are no progression, and the
    indexer raises the multi-slice error instead of returning a bounding box
    and a recipe.  On the shape (2,2) and the reversed slice [::-1] it
    answers, but the recipe lists the positions in ascending order while the
    slice enumerates the flat indices 3, 2, 1, 0. *)
Theorem C1_get_many_failing_inputs :
  getitem_slice
    (arange_from 0 1 (Z.to_nat (TraceIndexer.__len__ (TraceIndexer.mk [2; 4; 2]))))
    (slice2 6 12)
  = Ok [6; 7; 8; 9; 10; 11]
  /\ StructuredTraceIndexer.__getitem__ (TraceIndexer.mk [2; 4; 2])
       (PySlice (slice2 6 12))
     = Raise multi_slice_error
  /\ getitem_slice
       (arange_from 0 1 (Z.to_nat (TraceIndexer.__len__ (TraceIndexer.mk [2; 2]))))
       (mk_slice None None (Some (-1)))
     = Ok [3; 2; 1; 0]
  /\ StructuredTraceIndexer.__getitem__ (TraceIndexer.mk [2; 2])
       (PySlice (mk_slice None None (Some (-1))))
     = Ok ([PySlice (slice3 0 2 1); PySlice (slice3 0 2 1)],
           Positions [0; 1; 2; 3]).
Proof.
  repeat split; vm_compute; reflexivity.
Qed.

(** ** Unravelling flat indices *)

Lemma lex_lt_irrefl (p : list Z) : ~ lex_lt p p.
Proof.
  induction p as [|x p IH]; cbn; [tauto|].
  intros [H|[_ H]]; [lia|auto].
Qed.

Lemma lex_lt_trans (p q r : list Z) :
  lex_lt p q -> lex_lt q r -> lex_lt p r.
Proof.
  revert q r. induction p as [|x p IH]; intros [|y q] [|z r]; cbn; try tauto.
  intros [H1|[H1 H1']] [H2|[H2 H2']].
  - left. lia.
  - left. lia.
  - left. lia.
  - right. split; [lia|]. eapply IH; eassumption.
Qed.

Lemma prod_app (s t : list Z) : prod (s ++ t) = prod s * prod t.
Proof.
  unfold prod. induction s as [|d s IH]; cbn [app fold_right].
  - lia.
  - rewrite IH. lia.
Qed.

Lemma prod_pos (s : list Z) : Forall (fun d => 0 < d) s -> 0 < prod s.
Proof.
  unfold prod. induction 1 as [|d s Hd _ IH]; cbn [fold_right]; lia.
Qed.

Lemma unravel_aux_acc (r : list Z) (i : Z) (acc : list Z) :
  unravel_aux r i acc = unravel_aux r i [] ++ acc.
Proof.
  revert i acc. induction r as [|d r IH]; intros i acc; [reflexivity|].
  cbn [unravel_aux]. rewrite (IH _ (i mod d :: acc)), (IH _ [i mod d]).
  now rewrite <- app_assoc.
Qed.

(** The last axis takes the remainder, the other axes unravel the quotient. *)
Lemma unravel_one_snoc (s : list Z) (d i : Z) :
  unravel_one (s ++ [d]) i = unravel_one s (i / d) ++ [i mod d].
Proof.
  unfold unravel_one. rewrite rev_app_distr. cbn [rev app unravel_aux].
  apply unravel_aux_acc.
Qed.

Lemma unravel_one_length (s : list Z) (i : Z) :
  length (unravel_one s i) = length s.
Proof.
  revert i. induction s as [|d s IH] using rev_ind; intros i; [reflexivity|].
  rewrite unravel_one_snoc, !length_app, IH. reflexivity.
Qed.

Lemma split_index (i e P : Z) :
  0 < e -> 0 < P ->
  i / e / P = i / (P * e)
  /\ (i mod (P * e)) / e = (i / e) mod P
  /\ (i mod (P * e)) mod e = i mod e.
Proof.
  intros He HP.
  assert (Hm : i mod (P * e) = i mod e + e * ((i / e) mod P)).
  { rewrite (Z.mul_comm P e). apply Z.rem_mul_r; lia. }
  pose proof (Z.mod_pos_bound i e He) as Hb.
  split; [|split].
  - rewrite (Z.mul_comm P e). apply Z.div_div; lia.
  - rewrite Hm.
    replace (i mod e + e * ((i / e) mod P))
      with (((i / e) mod P) * e + i mod e) by lia.
    rewrite Z.div_add_l by lia.
    rewrite (Z.div_small (i mod e) e) by lia. lia.
  - rewrite Hm.
    replace (i mod e + e * ((i / e) mod P))
      with (i mod e + ((i / e) mod P) * e) by lia.
    rewrite Z.mod_add by lia. apply Z.mod_small. lia.
Qed.

(** For an index within the array, the first axis takes the quotient by the
    size of the remaining axes, which unravel the remainder. *)
Lemma unravel_one_cons (d : Z) (s : list Z) (i : Z) :
  Forall (fun e => 0 < e) s -> 0 < d ->
  0 <= i < d * prod s ->
  unravel_one (d :: s) i = (i / prod s) :: unravel_one s (i mod prod s).
Proof.
  revert i. induction s as [|e s IH] using rev_ind; intros i Hs Hd Hi.
  - change (prod []) with 1 in *. change (d :: []) with ([] ++ [d]).
    rewrite unravel_one_snoc. cbn.
    rewrite Z.div_1_r, Z.mod_small by lia. reflexivity.
  - apply Forall_app in Hs as [Hs He]. inversion He as [|? ? He' _]; subst.
    pose proof (prod_pos s Hs) as HP.
    rewrite prod_app in *. change (prod [e]) with (e * 1) in *.
    rewrite Z.mul_1_r in *.
    change (d :: s ++ [e]) with ((d :: s) ++ [e]).
    rewrite !unravel_one_snoc.
    assert (Hq : 0 <= i / e < d * prod s).
    { split; [apply Z.div_pos; lia|].
      apply Z.div_lt_upper_bound; [lia|]. nia. }
    rewrite (IH (i / e) Hs Hd Hq).
    destruct (split_index i e (prod s) He' HP) as (H1 & H2 & H3).
    rewrite H1, H2, H3. reflexivity.
Qed.

(** Unravelling is strictly increasing from the flat order to the
    lexicographic order. *)
Lemma unravel_one_lt (s : list Z) (i j : Z) :
  s <> [] -> Forall (fun e => 0 < e) s ->
  0 <= i -> i < j -> j < prod s ->
  lex_lt (unravel_one s i) (unravel_one s j).
Proof.
  revert i j. induction s as [|d s IH]; intros i j Hne Hs Hi Hij Hj;
    [contradiction|].
  inversion Hs as [|? ? Hd Hs']; subst.
  pose proof (prod_pos s Hs') as HP.
  change (prod (d :: s)) with (d * prod s) in Hj.
  rewrite !unravel_one_cons by (assumption || lia).
  cbn [lex_lt].
  destruct (Z.eq_dec (i / prod s) (j / prod s)) as [Heq|Hneq].
  - right. split; [assumption|].
    pose proof (Z.div_mod i (prod s)) as Hdi.
    pose proof (Z.div_mod j (prod s)) as Hdj.
    pose proof (Z.mod_pos_bound i (prod s) HP).
    pose proof (Z.mod_pos_bound j (prod s) HP).
    destruct s as [|e s].
    + change (prod []) with 1 in *. rewrite !Z.div_1_r in Heq. lia.
    + apply IH; [discriminate|assumption|lia| |lia].
      rewrite Heq in Hdi. lia.
  - left.
    assert (i / prod s <= j / prod s) by (apply Z.div_le_mono; lia).
    lia.
Qed.

(** ** Sorted lists and the cartesian product *)

Section SortedFilter.

Variable A : Type.
Variable R : A -> A -> Prop.
Hypothesis R_irrefl : forall x, ~ R x x.
Hypothesis R_trans : forall x y z, R x y -> R y z -> R x z.
Variable mem : A -> list A -> bool.
Hypothesis mem_In : forall x l, mem x l = true <-> In x l.

Lemma mem_cons_other (x y : A) (M : list A) :
  y <> x -> mem y (x :: M) = mem y M.
Proof.
  intros Hneq.
  destruct (mem y (x :: M)) eqn:E1; destruct (mem y M) eqn:E2; try reflexivity.
  - apply mem_In in E1 as [E1|E1]; [now elim Hneq|].
    apply mem_In in E1. congruence.
  - apply mem_In in E2.
    assert (H : mem y (x :: M) = true) by (apply mem_In; now right).
    congruence.
Qed.

(** Keeping from a sorted list the members of a sorted sublist gives that
    sublist. *)
Lemma filter_sorted_sub (L : list A) :
  forall M : list A,
    StronglySorted R L -> StronglySorted R M ->
    (forall x, In x M -> In x L) ->
    filter (fun x => mem x M) L = M.
Proof.
  induction L as [|x L IH]; intros M HL HM Hsub.
  - destruct M as [|m M]; [reflexivity|].
    elim (Hsub m). now left.
  - inversion HL as [|? ? HL' Hx]; subst. rewrite Forall_forall in Hx.
    cbn [filter]. destruct (mem x M) eqn:E.
    + apply mem_In in E. destruct M as [|m M]; [contradiction|].
      inversion HM as [|? ? HM' Hm]; subst. rewrite Forall_forall in Hm.
      assert (Hmx : m = x).
      { destruct (Hsub m (or_introl eq_refl)) as [Heq|HmL]; [now symmetry|].
        destruct E as [Heq|HxM]; [assumption|].
        elim (R_irrefl x). eapply R_trans; [apply Hx, HmL|apply Hm, HxM]. }
      subst m. f_equal.
      rewrite (filter_ext_in (fun y => mem y (x :: M)) (fun y => mem y M)).
      * apply IH; [assumption|assumption|].
        intros z Hz. destruct (Hsub z (or_intror Hz)) as [Heq|HzL];
          [|assumption].
        subst z. elim (R_irrefl x). now apply Hm.
      * intros y Hy. apply mem_cons_other. intros ->.
        elim (R_irrefl x). now apply Hx.
    + apply IH; [assumption|assumption|].
      intros z Hz. destruct (Hsub z Hz) as [Heq|HzL]; [|assumption].
      subst z. apply mem_In in Hz. congruence.
Qed.

Lemma StronglySorted_app (a b : list A) :
  StronglySorted R a -> StronglySorted R b ->
  (forall x y, In x a -> In y b -> R x y) ->
  StronglySorted R (a ++ b).
Proof.
  induction a as [|x a IH]; intros Ha Hb Hab; [assumption|].
  inversion Ha as [|? ? Ha' Hx]; subst. cbn [app]. constructor.
  - apply IH; [assumption|assumption|].
    intros u v Hu Hv. apply Hab; [now right|assumption].
  - apply Forall_app. split; [assumption|].
    apply Forall_forall. intros y Hy. apply Hab; [now left|assumption].
Qed.

End SortedFilter.

Lemma StronglySorted_map {A B : Type} (R : A -> A -> Prop)
    (R' : B -> B -> Prop) (f : A -> B) (l : list A) :
  (forall x y, In x l -> In y l -> R x y -> R' (f x) (f y)) ->
  StronglySorted R l -> StronglySorted R' (map f l).
Proof.
  induction l as [|x l IH]; intros Hf Hs; [constructor|].
  inversion Hs as [|? ? Hl Hx]; subst. cbn [map]. constructor.
  - apply IH; [|assumption]. intros u v Hu Hv. apply Hf; now right.
  - apply Forall_forall. intros y Hy. apply in_map_iff in Hy as (v & <- & Hv).
    rewrite Forall_forall in Hx. apply Hf; [now left|now right|now apply Hx].
Qed.

Lemma tuple_eqb_eq (p q : list Z) : tuple_eqb p q = true <-> p = q.
Proof.
  revert q. induction p as [|x p IH]; intros [|y q]; cbn;
    try (split; [discriminate|discriminate]); [tauto|].
  rewrite andb_true_iff, Z.eqb_eq, IH. split.
  - intros [-> ->]. reflexivity.
  - intros [= -> ->]. tauto.
Qed.

Lemma frozenset_mem_In (p : list Z) (points : list (list Z)) :
  frozenset_mem p points = true <-> In p points.
Proof.
  unfold frozenset_mem. rewrite existsb_exists. split.
  - intros (q & Hq & Heq). apply tuple_eqb_eq in Heq. now subst.
  - intros Hin. exists p. split; [assumption|]. now apply tuple_eqb_eq.
Qed.

(** The product of strictly ascending factors lists its tuples in strictly
    ascending lexicographic order. *)
Lemma product_sorted (ls : list (list Z)) :
  Forall (StronglySorted Z.lt) ls -> StronglySorted lex_lt (product ls).
Proof.
  induction 1 as [|l rest Hl _ IH]; cbn [product].
  - repeat constructor.
  - induction Hl as [|x l Hl' IHl Hx]; cbn [flat_map]; [constructor|].
    apply StronglySorted_app.
    + apply (StronglySorted_map lex_lt); [|exact IH].
      intros p q _ _ Hpq. cbn. now right.
    + exact IHl.
    + intros p q Hp Hq.
      apply in_map_iff in Hp as (p' & <- & _).
      apply in_flat_map in Hq as (y & Hy & Hq).
      apply in_map_iff in Hq as (q' & <- & _).
      cbn. left. rewrite Forall_forall in Hx. now apply Hx.
Qed.

(** A tuple whose every coordinate comes from the factor of its axis is
    listed by the product. *)
Lemma In_product (F : nat -> list Z) (p : list Z) (a : nat) :
  (forall k, (k < length p)%nat -> In (nth k p 0) (F (a + k)%nat)) ->
  In p (product (map F (seq a (length p)))).
Proof.
  revert a. induction p as [|c p IH]; intros a Hp; [now left|].
  cbn [length seq map product]. apply in_flat_map. exists c. split.
  - specialize (Hp 0%nat). rewrite Nat.add_0_r in Hp. apply Hp. cbn. lia.
  - apply in_map. apply IH. intros k Hk.
    specialize (Hp (S k)). rewrite Nat.add_succ_r in Hp. apply Hp. cbn. lia.
Qed.

Lemma map_seq_nth {B : Type} (g : Z -> B) (l : list Z) :
  map (fun j => g (nth j l 0)) (seq 0 (length l)) = map g l.
Proof.
  induction l as [|x l IH]; [reflexivity|].
  cbn [length seq map nth]. f_equal.
  rewrite <- seq_shift, map_map. exact IH.
Qed.

Lemma fold_min_same (n : nat) (ls : list nat) :
  Forall (fun m => m = n) ls -> fold_right Nat.min n ls = n.
Proof.
  induction 1 as [|m ls -> _ IH]; cbn; [reflexivity|].
  rewrite IH. apply Nat.min_id.
Qed.

(** The rows of the coordinate columns are the unravelled indices. *)
Lemma zip_star_unravel (shape idx : list Z) :
  shape <> [] ->
  zip_star (map (fun k => map (fun i => nth k (unravel_one shape i) 0) idx)
                (seq 0 (length shape)))
  = map (unravel_one shape) idx.
Proof.
  intros Hne.
  set (cols := map (fun k => map (fun i => nth k (unravel_one shape i) 0) idx)
                   (seq 0 (length shape))).
  assert (Hlen : Forall (fun c => length c = length idx) cols).
  { apply Forall_forall. intros c Hc.
    apply in_map_iff in Hc as (k & <- & _). apply length_map. }
  assert (Hrow : forall j, (j < length idx)%nat ->
            map (fun col => nth j col 0) cols
            = unravel_one shape (nth j idx 0)).
  { intros j Hj. unfold cols. rewrite map_map.
    transitivity (map (fun k => nth k (unravel_one shape (nth j idx 0)) 0)
                      (seq 0 (length shape))).
    - apply map_ext. intros k.
      rewrite (nth_indep _ 0 (nth k (unravel_one shape 0) 0))
        by (now rewrite length_map).
      now rewrite (map_nth (fun i => nth k (unravel_one shape i) 0)).
    - rewrite <- (unravel_one_length shape (nth j idx 0)).
      pose proof (map_seq_nth (fun x => x) (unravel_one shape (nth j idx 0)))
        as Hid.
      rewrite map_id in Hid. exact Hid. }
  unfold zip_star. destruct cols as [|c cs] eqn:Ecols.
  - unfold cols in Ecols. destruct shape; [contradiction|discriminate].
  - inversion Hlen as [|? ? Hc Hcs]; subst.
    rewrite fold_min_same.
    + rewrite Hc. rewrite <- (map_seq_nth (unravel_one shape) idx).
      apply map_ext_in. intros j Hj. apply in_seq in Hj.
      apply Hrow. lia.
    + rewrite Forall_map. eapply Forall_impl; [|exact Hcs].
      cbn. intros a Ha. congruence.
Qed.

(** ** The recipe of the structured trace indexer *)

Lemma positions_lower {A : Type} (pred : A -> bool) (k : Z) (P : list A) (j : Z) :
  In j (map fst (filter (fun ip => pred (snd ip)) (enumerate_from k P))) ->
  k <= j.
Proof.
  revert k. induction P as [|x P IH]; intros k Hj; [contradiction|].
  cbn [enumerate_from filter snd] in Hj.
  destruct (pred x); cbn [map fst In] in Hj.
  - destruct Hj as [<-|Hj]; [lia|]. apply IH in Hj. lia.
  - apply IH in Hj. lia.
Qed.

(** Reading a list at the enumerated positions of the elements that pass a
    test gives the elements that pass, in order. *)
Lemma gather_positions {A : Type} (pred : A -> bool) (k : Z) (P : list A) :
  map (fun j => nth_error P (Z.to_nat (j - k)))
      (map fst (filter (fun ip => pred (snd ip)) (enumerate_from k P)))
  = map Some (filter pred P).
Proof.
  revert k. induction P as [|x P IH]; intros k; [reflexivity|].
  cbn [enumerate_from filter snd].
  assert (Hrest :
    map (fun j => nth_error (x :: P) (Z.to_nat (j - k)))
        (map fst (filter (fun ip => pred (snd ip)) (enumerate_from (k + 1) P)))
    = map Some (filter pred P)).
  { rewrite <- (IH (k + 1)). apply map_ext_in. intros j Hj.
    apply positions_lower in Hj.
    replace (Z.to_nat (j - k)) with (S (Z.to_nat (j - (k + 1)))) by lia.
    reflexivity. }
  destruct (pred x); cbn [map fst]; [|exact Hrest].
  rewrite Z.sub_diag. cbn [Z.to_nat nth_error]. f_equal. exact Hrest.
Qed.

Lemma arange_from_lower (a d : Z) (m : nat) (x : Z) :
  0 < d -> In x (arange_from a d m) -> a <= x.
Proof.
  intros Hd. revert a. induction m as [|m IH]; intros a Hx; [contradiction|].
  destruct Hx as [<-|Hx]; [lia|]. apply IH in Hx. lia.
Qed.

Lemma arange_from_sorted (a d : Z) (m : nat) :
  0 < d -> StronglySorted Z.lt (arange_from a d m).
Proof.
  intros Hd. revert a. induction m as [|m IH]; intros a; [constructor|].
  cbn [arange_from]. constructor; [apply IH|].
  apply Forall_forall. intros x Hx.
  apply arange_from_lower in Hx; lia.
Qed.

Lemma arange_from_upper (a b d : Z) (x : Z) :
  0 < d ->
  In x (arange_from a d (Z.to_nat (arange_len a b d))) -> x < b.
Proof.
  intros Hd Hx.
  apply (In_nth _ _ 0) in Hx as (k & Hk & Hnth).
  rewrite arange_from_length in Hk.
  rewrite nth_arange_from in Hnth by assumption. subst x.
  unfold arange_len in Hk.
  destruct (0 <? d) eqn:E; [|apply Z.ltb_ge in E; lia].
  set (q := (b - a + d - 1) / d) in *.
  assert (Hq : d * q <= b - a + d - 1) by (apply Z.mul_div_le; lia).
  assert (Hkq : Z.of_nat k + 1 <= q) by lia.
  nia.
Qed.

Lemma clamp_index_bounds (i : option Z) (n default : Z) :
  0 <= n -> 0 <= default <= n -> 0 <= clamp_index i n 0 n default <= n.
Proof.
  intros Hn Hd. unfold clamp_index. destruct i as [i|]; [|assumption].
  destruct (i <? 0) eqn:E1.
  - destruct (i + n <? 0) eqn:E2; [lia|].
    apply Z.ltb_lt in E1. apply Z.ltb_ge in E2. lia.
  - apply Z.ltb_ge in E1. destruct (n <? i) eqn:E2; [lia|].
    apply Z.ltb_ge in E2. lia.
Qed.

(** A slice with positive step selects from [np.arange(n)] a strictly
    ascending list of flat indices below [n]. *)
Lemma getitem_slice_arange_positive (n : Z) (s : slice) (idx : list Z) :
  0 <= n ->
  match step s with None => True | Some k => 0 < k end ->
  getitem_slice (arange_from 0 1 (Z.to_nat n)) s = Ok idx ->
  StronglySorted Z.lt idx /\ Forall (fun i => 0 <= i < n) idx.
Proof.
  intros Hn Hstep. unfold getitem_slice, slice_indices.
  rewrite arange_from_length, Z2Nat.id by assumption.
  set (stp := match step s with None => 1 | Some k => k end).
  assert (Hstp : 0 < stp) by (subst stp; destruct (step s); lia).
  destruct (stp =? 0) eqn:E0; [apply Z.eqb_eq in E0; lia|].
  destruct (n <? 0) eqn:E1; [apply Z.ltb_lt in E1; lia|].
  destruct (stp <? 0) eqn:E2; [apply Z.ltb_lt in E2; lia|].
  cbn [bind]. unfold arange. rewrite E0. cbn [bind].
  set (st := clamp_index (start s) n 0 n 0).
  set (sp := clamp_index (stop s) n 0 n n).
  pose proof (clamp_index_bounds (start s) n 0 Hn ltac:(lia)) as Hst.
  pose proof (clamp_index_bounds (stop s) n n Hn ltac:(lia)) as Hsp.
  fold st in Hst. fold sp in Hsp.
  set (pos := arange_from st stp (Z.to_nat (arange_len st sp stp))).
  assert (Hpos : Forall (fun i => 0 <= i < n) pos).
  { apply Forall_forall. intros x Hx. split.
    - apply arange_from_lower in Hx; lia.
    - apply arange_from_upper in Hx; lia. }
  assert (Hid : map (nthZ (arange_from 0 1 (Z.to_nat n))) pos = pos).
  { rewrite <- (map_id pos) at 2. apply map_ext_in. intros x Hx.
    rewrite Forall_forall in Hpos. specialize (Hpos x Hx).
    unfold nthZ. rewrite nth_arange_from by lia. lia. }
  rewrite Hid. intros [= <-]. split; [|assumption].
  now apply arange_from_sorted.
Qed.

Lemma mapM_ensure_slice_range (us : list (list Z)) (bbox : list slice) :
  mapM (fun u => ensure_slice (PyArray (array1 intp u))) us = Ok bbox ->
  mapM slice_range bbox = Ok us.
Proof.
  revert bbox. induction us as [|u us IH]; intros bbox H; cbn [mapM] in H.
  - now injection H as <-.
  - destruct (ensure_slice (PyArray (array1 intp u))) as [b|] eqn:Hb;
      [|discriminate].
    cbn [bind] in H.
    destruct (mapM _ us) as [bs|] eqn:Hbs; [|discriminate].
    cbn [bind] in H. injection H as <-. cbn [mapM].
    destruct (ensure_slice_array_classification u) as [Hrange _].
    rewrite (Hrange b Hb). cbn [bind]. rewrite (IH bs eq_refl). reflexivity.
Qed.

Lemma frozenset_mem_ext (p : list Z) (points points' : list (list Z)) :
  (forall q, In q points <-> In q points') ->
  frozenset_mem p points = frozenset_mem p points'.
Proof.
  intros Hiff.
  destruct (frozenset_mem p points) eqn:E1;
    destruct (frozenset_mem p points') eqn:E2; try reflexivity.
  - apply frozenset_mem_In, Hiff, frozenset_mem_In in E1. congruence.
  - apply frozenset_mem_In, Hiff, frozenset_mem_In in E2. congruence.
Qed.

(** The heart of [_get_many]: whenever it answers, the slices of the bounding
    box denote per-axis coordinate lists, and reading the flattened bounding
    box (the values of the storage [D] at the product of those lists) at the
    positions of the recipe gives the values at the selected flat indices,
    taken in ascending flat order ([idx'] is the selection sorted). *)
Lemma get_many_gathers (V : Type) (D : list Z -> V)
    (shape : list Z) (s : slice) (idx idx' : list Z)
    (bounding_box : list slice) (post_reshape_indices : list Z) :
  shape <> [] -> Forall (fun d => 0 < d) shape ->
  getitem_slice (arange_from 0 1 (Z.to_nat (prod shape))) s = Ok idx ->
  StronglySorted Z.lt idx' ->
  Forall (fun i => 0 <= i < prod shape) idx' ->
  (forall i, In i idx <-> In i idx') ->
  StructuredTraceIndexer._get_many (TraceIndexer.mk shape) s
  = Ok (bounding_box, post_reshape_indices) ->
  length post_reshape_indices = length idx'
  /\ exists axes : list (list Z),
       mapM slice_range bounding_box = Ok axes
       /\ map (fun j => nth_error (map D (product axes)) (Z.to_nat j))
              post_reshape_indices
          = map (fun i => Some (D (unravel_one shape i))) idx'.
Proof.
  intros Hne Hshape Hsel Hsorted Hbounds Hiff.
  unfold StructuredTraceIndexer._get_many.
  change (TraceIndexer.__len__ (TraceIndexer.mk shape)) with (prod shape).
  change (TraceIndexer._shape (TraceIndexer.mk shape)) with shape.
  rewrite Hsel. cbn [bind]. unfold unravel_index.
  rewrite Forall_forall in Hbounds.
  assert (Hin : forallb (in_bounds (prod shape)) idx = true).
  { apply forallb_forall. intros i Hi.
    apply Hiff in Hi. specialize (Hbounds i Hi).
    unfold in_bounds. apply andb_true_iff. split.
    - apply Z.leb_le. lia.
    - apply Z.ltb_lt. lia. }
  rewrite Hin. cbn [bind].
  rewrite zip_star_unravel by assumption. rewrite map_map.
  set (F := fun k => np_unique (map (fun i => nth k (unravel_one shape i) 0) idx)).
  change (map (fun x => np_unique (map (fun i => nth x (unravel_one shape i) 0) idx))
              (seq 0 (length shape)))
    with (map F (seq 0 (length shape))).
  destruct (mapM _ (map F (seq 0 (length shape)))) as [bbox|] eqn:Hbbox;
    [|discriminate].
  cbn [bind]. intros [= <- <-].
  set (points := map (unravel_one shape) idx).
  set (points' := map (unravel_one shape) idx').
  assert (Hpoints : forall q, In q points <-> In q points').
  { intros q. unfold points, points'. rewrite !in_map_iff.
    split; intros (i & Hq & Hi); exists i; (split; [assumption|]);
      now apply Hiff. }
  assert (Hfilter :
    filter (fun p => frozenset_mem p points)
           (product (map F (seq 0 (length shape)))) = points').
  { rewrite (filter_ext (fun p => frozenset_mem p points)
                        (fun p => frozenset_mem p points'))
      by (intros p; now apply frozenset_mem_ext).
    apply (filter_sorted_sub (list Z) lex_lt lex_lt_irrefl lex_lt_trans
             frozenset_mem frozenset_mem_In).
    - apply product_sorted. apply Forall_forall. intros l Hl.
      apply in_map_iff in Hl as (k & <- & _). apply np_unique_sorted.
    - apply (StronglySorted_map Z.lt); [|assumption].
      intros i j Hi Hj Hij.
      pose proof (Hbounds i Hi). pose proof (Hbounds j Hj).
      apply unravel_one_lt; (assumption || lia).
    - intros p Hp. apply in_map_iff in Hp as (i & <- & Hi).
      rewrite <- (unravel_one_length shape i).
      apply In_product. intros k _. cbn [Nat.add]. unfold F.
      apply In_np_unique.
      apply (in_map (fun i0 => nth k (unravel_one shape i0) 0)).
      now apply Hiff. }
  pose proof (gather_positions (fun p => frozenset_mem p points) 0
                (product (map F (seq 0 (length shape))))) as Hgather.
  rewrite Hfilter in Hgather. unfold enumerate.
  split.
  - apply (f_equal (@length _)) in Hgather.
    rewrite !length_map in Hgather. rewrite !length_map.
    unfold points' in Hgather. rewrite length_map in Hgather. exact Hgather.
  - exists (map F (seq 0 (length shape))). split.
    + now apply mapM_ensure_slice_range.
    + rewrite (map_ext_in _
                (fun j => option_map D
                   (nth_error (product (map F (seq 0 (length shape))))
                              (Z.to_nat (j - 0))))).
      * rewrite <- (map_map _ (option_map D)). rewrite Hgather.
        unfold points'. rewrite !map_map. reflexivity.
      * intros j _. rewrite Z.sub_0_r. apply nth_error_map.
Qed.

(** Where the structured trace indexer answers a slice with positive step,
    its answer is right: the recipe has one position per selected flat index,
    and applying it to the flattened bounding-box read gives the values at
    the selected flat indices, one by one and in the order of the
    selection. *)
Lemma get_many_sound (V : Type) (D : list Z -> V)
    (shape : list Z) (s : slice) (idx : list Z)
    (bounding_box : list slice) (post_reshape_indices : list Z) :
  shape <> [] -> Forall (fun d => 0 < d) shape ->
  match step s with None => True | Some k => 0 < k end ->
  getitem_slice (arange_from 0 1 (Z.to_nat (prod shape))) s = Ok idx ->
  StructuredTraceIndexer._get_many (TraceIndexer.mk shape) s
  = Ok (bounding_box, post_reshape_indices) ->
  length post_reshape_indices = length idx
  /\ exists axes : list (list Z),
       mapM slice_range bounding_box = Ok axes
       /\ map (fun j => nth_error (map D (product axes)) (Z.to_nat j))
              post_reshape_indices
          = map (fun i => Some (D (unravel_one shape i))) idx.
Proof.
  intros Hne Hshape Hstep Hsel Hget.
  pose proof (prod_pos shape Hshape) as Hprod.
  destruct (getitem_slice_arange_positive (prod shape) s idx
              ltac:(lia) Hstep Hsel) as [Hsorted Hbounds].
  apply (get_many_gathers V D shape s idx idx); try assumption.
  intros i. reflexivity.
Qed.

Lemma arange_from_upper_neg (a d : Z) (m : nat) (x : Z) :
  d < 0 -> In x (arange_from a d m) -> x <= a.
Proof.
  intros Hd. revert a. induction m as [|m IH]; intros a Hx; [contradiction|].
  destruct Hx as [<-|Hx]; [lia|]. apply IH in Hx. lia.
Qed.

Lemma arange_from_descending (a d : Z) (m : nat) :
  d < 0 -> StronglySorted (fun x y => y < x) (arange_from a d m).
Proof.
  intros Hd. revert a. induction m as [|m IH]; intros a; [constructor|].
  cbn [arange_from]. constructor; [apply IH|].
  apply Forall_forall. intros x Hx.
  apply arange_from_upper_neg in Hx; lia.
Qed.

Lemma arange_from_lower_neg (a b d : Z) (x : Z) :
  d < 0 ->
  In x (arange_from a d (Z.to_nat (arange_len a b d))) -> b < x.
Proof.
  intros Hd Hx.
  apply (In_nth _ _ 0) in Hx as (k & Hk & Hnth).
  rewrite arange_from_length in Hk.
  rewrite nth_arange_from in Hnth by assumption. subst x.
  unfold arange_len in Hk.
  destruct (0 <? d) eqn:E; [apply Z.ltb_lt in E; lia|].
  set (q := (a - b - d - 1) / (- d)) in *.
  assert (Hq : (- d) * q <= a - b - d - 1) by (apply Z.mul_div_le; lia).
  assert (Hkq : Z.of_nat k + 1 <= q) by lia.
  nia.
Qed.

Lemma clamp_index_bounds_neg (i : option Z) (n default : Z) :
  0 <= n -> -1 <= default <= n - 1 ->
  -1 <= clamp_index i n (-1) (n - 1) default <= n - 1.
Proof.
  intros Hn Hd. unfold clamp_index. destruct i as [i|]; [|assumption].
  destruct (i <? 0) eqn:E1.
  - destruct (i + n <? -1) eqn:E2; [lia|].
    apply Z.ltb_lt in E1. apply Z.ltb_ge in E2. lia.
  - apply Z.ltb_ge in E1. destruct (n - 1 <? i) eqn:E2; [lia|].
    apply Z.ltb_ge in E2. lia.
Qed.

(** A slice with negative step selects from [np.arange(n)] a strictly
    descending list of flat indices below [n]. *)
Lemma getitem_slice_arange_negative (n k : Z) (s : slice) (idx : list Z) :
  0 <= n -> step s = Some k -> k < 0 ->
  getitem_slice (arange_from 0 1 (Z.to_nat n)) s = Ok idx ->
  StronglySorted (fun x y => y < x) idx /\ Forall (fun i => 0 <= i < n) idx.
Proof.
  intros Hn Hstep Hk. unfold getitem_slice, slice_indices.
  rewrite arange_from_length, Z2Nat.id by assumption. rewrite Hstep.
  destruct (k =? 0) eqn:E0; [apply Z.eqb_eq in E0; lia|].
  destruct (n <? 0) eqn:E1; [apply Z.ltb_lt in E1; lia|].
  destruct (k <? 0) eqn:E2; [|apply Z.ltb_ge in E2; lia].
  cbn [bind]. unfold arange. rewrite E0. cbn [bind].
  set (st := clamp_index (start s) n (-1) (n - 1) (n - 1)).
  set (sp := clamp_index (stop s) n (-1) (n - 1) (-1)).
  pose proof (clamp_index_bounds_neg (start s) n (n - 1) Hn ltac:(lia)) as Hst.
  pose proof (clamp_index_bounds_neg (stop s) n (-1) Hn ltac:(lia)) as Hsp.
  fold st in Hst. fold sp in Hsp.
  set (pos := arange_from st k (Z.to_nat (arange_len st sp k))).
  assert (Hpos : Forall (fun i => 0 <= i < n) pos).
  { apply Forall_forall. intros x Hx. split.
    - apply arange_from_lower_neg in Hx; lia.
    - apply arange_from_upper_neg in Hx; lia. }
  assert (Hid : map (nthZ (arange_from 0 1 (Z.to_nat n))) pos = pos).
  { rewrite <- (map_id pos) at 2. apply map_ext_in. intros x Hx.
    rewrite Forall_forall in Hpos. specialize (Hpos x Hx).
    unfold nthZ. rewrite nth_arange_from by lia. lia. }
  rewrite Hid. intros [= <-]. split; [|assumption].
  now apply arange_from_descending.
Qed.

Lemma StronglySorted_rev_descending (l : list Z) :
  StronglySorted (fun x y => y < x) l -> StronglySorted Z.lt (rev l).
Proof.
  induction 1 as [|x l Hl IH Hx]; [constructor|].
  cbn [rev]. apply StronglySorted_app.
  - exact IH.
  - repeat constructor.
  - intros u v Hu Hv. destruct Hv as [<-|[]].
    rewrite Forall_forall in Hx. apply Hx. now apply in_rev.
Qed.

(** Where the structured trace indexer answers a slice with negative step,
    the recipe still lists the positions in ascending order: applying it to
    the flattened bounding-box read gives the values at the selected flat
    indices in the reverse of the order of the selection. *)
Lemma get_many_negative_step_reversed (V : Type) (D : list Z -> V)
    (shape : list Z) (s : slice) (k : Z) (idx : list Z)
    (bounding_box : list slice) (post_reshape_indices : list Z) :
  shape <> [] -> Forall (fun d => 0 < d) shape ->
  step s = Some k -> k < 0 ->
  getitem_slice (arange_from 0 1 (Z.to_nat (prod shape))) s = Ok idx ->
  StructuredTraceIndexer._get_many (TraceIndexer.mk shape) s
  = Ok (bounding_box, post_reshape_indices) ->
  length post_reshape_indices = length idx
  /\ exists axes : list (list Z),
       mapM slice_range bounding_box = Ok axes
       /\ map (fun j => nth_error (map D (product axes)) (Z.to_nat j))
              post_reshape_indices
          = map (fun i => Some (D (unravel_one shape i))) (rev idx).
Proof.
  intros Hne Hshape Hstep Hk Hsel Hget.
  pose proof (prod_pos shape Hshape) as Hprod.
  destruct (getitem_slice_arange_negative (prod shape) k s idx
              ltac:(lia) Hstep Hk Hsel) as [Hsorted Hbounds].
  rewrite <- (length_rev idx).
  apply (get_many_gathers V D shape s idx (rev idx)); try assumption.
  - now apply StronglySorted_rev_descending.
  - apply Forall_forall. intros i Hi. apply in_rev in Hi.
    rewrite Forall_forall in Hbounds. now apply Hbounds.
  - intros i. apply in_rev.
Qed.

(** The scenario of the specification: shape (4,3,2) and the flat slice
    [2:9].  The bounding box is the first two of the four slabs of the grid,
    and the recipe picks 7 of its 12 cells, the flat positions 2..8. *)
Example get_many_scenario :
  StructuredTraceIndexer._get_many (TraceIndexer.mk [4; 3; 2]) (slice2 2 9)
  = Ok ([slice3 0 2 1; slice3 0 3 1; slice3 0 2 1], [2; 3; 4; 5; 6; 7; 8]).
Proof.
  vm_compute. reflexivity.
Qed.

(** * Further properties of the modelled code *)

(** ** The recipe of [StructuredTraceIndexer._get_many] *)

(** X1: for a shape with positive dimensions and a slice with positive or
    omitted step, whenever [_get_many] answers, the slices of its bounding box
    denote per-axis coordinate lists, its recipe has one position per selected
    flat index, and reading the flattened bounding box at the positions of the
    recipe gives the values stored at the selected flat indices, one by one
    and in the order of the selection. *)
Theorem X1_get_many_gathers_selection (V : Type) (D : list Z -> V)
    (shape : list Z) (s : slice) (idx : list Z)
    (bounding_box : list slice) (post_reshape_indices : list Z) :
  shape <> [] -> Forall (fun d => 0 < d) shape ->
  match step s with None => True | Some k => 0 < k end ->
  getitem_slice (arange_from 0 1 (Z.to_nat (prod shape))) s = Ok idx ->
  StructuredTraceIndexer._get_many (TraceIndexer.mk shape) s
  = Ok (bounding_box, post_reshape_indices) ->
  length post_reshape_indices = length idx
  /\ exists axes : list (list Z),
       mapM slice_range bounding_box = Ok axes
       /\ map (fun j => nth_error (map D (product axes)) (Z.to_nat j))
              post_reshape_indices
          = map (fun i => Some (D (unravel_one shape i))) idx.
Proof.
  exact (get_many_sound V D shape s idx bounding_box post_reshape_indices).
Qed.

Lemma X1_get_many_gathers_selection_witness :
  length [2; 3; 4; 5; 6; 7; 8] = length [2; 3; 4; 5; 6; 7; 8]
  /\ exists axes : list (list Z),
       mapM slice_range [slice3 0 2 1; slice3 0 3 1; slice3 0 2 1] = Ok axes
       /\ map (fun j => nth_error (map (fun c => c) (product axes)) (Z.to_nat j))
              [2; 3; 4; 5; 6; 7; 8]
          = map (fun i => Some (unravel_one [4; 3; 2] i)) [2; 3; 4; 5; 6; 7; 8].
Proof.
  apply (X1_get_many_gathers_selection (list Z) (fun c => c) [4; 3; 2]
           (slice2 2 9) [2; 3; 4; 5; 6; 7; 8]).
  - discriminate.
  - repeat constructor.
  - exact I.
  - vm_compute. reflexivity.
  - vm_compute. reflexivity.
Defined.

(** X2: for a shape with positive dimensions and a slice with negative step,
    whenever [_get_many] answers, its recipe still lists the positions in
    ascending order: reading the flattened bounding box at the positions of
    the recipe gives the values at the selected flat indices in the reverse of
    the order in which the slice enumerates them. *)
Theorem X2_get_many_negative_step_gathers_reversed
    (V : Type) (D : list Z -> V)
    (shape : list Z) (s : slice) (k : Z) (idx : list Z)
    (bounding_box : list slice) (post_reshape_indices : list Z) :
  shape <> [] -> Forall (fun d => 0 < d) shape ->
  step s = Some k -> k < 0 ->
  getitem_slice (arange_from 0 1 (Z.to_nat (prod shape))) s = Ok idx ->
  StructuredTraceIndexer._get_many (TraceIndexer.mk shape) s
  = Ok (bounding_box, post_reshape_indices) ->
  length post_reshape_indices = length idx
  /\ exists axes : list (list Z),
       mapM slice_range bounding_box = Ok axes
       /\ map (fun j => nth_error (map D (product axes)) (Z.to_nat j))
              post_reshape_indices
          = map (fun i => Some (D (unravel_one shape i))) (rev idx).
Proof.
  exact (get_many_negative_step_reversed V D shape s k idx
           bounding_box post_reshape_indices).
Qed.

Lemma X2_get_many_negative_step_gathers_reversed_witness :
  length [0; 1; 2] = length [10; 8; 6]
  /\ exists axes : list (list Z),
       mapM slice_range [slice2 1 2; slice3 0 3 1; slice2 0 1] = Ok axes
       /\ map (fun j => nth_error (map (fun c => c) (product axes)) (Z.to_nat j))
              [0; 1; 2]
          = map (fun i => Some (unravel_one [4; 3; 2] i)) (rev [10; 8; 6]).
Proof.
  apply (X2_get_many_negative_step_gathers_reversed (list Z) (fun c => c)
           [4; 3; 2] (slice3 10 5 (-2)) (-2) [10; 8; 6]).
  - discriminate.
  - repeat constructor.
  - reflexivity.
  - reflexivity.
  - vm_compute. reflexivity.
  - vm_compute. reflexivity.
Defined.

(** ** A single trace of the structured trace indexer *)

Lemma unravel_one_nil (i : Z) : unravel_one [] i = [].
Proof.
  reflexivity.
Qed.

(** Unravelling an index within the array gives coordinates within the
    shape that ravel back to the index. *)
Lemma unravel_one_spec (shape : list Z) :
  Forall (fun d => 0 < d) shape ->
  forall i : Z, 0 <= i < prod shape ->
    Forall2 (fun c d => 0 <= c < d) (unravel_one shape i) shape
    /\ ravel shape (unravel_one shape i) = i.
Proof.
  induction 1 as [|d s Hd Hs IH]; intros i Hi.
  - change (prod []) with 1 in Hi. rewrite unravel_one_nil. cbn.
    split; [constructor|lia].
  - pose proof (prod_pos s Hs) as HP.
    change (prod (d :: s)) with (d * prod s) in Hi.
    rewrite unravel_one_cons by (assumption || lia).
    pose proof (Z.mod_pos_bound i (prod s) HP) as Hm.
    destruct (IH (i mod prod s) Hm) as [Hb Hr].
    split.
    + constructor; [|exact Hb]. split.
      * apply Z.div_pos; lia.
      * apply Z.div_lt_upper_bound; lia.
    + cbn [ravel]. rewrite Hr.
      pose proof (Z.div_mod i (prod s)). lia.
Qed.

Lemma map_seq_nth_id (l : list Z) :
  map (fun k => nth k l 0) (seq 0 (length l)) = l.
Proof.
  pose proof (map_seq_nth (fun x => x) l) as H.
  now rewrite map_id in H.
Qed.

Lemma get_one_unravels (shape : list Z) (i : Z) :
  0 <= i < prod shape ->
  StructuredTraceIndexer._get_one (TraceIndexer.mk shape) i
  = Ok (map PyInt (unravel_one shape i), SelectAll).
Proof.
  intros Hi. unfold StructuredTraceIndexer._get_one, unravel_index.
  change (TraceIndexer._shape (TraceIndexer.mk shape)) with shape.
  cbn [forallb]. unfold in_bounds.
  replace (0 <=? i) with true by (symmetry; apply Z.leb_le; lia).
  replace (i <? prod shape) with true by (symmetry; apply Z.ltb_lt; lia).
  cbn [andb bind]. rewrite map_map. cbn [map]. do 2 f_equal.
  transitivity (map PyInt (map (fun k => nth k (unravel_one shape i) 0)
                               (seq 0 (length (unravel_one shape i))))).
  - rewrite unravel_one_length, map_map. reflexivity.
  - now rewrite map_seq_nth_id.
Qed.



Lemma getitem_slice_unit (n i : Z) :
  0 <= i < n ->
  getitem_slice (arange_from 0 1 (Z.to_nat n)) (slice2 i (i + 1)) = Ok [i].
Proof.
  intros Hi. unfold getitem_slice, slice_indices, slice2.
  rewrite arange_from_length, Z2Nat.id by lia. cbn [step start stop].
  change (1 =? 0) with false. change (1 <? 0) with false. cbn iota.
  destruct (n <? 0) eqn:E; [apply Z.ltb_lt in E; lia|].
  unfold clamp_index.
  destruct (i <? 0) eqn:E1; [apply Z.ltb_lt in E1; lia|].
  destruct (n <? i) eqn:E2; [apply Z.ltb_lt in E2; lia|].
  destruct (i + 1 <? 0) eqn:E3; [apply Z.ltb_lt in E3; lia|].
  destruct (n <? i + 1) eqn:E4; [apply Z.ltb_lt in E4; lia|].
  cbn [bind]. rewrite arange_unit. cbn [bind map]. do 2 f_equal.
  unfold nthZ. rewrite nth_arange_from by lia. lia.
Qed.

Lemma mapM_map_ok {A B C : Type} (f : B -> result C) (g : A -> B) (h : A -> C)
    (l : list A) :
  (forall x, f (g x) = Ok (h x)) -> mapM f (map g l) = Ok (map h l).
Proof.
  intros H. induction l as [|x l IH]; [reflexivity|].
  cbn [map mapM]. rewrite H. cbn [bind]. rewrite IH. reflexivity.
Qed.

Lemma product_singletons {A : Type} (f : A -> Z) (l : list A) :
  product (map (fun x => [f x]) l) = [map f l].
Proof.
  induction l as [|x l IH]; [reflexivity|].
  cbn [map product flat_map]. rewrite IH. reflexivity.
Qed.

Lemma tuple_eqb_refl (p : list Z) : tuple_eqb p p = true.
Proof.
  now apply tuple_eqb_eq.
Qed.

(** X4: for a shape with at least one axis, positive dimensions and a flat
    trace index [i] within the grid, the slice [i:i+1] is answered like the
    index [i] itself: the bounding box is the single cell with the
    coordinates [_get_one] returns for [i], each axis as the unit slice
    [c:c+1], and the recipe is the one position 0. *)
Theorem X4_get_many_unit_slice (shape : list Z) (i : Z) :
  shape <> [] -> Forall (fun d => 0 < d) shape ->
  0 <= i < prod shape ->
  exists coords : list Z,
    StructuredTraceIndexer._get_one (TraceIndexer.mk shape) i
    = Ok (map PyInt coords, SelectAll)
    /\ StructuredTraceIndexer._get_many (TraceIndexer.mk shape)
         (slice2 i (i + 1))
       = Ok (map (fun c => slice2 c (c + 1)) coords, [0]).
Proof.
  intros Hne Hshape Hi. exists (unravel_one shape i).
  split; [now apply get_one_unravels|].
  unfold StructuredTraceIndexer._get_many.
  change (TraceIndexer.__len__ (TraceIndexer.mk shape)) with (prod shape).
  change (TraceIndexer._shape (TraceIndexer.mk shape)) with shape.
  rewrite getitem_slice_unit by assumption. cbn [bind].
  unfold unravel_index. cbn [forallb]. unfold in_bounds.
  replace (0 <=? i) with true by (symmetry; apply Z.leb_le; lia).
  replace (i <? prod shape) with true by (symmetry; apply Z.ltb_lt; lia).
  cbn [andb bind].
  rewrite zip_star_unravel by assumption. rewrite map_map. cbn [map].
  change (fun x : nat => np_unique [nth x (unravel_one shape i) 0])
    with (fun x : nat => [nth x (unravel_one shape i) 0]).
  set (c := fun k : nat => nth k (unravel_one shape i) 0).
  change (map (fun x : nat => [nth x (unravel_one shape i) 0])
              (seq 0 (length shape)))
    with (map (fun x : nat => [c x]) (seq 0 (length shape))).
  assert (Hcoords : map c (seq 0 (length shape)) = unravel_one shape i).
  { rewrite <- (unravel_one_length shape i). apply map_seq_nth_id. }
  rewrite (mapM_map_ok _ (fun k : nat => [c k])
             (fun k : nat => slice2 (c k) (c k + 1))) by reflexivity.
  cbn [bind]. rewrite product_singletons, Hcoords.
  unfold enumerate. cbn [enumerate_from filter snd].
  unfold frozenset_mem. cbn [existsb]. rewrite tuple_eqb_refl.
  cbn [orb map fst]. do 2 f_equal.
  rewrite <- Hcoords. rewrite map_map. reflexivity.
Qed.

Lemma X4_get_many_unit_slice_witness :
  exists coords : list Z,
    StructuredTraceIndexer._get_one (TraceIndexer.mk [4; 3; 2]) 7
    = Ok (map PyInt coords, SelectAll)
    /\ StructuredTraceIndexer._get_many (TraceIndexer.mk [4; 3; 2])
         (slice2 7 (7 + 1))
       = Ok (map (fun c => slice2 c (c + 1)) coords, [0]).
Proof.
  apply (X4_get_many_unit_slice [4; 3; 2] 7).
  - discriminate.
  - repeat constructor.
  - cbn. lia.
Defined.

(** ** The errors of [ensure_slice] *)

Lemma forallb_diffs (P : Z -> bool) (A : list Z) :
  forallb P (diffs A) = true
  <-> forall i : nat, (S i < length A)%nat ->
        P (nth (S i) A 0 - nth i A 0) = true.
Proof.
  rewrite forallb_forall. split.
  - intros H i Hi. rewrite <- nth_diffs by assumption.
    apply H, nth_In. rewrite diffs_length. lia.
  - intros H x Hx. apply (In_nth _ _ 0) in Hx as (i & Hi & <-).
    rewrite diffs_length in Hi.
    rewrite nth_diffs by lia. apply H. lia.
Qed.

Lemma monotonic_check (A : list Z) :
  forallb (fun d => 0 <? d) (diffs A) || forallb (fun d => d <? 0) (diffs A)
  = true
  <-> strictly_monotonic A.
Proof.
  rewrite orb_true_iff, !forallb_diffs.
  unfold strictly_monotonic, strictly_increasing, strictly_decreasing.
  split; (intros [H|H]; [left|right]); intros i Hi; specialize (H i Hi).
  - apply Z.ltb_lt in H. lia.
  - apply Z.ltb_lt in H. lia.
  - apply Z.ltb_lt. lia.
  - apply Z.ltb_lt. lia.
Qed.

Lemma strictly_monotonic_step (A : list Z) (d : Z) :
  (2 <= length A)%nat -> strictly_monotonic A ->
  arithmetic_progression d A -> d <> 0.
Proof.
  intros Hlen Hmono Hap.
  pose proof (Hap 0%nat ltac:(lia)) as H0.
  destruct Hmono as [H|H]; specialize (H 0%nat ltac:(lia)); lia.
Qed.

(** The outcomes of [ensure_slice] on an index array of at least two
    elements, by the shape of the array. *)
Lemma index_array_outcomes (A : list Z) :
  (2 <= length A)%nat ->
  let res := ensure_slice (PyArray (array1 intp A)) in
  (~ strictly_monotonic A <-> res = Raise non_monotonic_error)
  /\ (strictly_monotonic A /\ ~ (exists d, arithmetic_progression d A)
      <-> res = Raise multi_slice_error)
  /\ (forall s, res = Ok s -> slice_range s = Ok A).
Proof.
  intros Hlen res.
  destruct (ensure_slice_array_classification A)
    as (Hrange & Hsingle & _ & Herr).
  fold res in Hrange, Hsingle, Herr.
  assert (Hres : res =
    if negb (forallb (fun d => 0 <? d) (diffs A)
             || forallb (fun d => d <? 0) (diffs A))
    then Raise non_monotonic_error
    else if (1 <? length (np_unique (diffs A)))%nat
         then Raise multi_slice_error
         else Ok (slice3 (nthZ A 0)
                    (last A 0 + (if 0 <? nthZ (np_unique (diffs A)) 0
                                 then 1 else -1))
                    (nthZ (np_unique (diffs A)) 0))).
  { unfold res. cbn [ensure_slice].
    now rewrite _ensure_slice_array_long. }
  pose proof (monotonic_check A) as Hcheck.
  assert (Hmono : ~ strictly_monotonic A <-> res = Raise non_monotonic_error).
  { rewrite Hres.
    destruct (forallb (fun d => 0 <? d) (diffs A)
              || forallb (fun d => d <? 0) (diffs A)); cbn [negb].
    - split; [intros H; elim H; now apply Hcheck|].
      destruct (1 <? length (np_unique (diffs A)))%nat; discriminate.
    - split; [reflexivity|]. intros _ H. apply Hcheck in H. discriminate. }
  split; [exact Hmono|]. split; [|exact Hrange].
  split.
  + intros [Hm Hnap].
    assert (Hne : A <> []) by (intros ->; cbn in Hlen; lia).
    assert (Hns : ~ single_progression A).
    { intros [H1|[_ (d & _ & Hap)]]; [lia|]. apply Hnap. now exists d. }
    destruct (proj1 Herr (conj Hne Hns)) as [H|H]; [|exact H].
    apply Hmono in H. contradiction.
  + intros Hmulti. split.
    * destruct (proj1 Hcheck) as [H|H]; try (now left); try (now right).
      rewrite Hres in Hmulti.
      destruct (forallb (fun d => 0 <? d) (diffs A)
                || forallb (fun d => d <? 0) (diffs A));
        [reflexivity|discriminate].
    * intros (d & Hap).
      assert (Hm : strictly_monotonic A).
      { apply Hcheck. rewrite Hres in Hmulti.
        destruct (forallb (fun d => 0 <? d) (diffs A)
                  || forallb (fun d => d <? 0) (diffs A));
          [reflexivity|discriminate]. }
      pose proof (strictly_monotonic_step A d Hlen Hm Hap) as Hd.
      assert (Hs : single_progression A).
      { right. split; [assumption|]. now exists d. }
      apply Hsingle in Hs as [s Hs]. rewrite Hs in Hmulti. discriminate.
Qed.

(** An array whose differences are representable in its dtype meets the
    errors an index array of the same elements meets; when the integers next
    to its last element are representable as well, the whole outcome is the
    same. *)
Lemma ensure_slice_array_transfer (dt : np_dtype) (A : list Z) :
  is_np_integer dt = true -> (2 <= length A)%nat ->
  Forall (representable dt) (diffs A) ->
  (forall e : exn,
     ensure_slice (PyArray (array1 dt A)) = Raise e
     <-> ensure_slice (PyArray (array1 intp A)) = Raise e)
  /\ (representable dt (last A 0 + 1) -> representable dt (last A 0 - 1) ->
      ensure_slice (PyArray (array1 dt A))
      = ensure_slice (PyArray (array1 intp A))).
Proof.
  intros Hdt Hlen Hrep. cbn [ensure_slice].
  rewrite _ensure_slice_array_unfold by assumption.
  rewrite _ensure_slice_array_long by assumption.
  rewrite np_diffs_representable by assumption. cbn zeta.
  destruct (negb _); [split; reflexivity|].
  destruct (_ <? _)%nat; [split; reflexivity|].
  split.
  - intros e. split; intros H; discriminate H.
  - intros Hup Hdown. do 2 f_equal.
    destruct (0 <? _); apply np_add_representable; assumption.
Qed.

(** X5: the errors of [ensure_slice] on an array.  An array of non-integer
    dtype, and an integer array of more than one dimension, are refused with
    ValueError.  For a one-dimensional integer array of at least two elements
    whose consecutive differences are representable in its dtype: it gets the
    non-monotonic ValueError exactly when it is not strictly monotonic; it
    gets MultiSliceError exactly when it is strictly monotonic but its
    consecutive differences are not all equal; and, when the integers next
    to its last element are representable too, whenever a slice is returned
    it denotes exactly the elements of the array, in order, so no element is
    dropped. *)
Theorem X5_ensure_slice_array_errors :
  (forall a : ndarray,
     is_np_integer (dtype a) = false ->
     ensure_slice (PyArray a)
     = Raise (ValueError "Non-integer array cannot be converted to slice"))
  /\ (forall a : ndarray,
        is_np_integer (dtype a) = true -> (1 < ndim a)%nat ->
        ensure_slice (PyArray a)
        = Raise (ValueError "array cannot be converted to slice"))
  /\ (forall (dt : np_dtype) (A : list Z),
        is_np_integer dt = true -> (2 <= length A)%nat ->
        Forall (representable dt) (diffs A) ->
        let res := ensure_slice (PyArray (array1 dt A)) in
        (~ strictly_monotonic A <-> res = Raise non_monotonic_error)
        /\ (strictly_monotonic A /\ ~ (exists d, arithmetic_progression d A)
            <-> res = Raise multi_slice_error)
        /\ (representable dt (last A 0 + 1) ->
            representable dt (last A 0 - 1) ->
            forall s, res = Ok s -> slice_range s = Ok A)).
Proof.
  split; [|split].
  - intros a Hdt. cbn [ensure_slice]. unfold _ensure_slice_array.
    now rewrite Hdt.
  - intros a Hdt Hnd. cbn [ensure_slice]. unfold _ensure_slice_array.
    rewrite Hdt. cbn [negb]. apply Nat.ltb_lt in Hnd. now rewrite Hnd.
  - intros dt A Hdt Hlen Hrep res.
    destruct (index_array_outcomes A Hlen) as (Hmono & Hmulti & Hrange).
    destruct (ensure_slice_array_transfer dt A Hdt Hlen Hrep) as [Herr Hsame].
    fold res in Herr, Hsame.
    split; [|split].
    + rewrite Hmono. symmetry. apply Herr.
    + rewrite Hmulti. symmetry. apply Herr.
    + intros Hup Hdown s Hs. apply Hrange. now rewrite <- (Hsame Hup Hdown).
Qed.

Lemma X5_ensure_slice_array_errors_witness :
  ensure_slice (PyArray (array1 float64 [1; 2]))
  = Raise (ValueError "Non-integer array cannot be converted to slice")
  /\ ensure_slice (PyArray (mk_ndarray int64 2 [1; 2; 3; 4]))
     = Raise (ValueError "array cannot be converted to slice")
  /\ ensure_slice (PyArray (array1 int64 [0; 2; 1])) = Raise non_monotonic_error
  /\ ensure_slice (PyArray (array1 int32 [0; 1; 3])) = Raise multi_slice_error.
Proof.
  destruct X5_ensure_slice_array_errors as (Hdt & Hnd & Hlong).
  split; [apply Hdt; reflexivity|].
  split; [apply Hnd; [reflexivity|cbn; lia]|].
  split.
  - apply (proj1 (Hlong int64 [0; 2; 1] eq_refl ltac:(cbn; lia)
                    ltac:(repeat constructor; discriminate))).
    intros [H|H].
    + specialize (H 1%nat ltac:(cbn; lia)). cbn in H. lia.
    + specialize (H 0%nat ltac:(cbn; lia)). cbn in H. lia.
  - apply (proj1 (proj2 (Hlong int32 [0; 1; 3] eq_refl ltac:(cbn; lia)
                           ltac:(repeat constructor; discriminate)))).
    split.
    + left. intros [|[|i]] Hi; cbn in *; lia.
    + intros (d & Hap).
      pose proof (Hap 0%nat ltac:(cbn; lia)) as H0.
      pose proof (Hap 1%nat ltac:(cbn; lia)) as H1.
      cbn in H0, H1. lia.
Defined.

(** ** The outcome of a label range lookup *)

(** X6: the range lookup of [utils.LabelIndexer], by the ordinals it
    resolves.  It returns a slice exactly when the ordinals are a single
    element or a progression with one nonzero step, and the slice then
    denotes exactly the resolved ordinals, in order; it raises the
    empty-array ValueError exactly when no ordinal is resolved; and it raises
    the non-monotonic ValueError or MultiSliceError exactly when the ordinals
    are several and no single progression. *)
Theorem X6_utils_range_lookup_outcome
    (li : LabelIndexer.t) (label_slice : slice) (r : list Z) :
  LabelIndexer._label_slice_to_indices li label_slice = Ok r ->
  let res := LabelIndexer._get_many li label_slice in
  (forall s, res = Ok s -> slice_range s = Ok r)
  /\ (single_progression r <-> exists s, res = Ok s)
  /\ (r = [] <-> res = Raise empty_array_error)
  /\ (r <> [] /\ ~ single_progression r
      <-> res = Raise non_monotonic_error \/ res = Raise multi_slice_error).
Proof.
  exact (utils_get_many_classification li label_slice r).
Qed.

Lemma X6_utils_range_lookup_outcome_witness :
  exists li : LabelIndexer.t,
    LabelIndexer.__init__ (array1 int64 [10; 20; 40; 50]) = Ok li
    /\ forall s,
         LabelIndexer._get_many li (slice2 10 51) = Ok s ->
         slice_range s = Ok [0; 1; 2; 3].
Proof.
  eexists. split; [vm_compute; reflexivity|].
  refine (proj1 (X6_utils_range_lookup_outcome _ (slice2 10 51) [0; 1; 2; 3] _)).
  vm_compute. reflexivity.
Defined.

(** X7: the range lookup of [indexables.LabelIndexer], by the ordinals it
    resolves.  A slice it returns denotes exactly the resolved ordinals, in
    order, and these are then a single element or a progression with one
    nonzero step; for every such list of ordinals it does return a slice; and
    it raises the no-overlap ValueError exactly when no ordinal is
    resolved. *)
Theorem X7_indexables_range_lookup_outcome
    (li : indexables.LabelIndexer.t) (label_slice : slice) (r : list Z) :
  indexables.LabelIndexer._resolve li label_slice = Ok r ->
  let res := indexables.LabelIndexer._get_slice li label_slice in
  (forall s, res = Ok s -> slice_range s = Ok r /\ single_progression r)
  /\ (single_progression r -> exists s, res = Ok s)
  /\ (r = [] <-> res = Raise no_overlap_error).
Proof.
  intros Hr res. subst res. unfold indexables.LabelIndexer._get_slice.
  rewrite Hr. cbn [bind].
  split; [|split].
  - intros s Hs. now apply indexables_as_slice_sound.
  - apply indexables_as_slice_complete.
  - apply indexables_as_slice_complete.
Qed.

Lemma X7_indexables_range_lookup_outcome_witness :
  exists li : indexables.LabelIndexer.t,
    indexables.LabelIndexer.__init__ (array1 int64 [10; 20; 40; 50]) = Ok li
    /\ (forall s,
          indexables.LabelIndexer._get_slice li (slice2 10 51) = Ok s ->
          slice_range s = Ok [0; 1; 2; 3] /\ single_progression [0; 1; 2; 3]).
Proof.
  eexists. split; [vm_compute; reflexivity|].
  refine (proj1 (X7_indexables_range_lookup_outcome _ (slice2 10 51)
                   [0; 1; 2; 3] _)).
  vm_compute. reflexivity.
Defined.

(** ** What a label range resolves *)

Lemma utils_resolve_unfold (li : LabelIndexer.t) (s : slice) :
  LabelIndexer._label_slice_to_indices li s
  = let* lr := label_candidates (LabelIndexer._min_label li)
                 (LabelIndexer._min_label li - 1)
                 (LabelIndexer._max_label li) s in
    let* indices :=
      take (LabelIndexer._sorter li)
           (searchsorted (LabelIndexer._labels li) lr
              (LabelIndexer._sorter li)) in
    let* found := take (LabelIndexer._labels li) indices in
    Ok (compress (eq_elementwise found lr) indices).
Proof.
  unfold LabelIndexer._label_slice_to_indices, label_candidates,
    clamp_label_slice.
  destruct (slice_indices _ _) as [[[st sp] stp]|e]; reflexivity.
Qed.

Lemma indexables_resolve_unfold (li : indexables.LabelIndexer.t) (s : slice) :
  indexables.LabelIndexer._resolve li s
  = let* lr := label_candidates (indexables.LabelIndexer._min_label li)
                 (np_add (indexables.LabelIndexer._dtype li)
                    (indexables.LabelIndexer._min_label li) (-1))
                 (indexables.LabelIndexer._max_label li) s in
    let* indices :=
      take (indexables.LabelIndexer._sorter li)
           (searchsorted (indexables.LabelIndexer._labels li) lr
              (indexables.LabelIndexer._sorter li)) in
    let* found := take (indexables.LabelIndexer._labels li) indices in
    Ok (compress (eq_elementwise found lr) indices).
Proof.
  unfold indexables.LabelIndexer._resolve, label_candidates,
    clamp_label_slice.
  destruct (slice_indices _ _) as [[[st sp] stp]|e]; reflexivity.
Qed.


Lemma In_positions (n : nat) (x : Z) :
  In x (arange_from 0 1 n) <-> 0 <= x < Z.of_nat n.
Proof.
  split.
  - intros Hx. apply (In_nth _ _ 0) in Hx as (k & Hk & <-).
    rewrite arange_from_length in Hk. rewrite nth_arange_from by assumption.
    lia.
  - intros Hx. replace x with (nth (Z.to_nat x) (arange_from 0 1 n) 0).
    + apply nth_In. rewrite arange_from_length. lia.
    + rewrite nth_arange_from by lia. lia.
Qed.













Lemma np_max_In (L : list Z) (mx : Z) : np_max L = Ok mx -> In mx L.
Proof.
  destruct L as [|x L]; [discriminate|]. intros [= <-].
  apply fold_max_spec.
Qed.

Lemma np_min_In (L : list Z) (mn : Z) : np_min L = Ok mn -> In mn L.
Proof.
  destruct L as [|x L]; [discriminate|]. intros [= <-].
  apply fold_min_spec.
Qed.







(** ** The two label indexers side by side *)

Lemma label_indexers_same_tables (labels : ndarray)
    (li : LabelIndexer.t) (li' : indexables.LabelIndexer.t) :
  LabelIndexer.__init__ labels = Ok li ->
  indexables.LabelIndexer.__init__ labels = Ok li' ->
  indexables.LabelIndexer._labels li' = LabelIndexer._labels li
  /\ indexables.LabelIndexer._min_label li' = LabelIndexer._min_label li
  /\ indexables.LabelIndexer._max_label li' = LabelIndexer._max_label li
  /\ indexables.LabelIndexer._sorter li' = LabelIndexer._sorter li
  /\ indexables.LabelIndexer._dtype li' = dtype labels.
Proof.
  intros H H'.
  destruct (utils_init_inv _ _ H)
    as (_ & _ & Hl & Hmin & (mx & Hmax & Hstored) & Hs).
  destruct (indexables_init_inv _ _ H')
    as (_ & _ & Hl' & Hmin' & (mx' & Hmax' & Hstored') & Hs' & Hdt).
  rewrite Hmin in Hmin'. rewrite Hmax in Hmax'.
  injection Hmin' as Hmin'. injection Hmax' as Hmax'. subst mx'.
  repeat split; congruence.
Qed.

(** X9: the label indexer of utils.py and the one of indexables.py, built
    over the same label array of a signed integer dtype, none of whose labels
    is the least value of the dtype, agree.  They resolve every label slice
    to the same ordinals (or raise the same error while resolving); their
    scalar lookups return the same result; and one range lookup returns a
    slice exactly when the other does, the two slices denoting the same
    ordinals. *)
Theorem X9_label_indexers_agree (labels : ndarray)
    (li : LabelIndexer.t) (li' : indexables.LabelIndexer.t) :
  dtype_signed (dtype labels) = true ->
  Forall (fun v => dtype_min (dtype labels) < v) (items labels) ->
  LabelIndexer.__init__ labels = Ok li ->
  indexables.LabelIndexer.__init__ labels = Ok li' ->
  (forall s : slice,
     indexables.LabelIndexer._resolve li' s
     = LabelIndexer._label_slice_to_indices li s)
  /\ (forall v : Z,
        indexables.LabelIndexer._get_label li' v = LabelIndexer._get_one li v)
  /\ (forall (s sl : slice),
        LabelIndexer._get_many li s = Ok sl ->
        exists sl' : slice,
          indexables.LabelIndexer._get_slice li' s = Ok sl'
          /\ slice_range sl' = slice_range sl)
  /\ (forall (s sl' : slice),
        indexables.LabelIndexer._get_slice li' s = Ok sl' ->
        exists sl : slice,
          LabelIndexer._get_many li s = Ok sl
          /\ slice_range sl = slice_range sl').
Proof.
  intros _ Hroom H H'.
  destruct (label_indexers_same_tables labels li li' H H')
    as (Hl & Hmin & Hmax & Hs & Hdt).
  assert (Hpred : np_add (indexables.LabelIndexer._dtype li')
                    (LabelIndexer._min_label li) (-1)
                  = LabelIndexer._min_label li - 1).
  { rewrite Hdt. apply np_add_minus_one.
    destruct (utils_init_inv _ _ H) as (_ & _ & _ & Hmn & _).
    rewrite Forall_forall in Hroom. apply Hroom. now apply np_min_In. }
  assert (Hres : forall s,
            indexables.LabelIndexer._resolve li' s
            = LabelIndexer._label_slice_to_indices li s).
  { intros s. rewrite indexables_resolve_unfold, utils_resolve_unfold.
    now rewrite Hl, Hmin, Hmax, Hs, Hpred. }
  split; [exact Hres|]. split; [|split].
  - intros v. unfold indexables.LabelIndexer._get_label, LabelIndexer._get_one.
    now rewrite Hl.
  - intros s sl Hsl.
    destruct (LabelIndexer._label_slice_to_indices li s) as [r|e] eqn:Hr.
    + destruct (utils_get_many_classification li s r Hr)
        as (Hrange & Hsingle & _).
      assert (Hsp : single_progression r) by (apply Hsingle; now exists sl).
      destruct (proj1 (indexables_as_slice_complete r) Hsp) as [sl' Hsl'].
      exists sl'. unfold indexables.LabelIndexer._get_slice.
      rewrite Hres, Hr. cbn [bind]. split; [assumption|].
      rewrite (Hrange sl Hsl).
      now apply indexables_as_slice_sound.
    + unfold LabelIndexer._get_many in Hsl. rewrite Hr in Hsl. discriminate.
  - intros s sl' Hsl'.
    unfold indexables.LabelIndexer._get_slice in Hsl'. rewrite Hres in Hsl'.
    destruct (LabelIndexer._label_slice_to_indices li s) as [r|e] eqn:Hr;
      [|discriminate].
    cbn [bind] in Hsl'.
    destruct (indexables_as_slice_sound r sl' Hsl') as [Hrange' Hsp].
    destruct (utils_get_many_classification li s r Hr)
      as (Hrange & Hsingle & _).
    destruct (proj1 Hsingle Hsp) as [sl Hsl].
    exists sl. split; [assumption|].
    now rewrite (Hrange sl Hsl).
Qed.

Lemma X9_label_indexers_agree_witness :
  exists (li : LabelIndexer.t) (li' : indexables.LabelIndexer.t),
    LabelIndexer.__init__ (array1 int64 [30; 10; 20]) = Ok li
    /\ indexables.LabelIndexer.__init__ (array1 int64 [30; 10; 20]) = Ok li'
    /\ forall s : slice,
         indexables.LabelIndexer._resolve li' s
         = LabelIndexer._label_slice_to_indices li s.
Proof.
  do 2 eexists. split; [vm_compute; reflexivity|].
  split; [vm_compute; reflexivity|].
  refine (proj1 (X9_label_indexers_agree (array1 int64 [30; 10; 20]) _ _
                   eq_refl ltac:(repeat constructor) _ _));
    vm_compute; reflexivity.
Defined.

(** ** Label spaces of negative labels *)






(** ** A label and the unit slice at that label *)


Lemma np_max_bound (L : list Z) (mx v : Z) :
  np_max L = Ok mx -> In v L -> v <= mx.
Proof.
  destruct L as [|x L]; [discriminate|]. intros [= <-] Hv.
  destruct (fold_max_spec x L) as [_ Hle].
  rewrite Forall_forall in Hle. now apply Hle.
Qed.





(** ** Ascending labels and unit steps *)

Lemma below_nonneg (a : Z) (L : list Z) : 0 <= below a L.
Proof.
  unfold below. lia.
Qed.





Lemma arange_from_snoc (a d : Z) (n : nat) :
  arange_from a d (S n) = arange_from a d n ++ [a + Z.of_nat n * d].
Proof.
  revert a. induction n as [|n IH]; intros a.
  - cbn. f_equal. lia.
  - change (arange_from a d (S (S n)))
      with (a :: arange_from (a + d) d (S n)).
    rewrite IH. cbn [arange_from app]. do 3 f_equal. lia.
Qed.








(** ** The window of a normalised slice *)

Lemma rev_arange_from_descending (a : Z) (m : nat) :
  rev (arange_from a (-1) m) = arange_from (a - Z.of_nat m + 1) 1 m.
Proof.
  revert a. induction m as [|m IH]; intros a; [reflexivity|].
  change (arange_from a (-1) (S m)) with (a :: arange_from (a + -1) (-1) m).
  cbn [rev]. rewrite IH, (arange_from_snoc _ 1 m).
  replace (a + -1 - Z.of_nat m + 1) with (a - Z.of_nat (S m) + 1) by lia.
  do 2 f_equal. lia.
Qed.

(** X13: what the normalised slice covers.  For a slice with negative step
    and explicit bounds, every index the slice enumerates lies in the
    ascending window [lo, hi) that the normalised slice has for bounds; and
    for the step -1 the window read in ascending order and then reversed is
    exactly the enumeration of the slice. *)
Theorem X13_normalize_slice_window (a b k : Z) (l : list Z) :
  k < 0 ->
  slice_range (slice3 a b k) = Ok l ->
  exists lo hi : Z,
    TiledbArrayWrapper._normalize_slice (slice3 a b k) = slice3 lo hi k
    /\ Forall (fun x => lo <= x < hi) l
    /\ (k = -1 ->
        exists ascending : list Z,
          slice_range (slice3 lo hi 1) = Ok ascending
          /\ l = rev ascending).
Proof.
  intros Hk Hl. exists (b + 1), (a + 1).
  split; [now apply _normalize_slice_negative|].
  unfold slice_range, slice3 in *. cbn [start stop step] in *.
  unfold arange in *.
  destruct (k =? 0) eqn:E0; [discriminate|]. injection Hl as <-.
  split.
  - apply Forall_forall. intros x Hx. split.
    + apply arange_from_lower_neg in Hx; lia.
    + apply arange_from_upper_neg in Hx; lia.
  - intros ->. change (1 =? 0) with false. cbn iota.
    eexists. split; [reflexivity|].
    rewrite <- (rev_involutive (arange_from a (-1) _)).
    rewrite rev_arange_from_descending. f_equal.
    unfold arange_len. cbn [Z.ltb Z.compare Z.opp]. cbn.
    rewrite !Z.div_1_r.
    replace (a - b - -1 - 1) with (a - b) by lia.
    replace (a + 1 - (b + 1) + 1 - 1) with (a - b) by lia.
    destruct (Z.max_spec 0 (a - b)) as [[H ->]|[H ->]].
    + replace (a - Z.of_nat (Z.to_nat (a - b)) + 1) with (b + 1) by lia.
      reflexivity.
    + reflexivity.
Qed.

Lemma X13_normalize_slice_window_witness :
  exists lo hi : Z,
    TiledbArrayWrapper._normalize_slice (slice3 7 2 (-1)) = slice3 lo hi (-1)
    /\ Forall (fun x => lo <= x < hi) [7; 6; 5; 4; 3]
    /\ (-1 = -1 ->
        exists ascending : list Z,
          slice_range (slice3 lo hi 1) = Ok ascending
          /\ [7; 6; 5; 4; 3] = rev ascending).
Proof.
  apply (X13_normalize_slice_window 7 2 (-1) [7; 6; 5; 4; 3]).
  - lia.
  - reflexivity.
Defined.

(** ** The rows of [Headers] *)

Lemma combine_map_both {A B C : Type} (f : A -> B) (g : A -> C) (l : list A) :
  combine (map f l) (map g l) = map (fun x => (f x, g x)) l.
Proof.
  induction l as [|x l IH]; [reflexivity|]. cbn. now rewrite IH.
Qed.

Lemma zip_star_rows (columns : list (list Z)) (n : nat) :
  columns <> [] -> Forall (fun c => length c = n) columns ->
  zip_star columns
  = map (fun j => map (fun col => nth j col 0) columns) (seq 0 n).
Proof.
  intros Hne Hlen. unfold zip_star.
  destruct columns as [|c cs]; [contradiction|].
  inversion Hlen as [|? ? Hc Hcs]; subst.
  rewrite fold_min_same; [reflexivity|].
  rewrite Forall_map. exact Hcs.
Qed.

(** X14: [Headers._get_many] transposes the columns of the backend into one
    dict per trace.  When the backend answers a slice with a dict of at least
    one field (its keys distinct), all fields holding [n] values, the result has [n] dicts, and the
    dict of trace [j] maps every field name, in the backend's order, to the
    [j]-th value of that field.  With no field at all the result is the
    empty list. *)
Theorem X14_headers_rows (self : indexables.Headers.t) (i : slice)
    (headers : list (string * list Z)) (n : nat) :
  indexables.Headers.tdb_get_many self i = Ok headers ->
  NoDup (map fst headers) ->
  Forall (fun kc => length (snd kc) = n) headers ->
  (headers <> [] ->
     indexables.Headers._get_many self i
     = Ok (map (fun j => map (fun kc => (fst kc, nth j (snd kc) 0)) headers)
               (seq 0 n)))
  /\ (headers = [] -> indexables.Headers._get_many self i = Ok []).
Proof.
  intros Hread _ Hlen. unfold indexables.Headers._get_many. rewrite Hread.
  cbn [bind]. split.
  - intros Hne.
    rewrite (zip_star_rows (map snd headers) n).
    + rewrite map_map. f_equal. apply map_ext. intros j.
      unfold indexables.Headers.dict_zip.
      rewrite map_map. apply combine_map_both.
    + destruct headers; [contradiction|discriminate].
    + rewrite Forall_map. exact Hlen.
  - intros ->. reflexivity.
Qed.

Lemma X14_headers_rows_witness :
  indexables.Headers._get_many
    (indexables.Headers.mk
       (fun _ => Ok [])
       (fun _ => Ok [("TraceNumber", [5; 6; 7]); ("FieldRecord", [1; 1; 2])]))
    (slice2 5 8)
  = Ok (map (fun j => map (fun kc : string * list Z => (fst kc, nth j (snd kc) 0))
                          [("TraceNumber", [5; 6; 7]); ("FieldRecord", [1; 1; 2])])
            (seq 0 3)).
Proof.
  apply (proj1 (X14_headers_rows
                  (indexables.Headers.mk
                     (fun _ => Ok [])
                     (fun _ => Ok [("TraceNumber", [5; 6; 7]);
                                   ("FieldRecord", [1; 1; 2])]))
                  (slice2 5 8)
                  [("TraceNumber", [5; 6; 7]); ("FieldRecord", [1; 1; 2])] 3
                  eq_refl
                  ltac:(repeat constructor; cbn; intuition discriminate)
                  ltac:(repeat constructor))).
  discriminate.
Defined.

(** ** The axis [Lines] brings to the front *)

Lemma lines_setitem (la : Z) (label_indices offset_indices : indexables.Index) :
  la = 0 \/ la = 2 \/ la = 3 ->
  (let* c := indexables.Lines.setitem
               (repeat (indexables.Slice (mk_slice None None None)) 4)
               la label_indices in
   indexables.Lines.setitem c 1 offset_indices)
  = Ok (lines_composite la label_indices offset_indices).
Proof.
  intros [->|[->| ->]]; reflexivity.
Qed.

(** X15: the axis reconciliation of [Lines.__getitem__].  When the two
    lookups answer and the labels axis is one of the storage axes 0, 2, 3
    (the offsets axis being 1), the accessor reads the backend once, with the
    four-axis selector holding the two answers, and swaps to the front the
    axis of the backend's result that holds the lines when a range of lines
    was asked, else the one that holds the offsets when a range of offsets
    was asked; two scalars need no swap.  For the samples dimension read by a
    range, the last two axes are swapped afterwards. *)
Theorem X15_lines_front_axis
    (data_array : Type) (swapaxes : data_array -> Z -> Z -> data_array)
    (self : indexables.Lines.t data_array)
    (labels offsets label_indices offset_indices : indexables.Index) (la : Z) :
  la = 0 \/ la = 2 \/ la = 3 ->
  indexables.LabelIndexer.__getitem__
    (indexables.Lines._label_indexer self) labels = Ok label_indices ->
  indexables.LabelIndexer.__getitem__
    (indexables.Lines._offset_indexer self) offsets = Ok offset_indices ->
  indexables.Lines._labels_axis data_array self = Ok la ->
  let composite := lines_composite la label_indices offset_indices in
  let front :=
    if indexables.isinstance_slice label_indices
    then result_position composite la
    else if indexables.isinstance_slice offset_indices
         then result_position composite 1
         else 0 in
  indexables.Lines.__getitem__ swapaxes self
    (indexables.Lines.Pair (labels, offsets))
  = let* data := indexables.Lines.tdb_getitem
                   (indexables.Lines._data self) composite in
    let data := if 0 <? front then swapaxes data 0 front else data in
    Ok (if String.eqb (indexables.Lines._dim_name self) "samples"
           && indexables.isinstance_slice label_indices
        then swapaxes data (-1) (-2) else data).
Proof.
  intros Hla Hlabels Hoffsets Haxis composite front.
  unfold indexables.Lines.__getitem__.
  rewrite Hlabels. cbn [bind]. rewrite Hoffsets. cbn [bind].
  rewrite Haxis. cbn [bind].
  unfold indexables.Lines._offsets_axis.
  pose proof (lines_setitem la label_indices offset_indices Hla) as Hset.
  destruct (indexables.Lines.setitem _ la label_indices) as [c|e];
    cbn [bind] in Hset |- *; [|discriminate Hset].
  rewrite Hset. cbn [bind]. fold composite.
  destruct (indexables.Lines.tdb_getitem _ composite) as [data|e];
    [|reflexivity].
  cbn [bind]. subst front composite.
  destruct Hla as [->|[->| ->]];
    destruct label_indices as [lp|ls]; destruct offset_indices as [op|os];
    reflexivity.
Qed.

Lemma X15_lines_front_axis_witness :
  let self :=
    indexables.Lines.mk "xlines"
      (indexables.LabelIndexer.mk [10; 20; 30] 10 31 [0; 1; 2] int64)
      (indexables.LabelIndexer.mk [7; 8] 7 9 [0; 1] int64)
      7
      (indexables.Lines.mk_tiledb_Array
         ["ilines"; "offsets"; "xlines"; "samples"]
         (fun sel => Ok (kept_axes sel)))
      (indexables.Lines.mk_tiledb_Array [] (fun _ => Ok [])) in
  indexables.Lines.__getitem__ (fun d _ _ => d) self
    (indexables.Lines.Pair
       (indexables.Slice (slice2 10 31), indexables.Int 8))
  = Ok [0; 2; 3].
Proof.
  intros self.
  pose proof (X15_lines_front_axis (list Z) (fun d _ _ => d) self
                (indexables.Slice (slice2 10 31)) (indexables.Int 8)
                (indexables.Slice (slice3 0 3 1)) (indexables.Int 1) 2
                ltac:(right; now left) eq_refl eq_refl eq_refl) as H.
  exact H.
Defined.

(** ** When the structured trace indexer answers *)

Lemma mapM_ok_all {A B : Type} (f : A -> result B) (l : list A) :
  (forall x, In x l -> exists y, f x = Ok y) -> exists ys, mapM f l = Ok ys.
Proof.
  induction l as [|x l IH]; intros H; [now exists []|].
  destruct (H x (or_introl eq_refl)) as [y Hy].
  destruct IH as [ys Hys]; [intros z Hz; apply H; now right|].
  exists (y :: ys). cbn [mapM]. rewrite Hy. cbn [bind]. rewrite Hys. reflexivity.
Qed.

Lemma mapM_ok_each {A B : Type} (f : A -> result B) (l : list A) (ys : list B) :
  mapM f l = Ok ys -> forall x, In x l -> exists y, f x = Ok y.
Proof.
  revert ys. induction l as [|z l IH]; intros ys H x Hx; [contradiction|].
  cbn [mapM] in H. destruct (f z) as [y|] eqn:Hz; [|discriminate].
  cbn [bind] in H. destruct (mapM f l) as [ys'|] eqn:Hl; [|discriminate].
  destruct Hx as [<-|Hx]; [now exists y|]. now apply (IH ys').
Qed.

Lemma mapM_uniform_raise {A B : Type} (f : A -> result B) (l : list A) (e : exn) :
  (forall x, In x l -> f x = Raise e \/ exists y, f x = Ok y) ->
  (exists x, In x l /\ f x = Raise e) ->
  mapM f l = Raise e.
Proof.
  induction l as [|z l IH]; intros Hall (x & Hx & Hfx); [contradiction|].
  cbn [mapM]. destruct (Hall z (or_introl eq_refl)) as [Hz|[y Hz]];
    rewrite Hz; cbn [bind]; [reflexivity|].
  destruct Hx as [->|Hx]; [congruence|].
  rewrite IH; [reflexivity| |now exists x].
  intros w Hw. apply Hall. now right.
Qed.

Lemma StronglySorted_strictly_increasing (u : list Z) :
  StronglySorted Z.lt u -> strictly_increasing u.
Proof.
  induction 1 as [|x u Hu IH Hx]; intros i Hi; [cbn in Hi; lia|].
  destruct i as [|i].
  - cbn [nth]. rewrite Forall_forall in Hx. apply Hx, nth_In.
    cbn in Hi. lia.
  - cbn [nth]. apply IH. cbn in Hi. lia.
Qed.

(** On a strictly ascending non-empty array [ensure_slice] answers, or it
    raises MultiSliceError: the latter when the array is no single
    progression. *)
Lemma ensure_slice_ascending (u : list Z) :
  StronglySorted Z.lt u -> u <> [] ->
  (single_progression u
   /\ exists s, ensure_slice (PyArray (array1 intp u)) = Ok s)
  \/ (~ single_progression u
      /\ ensure_slice (PyArray (array1 intp u)) = Raise multi_slice_error).
Proof.
  intros Hs Hne.
  destruct (ensure_slice_array_classification u)
    as (_ & Hsingle & _ & _).
  destruct u as [|x [|y u]]; [contradiction| |].
  - left. assert (H : single_progression [x]) by now left.
    split; [exact H|]. now apply Hsingle.
  - set (a := x :: y :: u) in *.
    assert (Hlen : (2 <= length a)%nat) by (cbn; lia).
    assert (Hmono : forallb (fun d => 0 <? d) (diffs a)
                    || forallb (fun d => d <? 0) (diffs a) = true).
    { apply monotonic_check. left.
      now apply StronglySorted_strictly_increasing. }
    cbn [ensure_slice] in *.
    rewrite (_ensure_slice_array_long a Hlen) in *.
    cbn zeta in *. rewrite Hmono in *. cbn [negb] in *.
    destruct (1 <? length (np_unique (diffs a)))%nat.
    + right. split; [|reflexivity].
      intros H. apply Hsingle in H as [s H]. discriminate.
    + left. split; [|now eexists]. apply Hsingle. now eexists.
Qed.

Lemma getitem_slice_arange_bounds (n : Z) (s : slice) (idx : list Z) :
  0 <= n ->
  getitem_slice (arange_from 0 1 (Z.to_nat n)) s = Ok idx ->
  Forall (fun i => 0 <= i < n) idx.
Proof.
  intros Hn Hsel.
  destruct (step s) as [k|] eqn:Hstep.
  - destruct (Z.lt_total k 0) as [Hk|[Hk|Hk]].
    + now apply (getitem_slice_arange_negative n k s idx).
    + subst k. unfold getitem_slice, slice_indices in Hsel.
      rewrite Hstep in Hsel.
      destruct (Z.of_nat _ <? 0) in Hsel; discriminate.
    + apply (getitem_slice_arange_positive n s idx); [assumption| |assumption].
      now rewrite Hstep.
  - apply (getitem_slice_arange_positive n s idx); [assumption| |assumption].
    now rewrite Hstep.
Qed.

(** X16: when [StructuredTraceIndexer._get_many] answers.  For a shape with
    positive dimensions and a slice that selects at least one flat index,
    the indexer answers exactly when, on every axis, the distinct selected
    coordinates are a single element or a progression with one step;
    otherwise, exactly when some axis fails this, it raises MultiSliceError.
    It raises nothing else. *)
Theorem X16_get_many_outcome (shape : list Z) (s : slice) (idx : list Z) :
  shape <> [] -> Forall (fun d => 0 < d) shape ->
  getitem_slice (arange_from 0 1 (Z.to_nat (prod shape))) s = Ok idx ->
  idx <> [] ->
  let axis_coords := fun k : nat =>
    np_unique (map (fun i => nth k (unravel_one shape i) 0) idx) in
  ((forall k : nat, (k < length shape)%nat ->
      single_progression (axis_coords k))
   <-> exists bounding_box post_reshape_indices,
         StructuredTraceIndexer._get_many (TraceIndexer.mk shape) s
         = Ok (bounding_box, post_reshape_indices))
  /\ ((exists k : nat, (k < length shape)%nat
                       /\ ~ single_progression (axis_coords k))
      <-> StructuredTraceIndexer._get_many (TraceIndexer.mk shape) s
          = Raise multi_slice_error).
Proof.
  intros Hne Hshape Hsel Hidx axis_coords.
  pose proof (prod_pos shape Hshape) as Hprod.
  pose proof (getitem_slice_arange_bounds (prod shape) s idx
                ltac:(lia) Hsel) as Hbounds.
  assert (Hin : forallb (in_bounds (prod shape)) idx = true).
  { apply forallb_forall. intros i Hi.
    rewrite Forall_forall in Hbounds. specialize (Hbounds i Hi).
    unfold in_bounds. apply andb_true_iff. split.
    - apply Z.leb_le. lia.
    - apply Z.ltb_lt. lia. }
  set (f := fun u => ensure_slice (PyArray (array1 intp u))).
  set (axes := map axis_coords (seq 0 (length shape))).
  assert (Hget : StructuredTraceIndexer._get_many (TraceIndexer.mk shape) s
                 = let* bounding_box := mapM f axes in
                   Ok (bounding_box,
                       map fst
                         (filter
                            (fun ip => frozenset_mem (snd ip)
                               (map (unravel_one shape) idx))
                            (enumerate (product axes))))).
  { unfold StructuredTraceIndexer._get_many.
    change (TraceIndexer.__len__ (TraceIndexer.mk shape)) with (prod shape).
    change (TraceIndexer._shape (TraceIndexer.mk shape)) with shape.
    rewrite Hsel. cbn [bind]. unfold unravel_index. rewrite Hin. cbn [bind].
    rewrite zip_star_unravel by assumption. rewrite map_map. reflexivity. }
  assert (Hcases : forall u, In u axes ->
            (single_progression u /\ exists sl, f u = Ok sl)
            \/ (~ single_progression u /\ f u = Raise multi_slice_error)).
  { intros u Hu. apply in_map_iff in Hu as (k & <- & _).
    apply ensure_slice_ascending; [apply np_unique_sorted|].
    destruct idx as [|i idx]; [contradiction|].
    intros Hnil.
    assert (Hi : In (nth k (unravel_one shape i) 0) (axis_coords k)).
    { apply In_np_unique. now left. }
    rewrite Hnil in Hi. contradiction. }
  assert (Haxis : forall k, (k < length shape)%nat -> In (axis_coords k) axes).
  { intros k Hk. apply in_map. apply in_seq. lia. }
  rewrite Hget. split; split.
  - intros Hall.
    destruct (mapM_ok_all f axes) as [bbox Hbbox].
    + intros u Hu. destruct (Hcases u Hu) as [[_ H]|[Hns _]]; [exact H|].
      apply in_map_iff in Hu as (k & <- & Hk). apply in_seq in Hk.
      elim Hns. apply Hall. lia.
    + rewrite Hbbox. cbn [bind]. now do 2 eexists.
  - intros (bbox & recipe & H) k Hk.
    destruct (mapM f axes) as [bbox'|] eqn:Hbbox; [|discriminate].
    destruct (mapM_ok_each f axes bbox' Hbbox _ (Haxis k Hk)) as [sl Hsl].
    destruct (Hcases _ (Haxis k Hk)) as [[Hsp _]|[_ Hr]]; [exact Hsp|].
    rewrite Hsl in Hr. discriminate.
  - intros (k & Hk & Hns).
    rewrite (mapM_uniform_raise f axes multi_slice_error); [reflexivity| |].
    + intros u Hu. destruct (Hcases u Hu) as [[_ H]|[_ H]]; [now right|now left].
    + exists (axis_coords k). split; [now apply Haxis|].
      destruct (Hcases _ (Haxis k Hk)) as [[Hsp _]|[_ H]]; [contradiction|exact H].
  - intros H.
    destruct (mapM f axes) as [bbox|e] eqn:Hbbox; [discriminate|].
    cbn [bind] in H. injection H as ->.
    assert (Hex : exists u, In u axes /\ ~ single_progression u).
    { clear Hget. revert Hbbox. generalize Hcases. generalize axes.
      induction axes0 as [|u l IH]; intros Hc Hm; [discriminate|].
      cbn [mapM] in Hm.
      destruct (Hc u (or_introl eq_refl)) as [[_ [sl Hu]]|[Hns _]].
      - rewrite Hu in Hm. cbn [bind] in Hm.
        destruct (mapM f l) as [ys|e'] eqn:Hl; [discriminate|].
        destruct IH as (w & Hw & Hws).
        + intros w Hw. apply Hc. now right.
        + cbn [bind] in Hm. now injection Hm as ->.
        + exists w. split; [now right|assumption].
      - exists u. split; [now left|assumption]. }
    destruct Hex as (u & Hu & Hns).
    apply in_map_iff in Hu as (k & <- & Hk). apply in_seq in Hk.
    exists k. split; [lia|assumption].
Qed.

Lemma X16_get_many_outcome_witness :
  (exists k : nat,
     (k < length [2; 4; 2])%nat
     /\ ~ single_progression
          (np_unique (map (fun i => nth k (unravel_one [2; 4; 2] i) 0)
                          [6; 7; 8; 9; 10; 11])))
  <-> StructuredTraceIndexer._get_many (TraceIndexer.mk [2; 4; 2]) (slice2 6 12)
      = Raise multi_slice_error.
Proof.
  apply (proj2 (X16_get_many_outcome [2; 4; 2] (slice2 6 12)
                  [6; 7; 8; 9; 10; 11]
                  ltac:(discriminate) ltac:(repeat constructor)
                  eq_refl ltac:(discriminate))).
Defined.

(** ** Reading every trace *)

Lemma ravel_bounds (shape : list Z) :
  Forall (fun d => 0 < d) shape ->
  forall coords : list Z,
    Forall2 (fun c d => 0 <= c < d) coords shape ->
    0 <= ravel shape coords < prod shape.
Proof.
  induction 1 as [|d s Hd Hs IH]; intros coords Hc.
  - inversion Hc; subst. cbn. lia.
  - inversion Hc as [|c ? cs ? Hcd Hcs]; subst.
    specialize (IH cs Hcs). pose proof (prod_pos s Hs) as HP.
    cbn [ravel]. change (prod (d :: s)) with (d * prod s). nia.
Qed.

(** Ravelling coordinates within the shape and unravelling the result gives
    the coordinates back. *)
Lemma unravel_ravel (shape : list Z) :
  Forall (fun d => 0 < d) shape ->
  forall coords : list Z,
    Forall2 (fun c d => 0 <= c < d) coords shape ->
    unravel_one shape (ravel shape coords) = coords.
Proof.
  induction 1 as [|d s Hd Hs IH]; intros coords Hc.
  - inversion Hc; subst. reflexivity.
  - inversion Hc as [|c ? cs ? Hcd Hcs]; subst.
    pose proof (prod_pos s Hs) as HP.
    pose proof (ravel_bounds s Hs cs Hcs) as Hr.
    assert (Hb : 0 <= ravel (d :: s) (c :: cs) < d * prod s).
    { apply (ravel_bounds (d :: s)); now constructor. }
    rewrite unravel_one_cons by assumption.
    cbn [ravel].
    assert (Hq : (c * prod s + ravel s cs) / prod s = c).
    { rewrite Z.div_add_l by lia.
      rewrite (Z.div_small (ravel s cs)) by lia. lia. }
    assert (Hm : (c * prod s + ravel s cs) mod prod s = ravel s cs).
    { rewrite (Z.add_comm (c * prod s)), Z.mod_add by lia.
      apply Z.mod_small. lia. }
    rewrite Hq, Hm, (IH cs Hcs). reflexivity.
Qed.

Lemma filter_all {A : Type} (p : A -> bool) (l : list A) :
  (forall x, In x l -> p x = true) -> filter p l = l.
Proof.
  induction l as [|x l IH]; intros H; [reflexivity|].
  cbn [filter]. rewrite (H x (or_introl eq_refl)). f_equal.
  apply IH. intros y Hy. apply H. now right.
Qed.

(** Two strictly sorted lists with the same elements are equal. *)
Lemma sorted_ext {A : Type} (R : A -> A -> Prop) (mem : A -> list A -> bool)
    (L M : list A) :
  (forall x, ~ R x x) -> (forall x y z, R x y -> R y z -> R x z) ->
  (forall x l, mem x l = true <-> In x l) ->
  StronglySorted R L -> StronglySorted R M ->
  (forall x, In x L <-> In x M) ->
  L = M.
Proof.
  intros Hirr Htrans Hmem HL HM Hiff.
  rewrite <- (filter_sorted_sub A R Hirr Htrans mem Hmem L M HL HM)
    by (intros x Hx; now apply Hiff).
  symmetry. apply filter_all. intros x Hx. now apply Hmem, Hiff.
Qed.

Lemma mem_Z_In (x : Z) (l : list Z) : mem_Z x l = true <-> In x l.
Proof.
  unfold mem_Z. rewrite existsb_exists. split.
  - intros (y & Hy & Heq). apply Z.eqb_eq in Heq. now subst.
  - intros H. exists x. split; [assumption|apply Z.eqb_refl].
Qed.

Lemma zeros_valid (shape : list Z) :
  Forall (fun d => 0 < d) shape ->
  Forall2 (fun c d => 0 <= c < d) (map (fun _ => 0) shape) shape.
Proof.
  induction 1 as [|d s Hd _ IH]; cbn [map]; constructor; [lia|assumption].
Qed.

Lemma coords_with (shape : list Z) :
  Forall (fun d => 0 < d) shape ->
  forall (k : nat) (c : Z),
    (k < length shape)%nat -> 0 <= c < nth k shape 0 ->
    exists coords : list Z,
      Forall2 (fun c d => 0 <= c < d) coords shape /\ nth k coords 0 = c.
Proof.
  induction 1 as [|d s Hd Hs IH]; intros k c Hk Hc; [cbn in Hk; lia|].
  destruct k as [|k]; cbn [nth] in Hc.
  - exists (c :: map (fun _ => 0) s). split; [|reflexivity].
    constructor; [assumption|now apply zeros_valid].
  - destruct (IH k c) as (cs & Hcs & Hnth); [cbn in Hk; lia|assumption|].
    exists (0 :: cs). split; [|exact Hnth]. constructor; [lia|assumption].
Qed.

Lemma Forall2_nth_bound (coords shape : list Z) (k : nat) :
  Forall2 (fun c d => 0 <= c < d) coords shape ->
  (k < length shape)%nat ->
  0 <= nth k coords 0 < nth k shape 0.
Proof.
  intros H. revert k. induction H as [|c d cs s Hcd _ IH]; intros k Hk;
    [cbn in Hk; lia|].
  destruct k as [|k]; cbn [nth]; [assumption|]. apply IH. cbn in Hk. lia.
Qed.

(** Over all flat indices, the distinct coordinates along an axis are the
    whole axis. *)
Lemma axis_coords_full (shape : list Z) (k : nat) :
  Forall (fun d => 0 < d) shape -> (k < length shape)%nat ->
  np_unique (map (fun i => nth k (unravel_one shape i) 0)
                 (arange_from 0 1 (Z.to_nat (prod shape))))
  = arange_from 0 1 (Z.to_nat (nth k shape 0)).
Proof.
  intros Hshape Hk. pose proof (prod_pos shape Hshape) as HP.
  apply (sorted_ext Z.lt mem_Z).
  - intros x. lia.
  - intros x y z. lia.
  - exact mem_Z_In.
  - apply np_unique_sorted.
  - apply arange_from_sorted. lia.
  - intros c. rewrite In_np_unique, in_map_iff, In_positions. split.
    + intros (i & <- & Hi). apply In_positions in Hi.
      destruct (unravel_one_spec shape Hshape i ltac:(lia)) as [Hb _].
      pose proof (Forall2_nth_bound _ _ k Hb Hk). lia.
    + intros Hc.
      destruct (coords_with shape Hshape k c Hk ltac:(lia))
        as (coords & Hcoords & Hnth).
      exists (ravel shape coords). split.
      * now rewrite unravel_ravel.
      * apply In_positions.
        pose proof (ravel_bounds shape Hshape coords Hcoords). lia.
Qed.

Lemma In_product_inv (ls : list (list Z)) (p : list Z) :
  In p (product ls) -> Forall2 (fun c l => In c l) p ls.
Proof.
  revert p. induction ls as [|l ls IH]; intros p Hp; cbn [product] in Hp.
  - destruct Hp as [<-|[]]. constructor.
  - apply in_flat_map in Hp as (x & Hx & Hp).
    apply in_map_iff in Hp as (q & <- & Hq).
    constructor; [assumption|now apply IH].
Qed.

Lemma getitem_slice_full (n : Z) :
  0 <= n ->
  getitem_slice (arange_from 0 1 (Z.to_nat n)) (mk_slice None None None)
  = Ok (arange_from 0 1 (Z.to_nat n)).
Proof.
  intros Hn. unfold getitem_slice, slice_indices.
  rewrite arange_from_length, Z2Nat.id by assumption. cbn [step start stop].
  change (1 =? 0) with false. change (1 <? 0) with false. cbn iota.
  destruct (n <? 0) eqn:E; [apply Z.ltb_lt in E; lia|].
  cbn [clamp_index bind]. unfold arange, arange_len.
  change (1 =? 0) with false. change (0 <? 1) with true. cbn iota.
  replace (n - 0 + 1 - 1) with n by lia. rewrite Z.div_1_r.
  rewrite Z.max_r by assumption. cbn [bind]. f_equal.
  rewrite <- (map_id (arange_from 0 1 (Z.to_nat n))) at 3.
  apply map_ext_in. intros x Hx. apply In_positions in Hx.
  unfold nthZ. rewrite nth_arange_from by lia. lia.
Qed.

Lemma ensure_slice_full_axis (d : Z) :
  0 < d ->
  ensure_slice (PyArray (array1 intp (arange_from 0 1 (Z.to_nat d))))
  = Ok (if d =? 1 then slice2 0 1 else slice3 0 d 1).
Proof.
  intros Hd. destruct (Z.to_nat d) as [|[|n]] eqn:E; [lia| |].
  - replace d with 1 by lia. reflexivity.
  - destruct (d =? 1) eqn:E1; [apply Z.eqb_eq in E1; lia|].
    cbn [ensure_slice].
    rewrite _ensure_slice_array_progression by (reflexivity || lia).
    unfold slice3. do 3 f_equal. cbn [Z.sgn]. lia.
Qed.

Lemma enumerate_from_positions {A : Type} (k : Z) (P : list A) :
  map fst (enumerate_from k P) = arange_from k 1 (length P).
Proof.
  revert k. induction P as [|x P IH]; intros k; [reflexivity|].
  cbn [enumerate_from map fst length arange_from]. now rewrite IH.
Qed.

Lemma mapM_map_ok_in {A B C : Type} (f : B -> result C) (g : A -> B)
    (h : A -> C) (l : list A) :
  (forall x, In x l -> f (g x) = Ok (h x)) -> mapM f (map g l) = Ok (map h l).
Proof.
  induction l as [|x l IH]; intros H; [reflexivity|].
  cbn [map mapM]. rewrite (H x (or_introl eq_refl)). cbn [bind].
  rewrite IH; [reflexivity|]. intros y Hy. apply H. now right.
Qed.

Lemma Forall2_map_right {A B C : Type} (P : A -> C -> Prop) (g : B -> C)
    (p : list A) (s : list B) :
  Forall2 P p (map g s) -> Forall2 (fun a b => P a (g b)) p s.
Proof.
  revert p. induction s as [|d s IH]; intros p H; inversion H; subst;
    constructor; auto.
Qed.

Lemma filter_enumerate_all {A : Type} (pred : A -> bool) (k : Z) (P : list A) :
  (forall x, In x P -> pred x = true) ->
  filter (fun ip => pred (snd ip)) (enumerate_from k P) = enumerate_from k P.
Proof.
  revert k. induction P as [|x P IH]; intros k H; [reflexivity|].
  cbn [enumerate_from filter snd]. rewrite (H x (or_introl eq_refl)).
  f_equal. apply IH. intros y Hy. apply H. now right.
Qed.

(** Over all flat indices, the product of the whole axes lists the
    unravelled indices in flat order. *)
Lemma product_full_axes (shape : list Z) :
  shape <> [] -> Forall (fun d => 0 < d) shape ->
  product (map (fun d => arange_from 0 1 (Z.to_nat d)) shape)
  = map (unravel_one shape) (arange_from 0 1 (Z.to_nat (prod shape))).
Proof.
  intros Hne Hshape. pose proof (prod_pos shape Hshape) as HP.
  apply (sorted_ext lex_lt frozenset_mem).
  - exact lex_lt_irrefl.
  - exact lex_lt_trans.
  - exact frozenset_mem_In.
  - apply product_sorted. apply Forall_forall. intros l Hl.
    apply in_map_iff in Hl as (d & <- & _). apply arange_from_sorted. lia.
  - apply (StronglySorted_map Z.lt); [|apply arange_from_sorted; lia].
    intros i j Hi Hj Hij. apply In_positions in Hi. apply In_positions in Hj.
    apply unravel_one_lt; (assumption || lia).
  - intros p. split.
    + intros Hp. apply In_product_inv, Forall2_map_right in Hp.
      assert (Hb : Forall2 (fun c d => 0 <= c < d) p shape).
      { clear Hne HP. induction Hp as [|c d cs s Hc _ IH]; [constructor|].
        inversion Hshape as [|? ? Hd Hs]; subst.
        constructor; [|now apply IH].
        apply In_positions in Hc. lia. }
      rewrite <- (unravel_ravel shape Hshape p Hb).
      apply in_map. apply In_positions.
      pose proof (ravel_bounds shape Hshape p Hb). lia.
    + intros Hp. apply in_map_iff in Hp as (i & <- & Hi).
      apply In_positions in Hi.
      destruct (unravel_one_spec shape Hshape i ltac:(lia)) as [Hb _].
      rewrite <- (map_seq_nth (fun d => arange_from 0 1 (Z.to_nat d)) shape).
      rewrite <- (unravel_one_length shape i).
      apply (In_product (fun k => arange_from 0 1 (Z.to_nat (nth k shape 0)))).
      intros k Hk. cbn [Nat.add]. rewrite unravel_one_length in Hk.
      apply In_positions.
      pose proof (Forall2_nth_bound _ _ k Hb Hk). lia.
Qed.

(** X17: reading every trace.  For a shape with at least one axis and
    positive dimensions, the fully open slice is answered with the whole grid
    as bounding box, each axis [d] as [slice(0, d, 1)] (as [slice(0, 1)] for
    an axis of size 1), and with the identity recipe [0, 1, ..., n-1] over
    the [n] cells of the grid. *)
Theorem X17_get_many_full_slice (shape : list Z) :
  shape <> [] -> Forall (fun d => 0 < d) shape ->
  StructuredTraceIndexer._get_many (TraceIndexer.mk shape)
    (mk_slice None None None)
  = Ok (map (fun d => if d =? 1 then slice2 0 1 else slice3 0 d 1) shape,
        arange_from 0 1 (Z.to_nat (prod shape))).
Proof.
  intros Hne Hshape. pose proof (prod_pos shape Hshape) as HP.
  set (idx := arange_from 0 1 (Z.to_nat (prod shape))).
  unfold StructuredTraceIndexer._get_many.
  change (TraceIndexer.__len__ (TraceIndexer.mk shape)) with (prod shape).
  change (TraceIndexer._shape (TraceIndexer.mk shape)) with shape.
  rewrite getitem_slice_full by lia. fold idx. cbn [bind].
  unfold unravel_index.
  assert (Hin : forallb (in_bounds (prod shape)) idx = true).
  { apply forallb_forall. intros i Hi. apply In_positions in Hi.
    unfold in_bounds. apply andb_true_iff. split.
    - apply Z.leb_le. lia.
    - apply Z.ltb_lt. lia. }
  rewrite Hin. cbn [bind].
  rewrite zip_star_unravel by assumption. rewrite map_map.
  assert (Haxes :
    map (fun x : nat =>
           np_unique (map (fun i => nth x (unravel_one shape i) 0) idx))
        (seq 0 (length shape))
    = map (fun d => arange_from 0 1 (Z.to_nat d)) shape).
  { rewrite <- (map_seq_nth (fun d => arange_from 0 1 (Z.to_nat d)) shape).
    apply map_ext_in. intros k Hk. apply in_seq in Hk.
    apply axis_coords_full; [assumption|lia]. }
  rewrite Haxes.
  rewrite (mapM_map_ok_in _ (fun d => arange_from 0 1 (Z.to_nat d))
             (fun d => if d =? 1 then slice2 0 1 else slice3 0 d 1)).
  - cbn [bind]. rewrite product_full_axes by assumption. fold idx.
    unfold enumerate.
    rewrite (filter_enumerate_all
               (fun p => frozenset_mem p (map (unravel_one shape) idx))).
    + rewrite enumerate_from_positions, length_map.
      unfold idx. rewrite arange_from_length. reflexivity.
    + intros p Hp. now apply frozenset_mem_In.
  - intros d Hd. apply ensure_slice_full_axis.
    rewrite Forall_forall in Hshape. now apply Hshape.
Qed.

Lemma X17_get_many_full_slice_witness :
  StructuredTraceIndexer._get_many (TraceIndexer.mk [3; 1; 2])
    (mk_slice None None None)
  = Ok ([slice3 0 3 1; slice2 0 1; slice3 0 2 1], [0; 1; 2; 3; 4; 5]).
Proof.
  apply (X17_get_many_full_slice [3; 1; 2]).
  - discriminate.
  - repeat constructor.
Defined.

(** ** Arrays of an unsigned dtype *)

(** In [uint64] the difference of two distinct elements is stored as a
    positive number, whichever of the two is the larger. *)
Lemma uint64_difference_positive (x y : Z) :
  representable uint64 x -> representable uint64 y -> x <> y ->
  0 < wrap uint64 (y - x).
Proof.
  unfold representable, wrap. cbn [wraps dtype_min dtype_max].
  change (2 ^ 64 - 1 - 0 + 1) with (2 ^ 64).
  remember (2 ^ 64) as M eqn:HM.
  assert (HMpos : 0 < M) by (subst M; reflexivity).
  intros Hx Hy Hne.
  pose proof (Z.mod_pos_bound (y - x - 0) M HMpos) as Hb.
  destruct (Z.eq_dec ((y - x - 0) mod M) 0) as [H0|H0]; [|lia].
  apply Z.mod_divide in H0; [|lia]. destruct H0 as [q Hq]. nia.
Qed.

Lemma np_diffs_uint64_positive (A : list Z) :
  Forall (representable uint64) A ->
  (forall i : nat, (S i < length A)%nat -> nth i A 0 <> nth (S i) A 0) ->
  forallb (fun d => 0 <? d) (np_diffs uint64 A) = true.
Proof.
  intros Hrep Hne. rewrite Forall_forall in Hrep.
  apply forallb_forall. intros d Hd. unfold np_diffs in Hd.
  apply in_map_iff in Hd as (z & <- & Hz).
  apply (In_nth _ _ 0) in Hz as (i & Hi & <-).
  rewrite diffs_length in Hi. rewrite nth_diffs by lia.
  apply Z.ltb_lt. apply uint64_difference_positive.
  - apply Hrep, nth_In. lia.
  - apply Hrep, nth_In. lia.
  - apply Hne. lia.
Qed.

Lemma np_unique_first_In (l : list Z) :
  l <> [] -> In (nthZ (np_unique l) 0) l.
Proof.
  intros Hne. apply In_np_unique.
  destruct l as [|x l]; [contradiction|].
  assert (Hin : In x (np_unique (x :: l))) by (apply In_np_unique; now left).
  destruct (np_unique (x :: l)) as [|u us]; [contradiction|]. now left.
Qed.

(** X18: [ensure_slice] on an array of dtype [uint64].  The differences of
    neighbouring elements are taken in the unsigned dtype, where none is
    negative.  So a one-dimensional [uint64] array of at least two elements,
    no two neighbours equal, is never refused as non-monotonic, whatever its
    order; a slice returned for it has a positive step; and for a strictly
    decreasing array such a slice cannot denote the array. *)
Theorem X18_unsigned_array_passes_for_increasing (A : list Z) :
  (2 <= length A)%nat ->
  Forall (representable uint64) A ->
  (forall i : nat, (S i < length A)%nat -> nth i A 0 <> nth (S i) A 0) ->
  let res := ensure_slice (PyArray (array1 uint64 A)) in
  res <> Raise non_monotonic_error
  /\ (forall s, res = Ok s -> exists k : Z, step s = Some k /\ 0 < k)
  /\ (strictly_decreasing A -> forall s, res = Ok s -> slice_range s <> Ok A).
Proof.
  intros Hlen Hrep Hne res.
  pose proof (np_diffs_uint64_positive A Hrep Hne) as Hpos.
  assert (Hds : np_diffs uint64 A <> []).
  { intros H. apply (f_equal (@length Z)) in H.
    unfold np_diffs in H. rewrite length_map, diffs_length in H.
    cbn in H. lia. }
  assert (Hstep : 0 < nthZ (np_unique (np_diffs uint64 A)) 0).
  { rewrite forallb_forall in Hpos. apply Z.ltb_lt, Hpos.
    now apply np_unique_first_In. }
  assert (Hres : res =
    if (1 <? length (np_unique (np_diffs uint64 A)))%nat
    then Raise multi_slice_error
    else Ok (slice3 (nthZ A 0)
               (np_add uint64 (last A 0)
                  (if 0 <? nthZ (np_unique (np_diffs uint64 A)) 0
                   then 1 else -1))
               (nthZ (np_unique (np_diffs uint64 A)) 0))).
  { unfold res. cbn [ensure_slice].
    rewrite _ensure_slice_array_unfold by (reflexivity || assumption).
    cbn zeta. rewrite Hpos. reflexivity. }
  rewrite Hres. clear Hres res.
  destruct (1 <? length (np_unique (np_diffs uint64 A)))%nat.
  - split; [discriminate|]. split; [discriminate|]. discriminate.
  - split; [discriminate|]. split.
    + intros s [= <-]. eexists. split; [reflexivity|assumption].
    + intros Hdec s [= <-] Hrange.
      set (k := nthZ (np_unique (np_diffs uint64 A)) 0) in *.
      unfold slice_range, slice3 in Hrange. cbn [start stop step] in Hrange.
      unfold arange in Hrange.
      destruct (k =? 0); [discriminate|]. injection Hrange as Hrange.
      specialize (Hdec 0%nat ltac:(lia)).
      destruct A as [|a0 [|a1 A]]; cbn in Hlen; try lia.
      destruct (Z.to_nat _) as [|[|n]]; try discriminate.
      cbn [arange_from] in Hrange. injection Hrange as H0 H1.
      cbn [nth] in Hdec. change (nthZ (a0 :: a1 :: A) 0) with a0 in H0.
      clearbody k. lia.
Qed.

Lemma X18_unsigned_array_passes_for_increasing_witness :
  ensure_slice (PyArray (array1 uint64 [0; 2; 1])) <> Raise non_monotonic_error
  /\ (forall s,
        ensure_slice (PyArray (array1 uint64 [9; 6; 3; 0])) = Ok s ->
        slice_range s <> Ok [9; 6; 3; 0]).
Proof.
  split.
  - apply (X18_unsigned_array_passes_for_increasing [0; 2; 1]).
    + cbn. lia.
    + repeat constructor; discriminate.
    + intros [|[|i]] Hi; cbn in *; lia.
  - apply (X18_unsigned_array_passes_for_increasing [9; 6; 3; 0]).
    + cbn. lia.
    + repeat constructor; discriminate.
    + intros [|[|[|i]]] Hi; cbn in *; lia.
    + intros [|[|[|i]]] Hi; cbn in *; lia.
Defined.

(** ** A label at the greatest value of its dtype *)

(** X19: over an [int64] label array that holds the greatest [int64] value,
    [labels.max() + 1] wraps around to the least value, and the exclusive
    maximum label both indexers store is negative.  Every range lookup then
    stops in [slice.indices] with the negative-length ValueError, whatever
    the label slice, in both label indexers.  (Scalar lookups are not
    affected.) *)
Theorem X19_label_at_dtype_maximum (labels : ndarray) (s : slice) :
  dtype labels = int64 ->
  Forall (representable int64) (items labels) ->
  In (dtype_max int64) (items labels) ->
  (forall li : LabelIndexer.t,
     LabelIndexer.__init__ labels = Ok li ->
     LabelIndexer._max_label li = dtype_min int64
     /\ LabelIndexer._get_many li s
        = Raise (ValueError "length should not be negative"))
  /\ (forall li : indexables.LabelIndexer.t,
        indexables.LabelIndexer.__init__ labels = Ok li ->
        indexables.LabelIndexer._max_label li = dtype_min int64
        /\ indexables.LabelIndexer._get_slice li s
           = Raise (ValueError "length should not be negative")).
Proof.
  intros Hdt Hrep Hin.
  assert (Hmax : forall mx, np_max (items labels) = Ok mx ->
                 np_add (dtype labels) mx 1 = dtype_min int64).
  { intros mx Hmx. rewrite Hdt.
    assert (mx = dtype_max int64) as ->.
    { pose proof (np_max_bound _ _ _ Hmx Hin) as Hge.
      apply np_max_In in Hmx. rewrite Forall_forall in Hrep.
      destruct (Hrep _ Hmx) as [_ Hle]. lia. }
    now apply np_add_at_max. }
  split; intros li Hinit.
  - destruct (utils_init_inv _ _ Hinit)
      as (_ & _ & _ & _ & (mx & Hmx & Hstored) & _).
    rewrite (Hmax mx Hmx) in Hstored. split; [assumption|].
    unfold LabelIndexer._get_many.
    rewrite utils_resolve_unfold. unfold label_candidates, slice_indices.
    rewrite Hstored. reflexivity.
  - destruct (indexables_init_inv _ _ Hinit)
      as (_ & _ & _ & _ & (mx & Hmx & Hstored) & _).
    rewrite (Hmax mx Hmx) in Hstored. split; [assumption|].
    unfold indexables.LabelIndexer._get_slice.
    rewrite indexables_resolve_unfold. unfold label_candidates, slice_indices.
    rewrite Hstored. reflexivity.
Qed.

Lemma X19_label_at_dtype_maximum_witness :
  exists li : LabelIndexer.t,
    LabelIndexer.__init__ (array1 int64 [2 ^ 63 - 1; 5]) = Ok li
    /\ LabelIndexer._max_label li = dtype_min int64
    /\ LabelIndexer._get_many li (slice2 0 10)
       = Raise (ValueError "length should not be negative").
Proof.
  eexists. split; [vm_compute; reflexivity|].
  apply (proj1 (X19_label_at_dtype_maximum (array1 int64 [2 ^ 63 - 1; 5])
                  (slice2 0 10) eq_refl
                  ltac:(repeat constructor; discriminate)
                  ltac:(now left))).
  vm_compute. reflexivity.
Defined.
